(** * butler-provider-harvester: the Harvester adapter and the MachineRequest
    reconciler, embedded in Rocq.

  The development follows the two Go files of the provider:

  - [internal/harvester/client.go]: the adapter ([CreateVM],
    [createImagePVC], [buildVM], [DeleteVM], [GetVMStatus], [parseName],
    [isUsableIP]);
  - the controller ([Reconcile], [reconcilePending], [reconcileCreating],
    [reconcileRunning], [reconcileDelete], [updatePhase],
    [updateStatusError], [getProviderConfig], [createHarvesterClient]).

  Every call that leaves the process (the record store of the management
  cluster, the Harvester cluster, the clock, the event recorder) goes
  through a table of handlers over an abstract world, so that the theorems
  hold for every behaviour of the environment.  The calls issued are
  logged in a trace. *)

From Stdlib Require Import ZArith List String Ascii Bool Lia.
From stdpp Require Import base decidable option list strings pretty gmap.

Import ListNotations.
Local Open Scope string_scope.
Local Open Scope Z_scope.
Local Open Scope list_scope.

(** ** Go errors and the apimachinery status reasons *)

Module GoErr.

(** [metav1.StatusReason]. *)
Inductive StatusReason : Type :=
| StatusReasonUnknown
| StatusReasonUnauthorized
| StatusReasonForbidden
| StatusReasonNotFound
| StatusReasonAlreadyExists
| StatusReasonConflict
| StatusReasonGone
| StatusReasonInvalid
| StatusReasonServerTimeout
| StatusReasonTimeout
| StatusReasonTooManyRequests
| StatusReasonBadRequest
| StatusReasonInternalError
| StatusReasonServiceUnavailable.

#[global] Instance StatusReason_eq_dec : EqDecision StatusReason.
Proof. solve_decision. Defined.

(** A Go [error] value: an API status error, an error made by
    [fmt.Errorf] without [%w], or an error wrapping another one with
    [fmt.Errorf("...: %w", err)]. *)
Inductive error : Type :=
| StatusError (reason : StatusReason) (message : string)
| Errorf (message : string)
| Wrap (prefix : string) (inner : error).

(** [err.Error()]. *)
Fixpoint Error (e : error) : string :=
  match e with
  | StatusError _ m => m
  | Errorf m => m
  | Wrap p inner => p +:+ Error inner
  end.

(** [apierrors.ReasonForError]: [errors.As] walks the [%w] chain. *)
Fixpoint ReasonForError (e : error) : StatusReason :=
  match e with
  | StatusError r _ => r
  | Errorf _ => StatusReasonUnknown
  | Wrap _ inner => ReasonForError inner
  end.

Definition IsNotFound (e : error) : bool :=
  bool_decide (ReasonForError e = StatusReasonNotFound).

Definition IsAlreadyExists (e : error) : bool :=
  bool_decide (ReasonForError e = StatusReasonAlreadyExists).

(** The innermost error of a [%w] chain. *)
Fixpoint root_cause (e : error) : error :=
  match e with
  | Wrap _ inner => root_cause inner
  | _ => e
  end.

End GoErr.
Export GoErr.

(** A call that returns [(T, error)]. *)
Inductive res (A : Type) : Type :=
| Ok (a : A)
| Err (e : error).
Arguments Ok {A} a.
Arguments Err {A} e.

(** ** Unstructured objects ([map[string]interface{}]) *)

Module Unstructured.

#[warnings="-register-all"]
Inductive JVal : Type :=
| JNull
| JBool (b : bool)
| JInt (z : Z)
| JStr (s : string)
| JArr (items : list JVal)
| JObj (fields : list (string * JVal)).

(** [m[key]] on a Go map held as an association list. *)
Fixpoint assoc (key : string) (fields : list (string * JVal)) : option JVal :=
  match fields with
  | [] => None
  | (k, v) :: rest => if String.eqb k key then Some v else assoc key rest
  end.

(** [m[key] = v]. *)
Fixpoint assoc_set (key : string) (v : JVal) (fields : list (string * JVal))
  : list (string * JVal) :=
  match fields with
  | [] => [(key, v)]
  | (k, w) :: rest =>
      if String.eqb k key then (k, v) :: rest
      else (k, w) :: assoc_set key v rest
  end.

(** [unstructured.NestedFieldNoCopy]; [None] covers both "not found" and
    the error of stepping into a value that is not a map. *)
Fixpoint NestedField (obj : JVal) (path : list string) : option JVal :=
  match path with
  | [] => Some obj
  | f :: rest =>
      match obj with
      | JObj fields =>
          match assoc f fields with
          | Some v => NestedField v rest
          | None => None
          end
      | _ => None
      end
  end.

(** [unstructured.NestedString], value and [found]. *)
Definition NestedString (obj : JVal) (path : list string) : string * bool :=
  match NestedField obj path with
  | Some (JStr s) => (s, true)
  | _ => ("", false)
  end.

Definition NestedBool (obj : JVal) (path : list string) : bool * bool :=
  match NestedField obj path with
  | Some (JBool b) => (b, true)
  | _ => (false, false)
  end.

Definition NestedSlice (obj : JVal) (path : list string) : list JVal * bool :=
  match NestedField obj path with
  | Some (JArr l) => (l, true)
  | _ => ([], false)
  end.

(** [u.GetUID()]. *)
Definition GetUID (obj : JVal) : string := fst (NestedString obj ["metadata"; "uid"]).

End Unstructured.
Export Unstructured.

(** ** Strings: the [strings] package and [encoding/base64] *)

Module Strings.

(** [strings.HasPrefix(s, p)]. *)
Definition HasPrefix (s p : string) : bool := String.prefix p s.

(** [strings.Contains(s, substr)]. *)
Fixpoint Contains (s substr : string) : bool :=
  String.prefix substr s
  || match s with
     | EmptyString => false
     | String _ rest => Contains rest substr
     end.

Definition b64_alphabet : string :=
  "ABCDEFGHIJKLMNOPQRSTUVWXYZabcdefghijklmnopqrstuvwxyz0123456789+/".

Definition b64_char (n : N) : ascii :=
  match String.get (N.to_nat n) b64_alphabet with
  | Some c => c
  | None => "="%char
  end.

(** [base64.StdEncoding.EncodeToString]: three bytes give four symbols,
    the last group is padded with [=]. *)
Fixpoint b64_encode (bytes : list ascii) : string :=
  match bytes with
  | [] => ""
  | [a] =>
      let x := N_of_ascii a in
      String (b64_char (x / 4))
        (String (b64_char ((x mod 4) * 16)) "==")
  | [a; b] =>
      let x := N_of_ascii a in
      let y := N_of_ascii b in
      String (b64_char (x / 4))
        (String (b64_char ((x mod 4) * 16 + y / 16))
           (String (b64_char ((y mod 16) * 4)) "="))
  | a :: b :: c :: rest =>
      let x := N_of_ascii a in
      let y := N_of_ascii b in
      let z := N_of_ascii c in
      String (b64_char (x / 4))
        (String (b64_char ((x mod 4) * 16 + y / 16))
           (String (b64_char ((y mod 16) * 4 + z / 64))
              (String (b64_char (z mod 64)) (b64_encode rest))))
  end%N.

Definition EncodeToString (s : string) : string :=
  b64_encode (list_ascii_of_string s).

End Strings.
Export Strings.

(** ** [metav1]: times and conditions *)

Module metav1.

(** A point in time; [metav1.Now()] reads it from the clock of the world. *)
Definition Time : Type := Z.

(** [metav1.ConditionStatus]. *)
Inductive ConditionStatus : Type :=
| ConditionTrue
| ConditionFalse
| ConditionUnknown.

#[global] Instance ConditionStatus_eq_dec : EqDecision ConditionStatus.
Proof. solve_decision. Defined.

(** [metav1.Condition]; a zero [LastTransitionTime] is [None]. *)
Record Condition : Type := {
  Type_ : string;
  Status : ConditionStatus;
  ObservedGeneration : Z;
  LastTransitionTime : option Time;
  Reason : string;
  Message : string
}.

(** [metav1.ObjectMeta], the fields the controller reads or writes.
    A nil or zero [DeletionTimestamp] is [None]. *)
Record ObjectMeta : Type := {
  Name : string;
  Namespace : string;
  Generation : Z;
  DeletionTimestamp : option Time;
  Finalizers : list string
}.

(** [t.IsZero()] on a [*metav1.Time]. *)
Definition IsZero (t : option Time) : bool :=
  match t with
  | None => true
  | Some _ => false
  end.

End metav1.

(** ** [butlerv1alpha1]: the record types of the butler-api module

    The type declarations live in the butler-api module; the fields below
    are the ones the provider reads and writes. *)

Module butlerv1alpha1.

(** [MachinePhase] is a Go string type, so that a record can carry a
    phase that none of the constants names.

    Modelled from the spec: the constants are declared in butler-api; the
    status schema of the spec lists the phases Pending, Creating, Running,
    Failed and Deleting. *)
Definition MachinePhase : Type := string.
Definition MachinePhasePending : MachinePhase := "Pending".
Definition MachinePhaseCreating : MachinePhase := "Creating".
Definition MachinePhaseRunning : MachinePhase := "Running".
Definition MachinePhaseFailed : MachinePhase := "Failed".
Definition MachinePhaseDeleting : MachinePhase := "Deleting".

(** Modelled from the spec: the recognised condition types are Ready and
    Progressing. *)
Definition ConditionTypeReady : string := "Ready".
Definition ConditionTypeProgressing : string := "Progressing".

(** The remaining butler-api constants, whose values the provider never
    inspects, are parameters of the development. *)
Record ApiConstants : Type := {
  ProviderTypeHarvester : string;
  ReasonProviderError : string;
  ReasonCreating : string;
  ReasonRunning : string;
  ReasonWaitingForIP : string
}.

Record ProviderReference : Type := {
  ref_Name : string;
  ref_Namespace : string
}.

Record MachineRequestSpec : Type := {
  MachineName : string;
  ProviderRef : ProviderReference;
  CPU : Z;
  MemoryMB : Z;
  DiskGB : Z;
  Image : string;
  UserData : string;
  NetworkData : string;
  Labels : list (string * string)
}.

Record MachineRequestStatus : Type := {
  Phase : MachinePhase;
  ProviderID : string;
  IPAddress : string;
  MACAddress : string;
  FailureReason : string;
  FailureMessage : string;
  Conditions : list metav1.Condition;
  LastUpdated : option metav1.Time;
  ObservedGeneration : Z
}.

Record MachineRequest : Type := {
  ObjectMeta : metav1.ObjectMeta;
  Spec : MachineRequestSpec;
  Status : MachineRequestStatus
}.

Definition with_Status (mr : MachineRequest) (st : MachineRequestStatus) : MachineRequest :=
  {| ObjectMeta := ObjectMeta mr; Spec := Spec mr; Status := st |}.

Definition with_Finalizers (mr : MachineRequest) (fs : list string) : MachineRequest :=
  {| ObjectMeta :=
       {| metav1.Name := metav1.Name (ObjectMeta mr);
          metav1.Namespace := metav1.Namespace (ObjectMeta mr);
          metav1.Generation := metav1.Generation (ObjectMeta mr);
          metav1.DeletionTimestamp := metav1.DeletionTimestamp (ObjectMeta mr);
          metav1.Finalizers := fs |};
     Spec := Spec mr;
     Status := Status mr |}.

Definition with_DeletionTimestamp (mr : MachineRequest) (t : option metav1.Time)
  : MachineRequest :=
  {| ObjectMeta :=
       {| metav1.Name := metav1.Name (ObjectMeta mr);
          metav1.Namespace := metav1.Namespace (ObjectMeta mr);
          metav1.Generation := metav1.Generation (ObjectMeta mr);
          metav1.DeletionTimestamp := t;
          metav1.Finalizers := metav1.Finalizers (ObjectMeta mr) |};
     Spec := Spec mr;
     Status := Status mr |}.

Definition set_Phase (p : MachinePhase) (st : MachineRequestStatus) : MachineRequestStatus :=
  {| Phase := p; ProviderID := ProviderID st; IPAddress := IPAddress st;
     MACAddress := MACAddress st; FailureReason := FailureReason st;
     FailureMessage := FailureMessage st; Conditions := Conditions st;
     LastUpdated := LastUpdated st; ObservedGeneration := ObservedGeneration st |}.

Definition set_ProviderID (v : string) (st : MachineRequestStatus) : MachineRequestStatus :=
  {| Phase := Phase st; ProviderID := v; IPAddress := IPAddress st;
     MACAddress := MACAddress st; FailureReason := FailureReason st;
     FailureMessage := FailureMessage st; Conditions := Conditions st;
     LastUpdated := LastUpdated st; ObservedGeneration := ObservedGeneration st |}.

Definition set_IPAddress (v : string) (st : MachineRequestStatus) : MachineRequestStatus :=
  {| Phase := Phase st; ProviderID := ProviderID st; IPAddress := v;
     MACAddress := MACAddress st; FailureReason := FailureReason st;
     FailureMessage := FailureMessage st; Conditions := Conditions st;
     LastUpdated := LastUpdated st; ObservedGeneration := ObservedGeneration st |}.

Definition set_MACAddress (v : string) (st : MachineRequestStatus) : MachineRequestStatus :=
  {| Phase := Phase st; ProviderID := ProviderID st; IPAddress := IPAddress st;
     MACAddress := v; FailureReason := FailureReason st;
     FailureMessage := FailureMessage st; Conditions := Conditions st;
     LastUpdated := LastUpdated st; ObservedGeneration := ObservedGeneration st |}.

Definition set_FailureReason (v : string) (st : MachineRequestStatus) : MachineRequestStatus :=
  {| Phase := Phase st; ProviderID := ProviderID st; IPAddress := IPAddress st;
     MACAddress := MACAddress st; FailureReason := v;
     FailureMessage := FailureMessage st; Conditions := Conditions st;
     LastUpdated := LastUpdated st; ObservedGeneration := ObservedGeneration st |}.

Definition set_FailureMessage (v : string) (st : MachineRequestStatus) : MachineRequestStatus :=
  {| Phase := Phase st; ProviderID := ProviderID st; IPAddress := IPAddress st;
     MACAddress := MACAddress st; FailureReason := FailureReason st;
     FailureMessage := v; Conditions := Conditions st;
     LastUpdated := LastUpdated st; ObservedGeneration := ObservedGeneration st |}.

Definition set_Conditions (v : list metav1.Condition) (st : MachineRequestStatus)
  : MachineRequestStatus :=
  {| Phase := Phase st; ProviderID := ProviderID st; IPAddress := IPAddress st;
     MACAddress := MACAddress st; FailureReason := FailureReason st;
     FailureMessage := FailureMessage st; Conditions := v;
     LastUpdated := LastUpdated st; ObservedGeneration := ObservedGeneration st |}.

Definition set_LastUpdated (v : option metav1.Time) (st : MachineRequestStatus)
  : MachineRequestStatus :=
  {| Phase := Phase st; ProviderID := ProviderID st; IPAddress := IPAddress st;
     MACAddress := MACAddress st; FailureReason := FailureReason st;
     FailureMessage := FailureMessage st; Conditions := Conditions st;
     LastUpdated := v; ObservedGeneration := ObservedGeneration st |}.

Definition set_ObservedGeneration (v : Z) (st : MachineRequestStatus) : MachineRequestStatus :=
  {| Phase := Phase st; ProviderID := ProviderID st; IPAddress := IPAddress st;
     MACAddress := MACAddress st; FailureReason := FailureReason st;
     FailureMessage := FailureMessage st; Conditions := Conditions st;
     LastUpdated := LastUpdated st; ObservedGeneration := v |}.

(** [HarvesterProviderConfig]: target namespace and the default image and
    network references. *)
Record HarvesterProviderConfig : Type := {
  hpc_Namespace : string;
  hpc_ImageName : string;
  hpc_NetworkName : string
}.

Record SecretReference : Type := {
  cred_Name : string;
  cred_Namespace : string;
  cred_Key : string
}.

Record ProviderConfig : Type := {
  pc_Name : string;
  pc_Namespace : string;
  pc_Provider : string;
  pc_CredentialsRef : SecretReference;
  pc_Harvester : option HarvesterProviderConfig
}.

End butlerv1alpha1.

(** ** [corev1]: secrets and volume claims *)

Module corev1.

Record Secret : Type := {
  Data : gmap string string
}.

(** The [PersistentVolumeClaim] that [createImagePVC] builds: block mode,
    one access mode, one storage request. *)
Record PersistentVolumeClaim : Type := {
  pvc_Name : string;
  pvc_Namespace : string;
  pvc_Annotations : list (string * string);
  pvc_Labels : list (string * string);
  pvc_AccessModes : list string;
  pvc_VolumeMode : string;
  pvc_StorageClassName : string;
  pvc_StorageRequest : string
}.

Definition EventTypeNormal : string := "Normal".
Definition EventTypeWarning : string := "Warning".

End corev1.

(** ** The environment: handlers, the record store and the trace *)

Module Env.

Import butlerv1alpha1.

(** The calls that leave the process, as they are logged. *)
Inductive Call : Type :=
| GetMachineRequest
| GetProviderConfig (ns name : string)
| GetSecret (ns name : string)
| UpdateMachineRequest (mr : MachineRequest)
| UpdateStatus (mr : MachineRequest)
| CreatePVC (pvc : corev1.PersistentVolumeClaim)
| DeletePVC (ns name : string)
| CreateVirtualMachine (ns : string) (vm : JVal)
| DeleteVirtualMachine (ns name : string)
| GetVirtualMachine (ns name : string)
| GetVirtualMachineInstance (ns name : string)
| RecordEvent (eventtype reason message : string).

(** What the environment answers.  [W] is the state of everything outside
    the process.  The three [store_*] handlers only decide whether the
    record store refuses the call; the content of the store is [stored]
    below. *)
Record Handlers (W : Type) : Type := {
  store_get : W -> W * option error;
  store_update : W -> W * option error;
  store_status_update : W -> W * option error;
  provider_config_get : string -> string -> W -> W * res ProviderConfig;
  secret_get : string -> string -> W -> W * res corev1.Secret;
  RESTConfigFromKubeConfig : string -> option error;
  dynamic_NewForConfig : string -> option error;
  kubernetes_NewForConfig : string -> option error;
  pvc_create : corev1.PersistentVolumeClaim -> W -> W * option error;
  pvc_delete : string -> string -> W -> W * option error;
  vm_create : string -> JVal -> W -> W * res JVal;
  vm_delete : string -> string -> W -> W * option error;
  vm_get : string -> string -> W -> W * res JVal;
  vmi_get : string -> string -> W -> W * res JVal;
  clock : W -> W * metav1.Time
}.

Arguments store_get {W} _ _.
Arguments store_update {W} _ _.
Arguments store_status_update {W} _ _.
Arguments provider_config_get {W} _ _ _ _.
Arguments secret_get {W} _ _ _ _.
Arguments RESTConfigFromKubeConfig {W} _ _.
Arguments dynamic_NewForConfig {W} _ _.
Arguments kubernetes_NewForConfig {W} _ _.
Arguments pvc_create {W} _ _ _.
Arguments pvc_delete {W} _ _ _ _.
Arguments vm_create {W} _ _ _ _.
Arguments vm_delete {W} _ _ _ _.
Arguments vm_get {W} _ _ _ _.
Arguments vmi_get {W} _ _ _ _.
Arguments clock {W} _ _.

(** The state a pass runs in: the world and the MachineRequest as the
    record store holds it ([None] once it is gone). *)
Record Cluster (W : Type) : Type := {
  world : W;
  stored : option MachineRequest
}.
Arguments world {W} _.
Arguments stored {W} _.
Arguments Build_Cluster {W} _ _.

(** A computation returns its value, the new state and the calls it
    issued, oldest first. *)
Definition M (W A : Type) : Type := Cluster W -> A * Cluster W * list Call.

Definition ret {W A : Type} (a : A) : M W A := fun c => (a, c, []).

Definition bind {W A B : Type} (m : M W A) (k : A -> M W B) : M W B :=
  fun c =>
    let '(a, c1, t1) := m c in
    let '(b, c2, t2) := k a c1 in
    (b, c2, t1 ++ t2).

(** A call to the outside that does not touch the record store. *)
Definition external {W A : Type} (call : Call) (h : W -> W * A) : M W A :=
  fun c =>
    let '(w, a) := h (world c) in
    (a, {| world := w; stored := stored c |}, [call]).

(** Reading the clock is not logged. *)
Definition Now {W : Type} (H : Handlers W) : M W metav1.Time :=
  fun c =>
    let '(w, t) := clock H (world c) in
    (t, {| world := w; stored := stored c |}, []).

Definition not_found_error (name : string) : error :=
  StatusError StatusReasonNotFound
    ("machinerequests.butler.butlerlabs.dev " +:+ name +:+ " not found").

(** An object with a deletion timestamp disappears as soon as its last
    finalizer is removed. *)
Definition settle (mr : MachineRequest) : option MachineRequest :=
  match metav1.DeletionTimestamp (ObjectMeta mr), metav1.Finalizers (ObjectMeta mr) with
  | Some _, [] => None
  | _, _ => Some mr
  end.

Section Store.
Context {W : Type} (H : Handlers W).

(** [r.Get(ctx, req.NamespacedName, machineRequest)]. *)
Definition Get : M W (res MachineRequest) :=
  fun c =>
    let '(w, fault) := store_get H (world c) in
    let c1 := {| world := w; stored := stored c |} in
    match fault with
    | Some e => (Err e, c1, [GetMachineRequest])
    | None =>
        match stored c with
        | Some mr => (Ok mr, c1, [GetMachineRequest])
        | None => (Err (not_found_error ""), c1, [GetMachineRequest])
        end
    end.

(** [r.Update(ctx, mr)]: metadata and spec are written, the status is
    kept as stored (it is a subresource); [mr] is refreshed from the
    answer. *)
Definition Update (mr : MachineRequest) : M W (res MachineRequest) :=
  fun c =>
    let '(w, fault) := store_update H (world c) in
    let c1 := {| world := w; stored := stored c |} in
    match fault with
    | Some e => (Err e, c1, [UpdateMachineRequest mr])
    | None =>
        match stored c with
        | Some old =>
            let new := with_Status mr (Status old) in
            (Ok new, {| world := w; stored := settle new |}, [UpdateMachineRequest mr])
        | None =>
            (Err (not_found_error (metav1.Name (ObjectMeta mr))), c1,
             [UpdateMachineRequest mr])
        end
    end.

(** [r.Status().Update(ctx, mr)]: only the status is written. *)
Definition StatusUpdate (mr : MachineRequest) : M W (res MachineRequest) :=
  fun c =>
    let '(w, fault) := store_status_update H (world c) in
    let c1 := {| world := w; stored := stored c |} in
    match fault with
    | Some e => (Err e, c1, [UpdateStatus mr])
    | None =>
        match stored c with
        | Some old =>
            let new := with_Status old (Status mr) in
            (Ok new, {| world := w; stored := Some new |}, [UpdateStatus mr])
        | None =>
            (Err (not_found_error (metav1.Name (ObjectMeta mr))), c1, [UpdateStatus mr])
        end
    end.

(** [r.Recorder.Event]: fire and forget. *)
Definition Event (eventtype reason message : string) : M W unit :=
  fun c => (tt, c, [RecordEvent eventtype reason message]).

End Store.

End Env.
Export Env.

Notation "'let*' x ':=' m 'in' k" := (bind m (fun x => k))
  (at level 10, x pattern, m at level 100, k at level 200).

(** ** [meta] and [controllerutil] *)

Module meta.

Import metav1.

(** [meta.FindStatusCondition]: the first condition of that type. *)
Fixpoint FindStatusCondition (conditions : list Condition) (conditionType : string)
  : option Condition :=
  match conditions with
  | [] => None
  | c :: rest =>
      if String.eqb (Type_ c) conditionType then Some c
      else FindStatusCondition rest conditionType
  end.

(** Writing through the pointer that [FindStatusCondition] returns. *)
Fixpoint store_condition (conditions : list Condition) (c' : Condition) : list Condition :=
  match conditions with
  | [] => []
  | c :: rest =>
      if String.eqb (Type_ c) (Type_ c') then c' :: rest
      else c :: store_condition rest c'
  end.

Definition with_transition (c : Condition) (s : ConditionStatus) (t : option Time)
  : Condition :=
  {| Type_ := Type_ c; Status := s; ObservedGeneration := ObservedGeneration c;
     LastTransitionTime := t; Reason := Reason c; Message := Message c |}.

Section SetStatusCondition.
Context {W : Type} (H : Handlers W).

(** [meta.SetStatusCondition]. *)
Definition SetStatusCondition (conditions : list Condition) (newCondition : Condition)
  : M W (list Condition) :=
  match FindStatusCondition conditions (Type_ newCondition) with
  | None =>
      let* t :=
        match LastTransitionTime newCondition with
        | None => Now H
        | Some t => ret t
        end in
      ret (conditions ++ [with_transition newCondition (Status newCondition) (Some t)])
  | Some existing =>
      let* existing :=
        if bool_decide (Status existing = Status newCondition) then ret existing
        else
          let* t :=
            match LastTransitionTime newCondition with
            | None => Now H
            | Some t => ret t
            end in
          ret (with_transition existing (Status newCondition) (Some t)) in
      ret (store_condition conditions
             {| Type_ := Type_ existing; Status := Status existing;
                ObservedGeneration := ObservedGeneration newCondition;
                LastTransitionTime := LastTransitionTime existing;
                Reason := Reason newCondition; Message := Message newCondition |})
  end.

End SetStatusCondition.

(** [meta.IsStatusConditionTrue] and [meta.IsStatusConditionFalse]. *)
Definition IsStatusConditionTrue (conditions : list Condition) (conditionType : string) : bool :=
  match FindStatusCondition conditions conditionType with
  | Some c => bool_decide (Status c = ConditionTrue)
  | None => false
  end.

Definition IsStatusConditionFalse (conditions : list Condition) (conditionType : string) : bool :=
  match FindStatusCondition conditions conditionType with
  | Some c => bool_decide (Status c = ConditionFalse)
  | None => false
  end.

End meta.

Module controllerutil.

Import butlerv1alpha1.

Definition ContainsFinalizer (mr : MachineRequest) (finalizer : string) : bool :=
  existsb (String.eqb finalizer) (metav1.Finalizers (ObjectMeta mr)).

(** Appends the finalizer unless it is there. *)
Definition AddFinalizer (mr : MachineRequest) (finalizer : string) : MachineRequest :=
  if ContainsFinalizer mr finalizer then mr
  else with_Finalizers mr (metav1.Finalizers (ObjectMeta mr) ++ [finalizer]).

(** Drops every occurrence of the finalizer. *)
Definition RemoveFinalizer (mr : MachineRequest) (finalizer : string) : MachineRequest :=
  with_Finalizers mr
    (filter (fun f => f <> finalizer) (metav1.Finalizers (ObjectMeta mr))).

End controllerutil.

(** ** [harvester]: the adapter of [internal/harvester/client.go] *)

Module harvester.

Import butlerv1alpha1.

(** The [Client]: the two API handles are the world, the rest is data. *)
Record Client : Type := {
  namespace : string;
  config : HarvesterProviderConfig
}.

Record VMCreateOptions : Type := {
  Name : string;
  CPU : Z;
  MemoryMB : Z;
  DiskGB : Z;
  ImageName : string;
  NetworkName : string;
  UserData : string;
  NetworkData : string;
  Labels : list (string * string)
}.

Record VMStatus : Type := {
  Exists : bool;
  Ready : bool;
  Phase : string;
  IPAddress : string;
  MACAddress : string
}.

(** [&VMStatus{}]. *)
Definition VMStatus_zero : VMStatus :=
  {| Exists := false; Ready := false; Phase := ""; IPAddress := ""; MACAddress := "" |}.

(** The loop of [parseName]: the rest of the string after the first
    slash, if there is one. *)
Fixpoint after_slash (ref : string) : option string :=
  match ref with
  | EmptyString => None
  | String c rest =>
      if Ascii.eqb c "/"%char then Some rest else after_slash rest
  end.

(** [parseName]. *)
Definition parseName (ref : string) : string :=
  match after_slash ref with
  | Some name => name
  | None => ref
  end.

(** [isUsableIP]. *)
Definition isUsableIP (ip : string) : bool :=
  if Contains ip ":" then false
  else if HasPrefix ip "169.254." then false
  else true.

Definition managed_by_label : string * string :=
  ("butler.butlerlabs.dev/managed-by", "butler-provider-harvester").

(** The object that [createImagePVC] sends. *)
Definition imagePVC (c : Client) (name imageName : string) (sizeGB : Z)
  : corev1.PersistentVolumeClaim :=
  let imageID := imageName in
  let storageClassName := "longhorn-" +:+ parseName imageName in
  {| corev1.pvc_Name := name;
     corev1.pvc_Namespace := namespace c;
     corev1.pvc_Annotations := [("harvesterhci.io/imageId", imageID)];
     corev1.pvc_Labels := [managed_by_label];
     corev1.pvc_AccessModes := ["ReadWriteMany"];
     corev1.pvc_VolumeMode := "Block";
     corev1.pvc_StorageClassName := storageClassName;
     corev1.pvc_StorageRequest := pretty sizeGB +:+ "Gi" |}.

Definition virtio_disk : JVal := JObj [("bus", JStr "virtio")].

(** The [cloudinit] volume; the network data is added to the inner map
    when it is not empty. *)
Definition cloudInitVolume (opts : VMCreateOptions) : JVal :=
  let noCloud := [("userDataBase64", JStr (EncodeToString (UserData opts)))] in
  let noCloud :=
    if negb (String.eqb (NetworkData opts) "")
    then assoc_set "networkDataBase64" (JStr (EncodeToString (NetworkData opts))) noCloud
    else noCloud in
  JObj [("name", JStr "cloudinit"); ("cloudInitNoCloud", JObj noCloud)].

(** The [volumes] list of [buildVM]. *)
Definition buildVM_volumes (opts : VMCreateOptions) (pvcName : string) : list JVal :=
  let volumes :=
    [JObj [("name", JStr "rootdisk");
           ("persistentVolumeClaim", JObj [("claimName", JStr pvcName)])]] in
  if negb (String.eqb (UserData opts) "")
  then volumes ++ [cloudInitVolume opts]
  else volumes.

(** The [disks] list of [buildVM]. *)
Definition buildVM_disks (opts : VMCreateOptions) : list JVal :=
  let disks :=
    [JObj [("name", JStr "rootdisk"); ("bootOrder", JInt 1); ("disk", virtio_disk)]] in
  if negb (String.eqb (UserData opts) "")
  then disks ++ [JObj [("name", JStr "cloudinit"); ("disk", virtio_disk)]]
  else disks.

(** The [labels] map of [buildVM]. *)
Definition buildVM_labels (opts : VMCreateOptions) : list (string * JVal) :=
  fold_left (fun labels kv => assoc_set (fst kv) (JStr (snd kv)) labels)
    (Labels opts)
    [(fst managed_by_label, JStr (snd managed_by_label))].

(** [buildVM]. *)
Definition buildVM (c : Client) (opts : VMCreateOptions) (pvcName networkName : string)
  : JVal :=
  let labels := buildVM_labels opts in
  let volumes := buildVM_volumes opts pvcName in
  let disks := buildVM_disks opts in
  let memory := pretty (MemoryMB opts) +:+ "Mi" in
  JObj [
    ("apiVersion", JStr "kubevirt.io/v1");
    ("kind", JStr "VirtualMachine");
    ("metadata", JObj [
       ("name", JStr (Name opts));
       ("namespace", JStr (namespace c));
       ("labels", JObj labels);
       ("annotations", JObj [("harvesterhci.io/vmRunStrategy", JStr "Always")])]);
    ("spec", JObj [
       ("runStrategy", JStr "Always");
       ("template", JObj [
          ("metadata", JObj [("labels", JObj labels)]);
          ("spec", JObj [
             ("domain", JObj [
                ("cpu", JObj [
                   ("cores", JInt (CPU opts));
                   ("sockets", JInt 1);
                   ("threads", JInt 1)]);
                ("memory", JObj [("guest", JStr memory)]);
                ("resources", JObj [
                   ("limits", JObj [
                      ("cpu", JStr (pretty (CPU opts)));
                      ("memory", JStr memory)]);
                   ("requests", JObj [
                      ("cpu", JStr "125m");
                      ("memory", JStr memory)])]);
                ("devices", JObj [
                   ("disks", JArr disks);
                   ("interfaces", JArr [
                      JObj [("name", JStr "default"); ("bridge", JObj [])]])])]);
             ("networks", JArr [
                JObj [("name", JStr "default");
                      ("multus", JObj [("networkName", JStr networkName)])]]);
             ("volumes", JArr volumes)])])])].

(** The loop of [GetVMStatus] over the reported interfaces: entries that
    are not maps are skipped, the first usable address ends the loop. *)
Fixpoint scan_interfaces (interfaces : list JVal) (status : VMStatus) : VMStatus :=
  match interfaces with
  | [] => status
  | iface :: rest =>
      match iface with
      | JObj _ =>
          let ip := fst (NestedString iface ["ipAddress"]) in
          if negb (String.eqb ip "") && isUsableIP ip
          then
            let mac := fst (NestedString iface ["mac"]) in
            {| Exists := Exists status; Ready := Ready status; Phase := Phase status;
               IPAddress := ip; MACAddress := mac |}
          else scan_interfaces rest status
      | _ => scan_interfaces rest status
      end
  end.

Section Adapter.
Context {W : Type} (H : Handlers W).

(** [createImagePVC]. *)
Definition createImagePVC (c : Client) (name imageName : string) (sizeGB : Z)
  : M W (option error) :=
  let pvc := imagePVC c name imageName sizeGB in
  external (CreatePVC pvc) (pvc_create H pvc).

(** [CreateVM]: the disk first, then the machine; the disk is deleted
    again when the machine cannot be created. *)
Definition CreateVM (c : Client) (opts : VMCreateOptions) : M W (res string) :=
  let imageName := ImageName opts in
  let imageName := if String.eqb imageName "" then hpc_ImageName (config c) else imageName in
  if String.eqb imageName ""
  then ret (Err (Errorf "no image specified and no default image in provider config"))
  else
    let networkName := NetworkName opts in
    let networkName :=
      if String.eqb networkName "" then hpc_NetworkName (config c) else networkName in
    let pvcName := Name opts +:+ "-rootdisk" in
    let* err := createImagePVC c pvcName imageName (DiskGB opts) in
    match err with
    | Some err => ret (Err (Wrap "failed to create PVC: " err))
    | None =>
        let vm := buildVM c opts pvcName networkName in
        let* created :=
          external (CreateVirtualMachine (namespace c) vm) (vm_create H (namespace c) vm) in
        match created with
        | Err err =>
            let* _ :=
              external (DeletePVC (namespace c) pvcName) (pvc_delete H (namespace c) pvcName) in
            ret (Err (Wrap "failed to create VM: " err))
        | Ok created => ret (Ok (GetUID created))
        end
    end.

(** [GetVM] and [GetVMI]. *)
Definition GetVM (c : Client) (name : string) : M W (res JVal) :=
  external (GetVirtualMachine (namespace c) name) (vm_get H (namespace c) name).

Definition GetVMI (c : Client) (name : string) : M W (res JVal) :=
  external (GetVirtualMachineInstance (namespace c) name) (vmi_get H (namespace c) name).

(** [DeleteVM]. *)
Definition DeleteVM (c : Client) (name : string) : M W (option error) :=
  let* err :=
    external (DeleteVirtualMachine (namespace c) name) (vm_delete H (namespace c) name) in
  match err with
  | Some err => ret (Some err)
  | None =>
      let pvcName := name +:+ "-rootdisk" in
      let* _ :=
        external (DeletePVC (namespace c) pvcName) (pvc_delete H (namespace c) pvcName) in
      ret None
  end.

(** [GetVMStatus]. *)
Definition GetVMStatus (c : Client) (name : string) : M W (VMStatus * option error) :=
  let status := VMStatus_zero in
  let* vm := GetVM c name in
  match vm with
  | Err err => ret (status, Some err)
  | Ok vm =>
      let '(ready, found) := NestedBool vm ["status"; "ready"] in
      let printableStatus := fst (NestedString vm ["status"; "printableStatus"]) in
      let status :=
        {| Exists := true;
           Ready := if found then ready else Ready status;
           Phase := printableStatus;
           IPAddress := IPAddress status;
           MACAddress := MACAddress status |} in
      let* vmi := GetVMI c name in
      match vmi with
      | Err _ => ret (status, None)
      | Ok vmi =>
          let '(interfaces, found) := NestedSlice vmi ["status"; "interfaces"] in
          if found && (0 <? Z.of_nat (length interfaces))
          then ret (scan_interfaces interfaces status, None)
          else ret (status, None)
      end
  end.

(** [NewClient]. *)
Definition NewClient (kubeconfigData : string) (config : HarvesterProviderConfig)
  : res Client :=
  match RESTConfigFromKubeConfig H kubeconfigData with
  | Some err => Err (Wrap "failed to create REST config: " err)
  | None =>
      match dynamic_NewForConfig H kubeconfigData with
      | Some err => Err (Wrap "failed to create dynamic client: " err)
      | None =>
          match kubernetes_NewForConfig H kubeconfigData with
          | Some err => Err (Wrap "failed to create clientset: " err)
          | None =>
              let namespace := hpc_Namespace config in
              let namespace := if String.eqb namespace "" then "default" else namespace in
              Ok {| namespace := namespace; config := config |}
          end
      end
  end.

End Adapter.

End harvester.

(** ** [controller]: the MachineRequest reconciler *)

Module controller.

Import butlerv1alpha1.

Definition finalizerName : string :=
  "machinerequest.butler.butlerlabs.dev/harvester-finalizer".

(** [time.Duration] counts nanoseconds. *)
Definition Second : Z := 1000000000.
Definition requeueShort : Z := 10 * Second.
Definition requeueLong : Z := 30 * Second.

(** [ctrl.Result]. *)
Record Result : Type := {
  Requeue : bool;
  RequeueAfter : Z
}.

Definition Result_zero : Result := {| Requeue := false; RequeueAfter := 0 |}.
Definition Result_Requeue : Result := {| Requeue := true; RequeueAfter := 0 |}.
Definition Result_RequeueAfter (d : Z) : Result := {| Requeue := false; RequeueAfter := d |}.

Section Reconciler.
Context {W : Type} (H : Handlers W) (K : ApiConstants).

Definition condition (type : string) (status : metav1.ConditionStatus)
    (reason message : string) (generation : Z) : metav1.Condition :=
  {| metav1.Type_ := type; metav1.Status := status;
     metav1.ObservedGeneration := generation;
     metav1.LastTransitionTime := None;
     metav1.Reason := reason; metav1.Message := message |}.

(** [meta.SetStatusCondition(&mr.Status.Conditions, c)]. *)
Definition setCondition (mr : MachineRequest) (c : metav1.Condition) : M W MachineRequest :=
  let* conditions := meta.SetStatusCondition H (Conditions (Status mr)) c in
  ret (with_Status mr (set_Conditions conditions (Status mr))).

(** Modelled from the spec: [SetFailure] is a method of butler-api's
    MachineRequest and is not part of the sources.  The spec says of a
    failure that it mutates the status to Failed and flips the Ready
    condition to False with reason and message (section 7), and of the
    not-found result in the Running phase, where [SetFailure] is the only
    call, that the record is marked Failed with a diagnostic reason and
    that the conditions are set to Ready=False (sections 4.1 and 8).  The
    condition is set the way the reconciler sets its conditions. *)
Definition SetFailure (mr : MachineRequest) (reason message : string) : M W MachineRequest :=
  let mr :=
    with_Status mr
      (set_FailureMessage message
         (set_FailureReason reason
            (set_Phase MachinePhaseFailed (Status mr)))) in
  setCondition mr
    (condition ConditionTypeReady metav1.ConditionFalse reason message
       (metav1.Generation (ObjectMeta mr))).

(** [updatePhase]. *)
Definition updatePhase (mr : MachineRequest) (phase : MachinePhase)
  : M W (Result * option error) :=
  let mr := with_Status mr (set_Phase phase (Status mr)) in
  let* now := Now H in
  let mr := with_Status mr (set_LastUpdated (Some now) (Status mr)) in
  let* r := StatusUpdate H mr in
  match r with
  | Err err => ret (Result_zero, Some err)
  | Ok _ => ret (Result_Requeue, None)
  end.

(** [updateStatusError]. *)
Definition updateStatusError (mr : MachineRequest) (reason message : string)
  : M W (Result * option error) :=
  let* mr := SetFailure mr reason message in
  let* mr :=
    setCondition mr
      (condition ConditionTypeReady metav1.ConditionFalse reason message
         (metav1.Generation (ObjectMeta mr))) in
  let* r := StatusUpdate H mr in
  match r with
  | Err err => ret (Result_zero, Some err)
  | Ok mr =>
      let* _ := Event corev1.EventTypeWarning reason message in
      ret (Result_zero, None)
  end.

(** [getProviderConfig]. *)
Definition getProviderConfig (mr : MachineRequest) : M W (res ProviderConfig) :=
  let ns := ref_Namespace (ProviderRef (Spec mr)) in
  let ns := if String.eqb ns "" then metav1.Namespace (ObjectMeta mr) else ns in
  let name := ref_Name (ProviderRef (Spec mr)) in
  let* r := external (GetProviderConfig ns name) (provider_config_get H ns name) in
  match r with
  | Err err =>
      ret (Err (Wrap ("failed to get ProviderConfig " +:+ ns +:+ "/" +:+ name +:+ ": ") err))
  | Ok pc => ret (Ok pc)
  end.

(** [createHarvesterClient]. *)
Definition createHarvesterClient (pc : ProviderConfig) : M W (res harvester.Client) :=
  match pc_Harvester pc with
  | None =>
      ret (Err (Errorf ("ProviderConfig " +:+ pc_Name pc +:+ " has no Harvester configuration")))
  | Some hcfg =>
      let ns := cred_Namespace (pc_CredentialsRef pc) in
      let ns := if String.eqb ns "" then pc_Namespace pc else ns in
      let name := cred_Name (pc_CredentialsRef pc) in
      let* r := external (GetSecret ns name) (secret_get H ns name) in
      match r with
      | Err err =>
          ret (Err (Wrap ("failed to get credentials secret " +:+ ns +:+ "/" +:+ name +:+ ": ")
                      err))
      | Ok secret =>
          let secretKey := cred_Key (pc_CredentialsRef pc) in
          let secretKey := if String.eqb secretKey "" then "kubeconfig" else secretKey in
          match corev1.Data secret !! secretKey with
          | None =>
              ret (Err (Errorf ("credentials secret " +:+ ns +:+ "/" +:+ name
                                +:+ " does not contain key " +:+ secretKey)))
          | Some kubeconfig => ret (harvester.NewClient H kubeconfig hcfg)
          end
      end
  end.

(** [reconcilePending]. *)
Definition reconcilePending (mr : MachineRequest) (hc : harvester.Client)
  : M W (Result * option error) :=
  let opts :=
    {| harvester.Name := MachineName (Spec mr);
       harvester.CPU := CPU (Spec mr);
       harvester.MemoryMB := MemoryMB (Spec mr);
       harvester.DiskGB := DiskGB (Spec mr);
       harvester.ImageName := Image (Spec mr);
       harvester.NetworkName := "";
       harvester.UserData := UserData (Spec mr);
       harvester.NetworkData := NetworkData (Spec mr);
       harvester.Labels := Labels (Spec mr) |} in
  let* created := harvester.CreateVM H hc opts in
  match created with
  | Err err =>
      if IsAlreadyExists err
      then updatePhase mr MachinePhaseCreating
      else
        let* _ :=
          Event corev1.EventTypeWarning "CreateFailed"
            ("Failed to create VM: " +:+ Error err) in
        updateStatusError mr (ReasonProviderError K) (Error err)
  | Ok providerID =>
      let st := Status mr in
      let st := set_ProviderID providerID st in
      let st := set_Phase MachinePhaseCreating st in
      let st := set_FailureReason "" st in
      let st := set_FailureMessage "" st in
      let* now := Now H in
      let st := set_LastUpdated (Some now) st in
      let st := set_ObservedGeneration (metav1.Generation (ObjectMeta mr)) st in
      let mr := with_Status mr st in
      let* mr :=
        setCondition mr
          (condition ConditionTypeProgressing metav1.ConditionTrue (ReasonCreating K)
             "VM is being created" (metav1.Generation (ObjectMeta mr))) in
      let* r := StatusUpdate H mr in
      match r with
      | Err err => ret (Result_zero, Some err)
      | Ok mr =>
          let* _ := Event corev1.EventTypeNormal "Created" "VM creation initiated" in
          ret (Result_RequeueAfter requeueShort, None)
      end
  end.

(** [reconcileCreating]. *)
Definition reconcileCreating (mr : MachineRequest) (hc : harvester.Client)
  : M W (Result * option error) :=
  let* (status, err) := harvester.GetVMStatus H hc (MachineName (Spec mr)) in
  match err with
  | Some err =>
      if IsNotFound err
      then updatePhase mr MachinePhasePending
      else ret (Result_RequeueAfter requeueShort, None)
  | None =>
      if negb (String.eqb (harvester.IPAddress status) "")
      then
        let st := Status mr in
        let st := set_Phase MachinePhaseRunning st in
        let st := set_IPAddress (harvester.IPAddress status) st in
        let st := set_MACAddress (harvester.MACAddress status) st in
        let* now := Now H in
        let st := set_LastUpdated (Some now) st in
        let mr := with_Status mr st in
        let* mr :=
          setCondition mr
            (condition ConditionTypeReady metav1.ConditionTrue (ReasonRunning K)
               ("VM is running with IP " +:+ harvester.IPAddress status)
               (metav1.Generation (ObjectMeta mr))) in
        let* mr :=
          setCondition mr
            (condition ConditionTypeProgressing metav1.ConditionFalse (ReasonRunning K)
               "VM creation complete" (metav1.Generation (ObjectMeta mr))) in
        let* r := StatusUpdate H mr in
        match r with
        | Err err => ret (Result_zero, Some err)
        | Ok mr =>
            let* _ :=
              Event corev1.EventTypeNormal "Ready"
                ("VM is running with IP " +:+ harvester.IPAddress status) in
            ret (Result_zero, None)
        end
      else
        let* mr :=
          setCondition mr
            (condition ConditionTypeProgressing metav1.ConditionTrue (ReasonWaitingForIP K)
               ("VM phase: " +:+ harvester.Phase status +:+ ", waiting for IP address")
               (metav1.Generation (ObjectMeta mr))) in
        let* r := StatusUpdate H mr in
        match r with
        | Err err => ret (Result_zero, Some err)
        | Ok _ => ret (Result_RequeueAfter requeueShort, None)
        end
  end.

(** [reconcileRunning]. *)
Definition reconcileRunning (mr : MachineRequest) (hc : harvester.Client)
  : M W (Result * option error) :=
  let* (status, err) := harvester.GetVMStatus H hc (MachineName (Spec mr)) in
  match err with
  | Some err =>
      if IsNotFound err
      then
        let* mr := SetFailure mr "VMDeleted" "VM was deleted externally" in
        let* r := StatusUpdate H mr in
        match r with
        | Err err => ret (Result_zero, Some err)
        | Ok mr =>
            let* _ :=
              Event corev1.EventTypeWarning "VMDeleted" "VM was deleted externally" in
            ret (Result_zero, None)
        end
      else ret (Result_RequeueAfter requeueLong, None)
  | None =>
      if negb (String.eqb (harvester.IPAddress status) "")
         && negb (String.eqb (harvester.IPAddress status) (IPAddress (Status mr)))
      then
        let mr := with_Status mr (set_IPAddress (harvester.IPAddress status) (Status mr)) in
        let* now := Now H in
        let mr := with_Status mr (set_LastUpdated (Some now) (Status mr)) in
        let* r := StatusUpdate H mr in
        match r with
        | Err err => ret (Result_zero, Some err)
        | Ok _ => ret (Result_RequeueAfter requeueLong, None)
        end
      else ret (Result_RequeueAfter requeueLong, None)
  end.

(** [reconcileDelete]. *)
Definition reconcileDelete (mr : MachineRequest) (hc : harvester.Client)
  : M W (Result * option error) :=
  let* r :=
    if negb (String.eqb (Phase (Status mr)) MachinePhaseDeleting)
    then
      let mr := with_Status mr (set_Phase MachinePhaseDeleting (Status mr)) in
      let* now := Now H in
      let mr := with_Status mr (set_LastUpdated (Some now) (Status mr)) in
      StatusUpdate H mr
    else ret (Ok mr) in
  match r with
  | Err err => ret (Result_zero, Some err)
  | Ok mr =>
      let* err := harvester.DeleteVM H hc (MachineName (Spec mr)) in
      let failed :=
        match err with
        | Some err => negb (IsNotFound err)
        | None => false
        end in
      if failed
      then ret (Result_RequeueAfter requeueShort, None)
      else
        let mr := controllerutil.RemoveFinalizer mr finalizerName in
        let* r := Update H mr in
        match r with
        | Err err => ret (Result_zero, Some err)
        | Ok _ =>
            let* _ := Event corev1.EventTypeNormal "Deleted" "VM deleted" in
            ret (Result_zero, None)
        end
  end.

(** The phase switch at the end of [Reconcile]. *)
Definition dispatch (mr : MachineRequest) (hc : harvester.Client)
  : M W (Result * option error) :=
  let phase := Phase (Status mr) in
  if String.eqb phase "" || String.eqb phase MachinePhasePending
  then reconcilePending mr hc
  else if String.eqb phase MachinePhaseCreating
  then reconcileCreating mr hc
  else if String.eqb phase MachinePhaseRunning
  then reconcileRunning mr hc
  else if String.eqb phase MachinePhaseFailed
  then ret (Result_zero, None)
  else updatePhase mr MachinePhasePending.

(** [Reconcile]. *)
Definition Reconcile : M W (Result * option error) :=
  let* r := Get H in
  match r with
  | Err err =>
      if IsNotFound err then ret (Result_zero, None) else ret (Result_zero, Some err)
  | Ok machineRequest =>
      let* pc := getProviderConfig machineRequest in
      match pc with
      | Err err => updateStatusError machineRequest "ProviderConfigError" (Error err)
      | Ok providerConfig =>
          if negb (String.eqb (pc_Provider providerConfig) (ProviderTypeHarvester K))
          then ret (Result_zero, None)
          else
            let* hc := createHarvesterClient providerConfig in
            match hc with
            | Err err => updateStatusError machineRequest "HarvesterClientError" (Error err)
            | Ok harvesterClient =>
                if negb (metav1.IsZero (metav1.DeletionTimestamp (ObjectMeta machineRequest)))
                then reconcileDelete machineRequest harvesterClient
                else if negb (controllerutil.ContainsFinalizer machineRequest finalizerName)
                then
                  let machineRequest :=
                    controllerutil.AddFinalizer machineRequest finalizerName in
                  let* r := Update H machineRequest in
                  match r with
                  | Err err => ret (Result_zero, Some err)
                  | Ok _ => ret (Result_Requeue, None)
                  end
                else dispatch machineRequest harvesterClient
            end
      end
  end.

End Reconciler.

End controller.

(** ** Two concrete environments *)

Module Worlds.

Import butlerv1alpha1.

(** A scripted environment: every handler gives the same, fixed answer. *)
Record Script : Type := {
  on_store_get : option error;
  on_store_update : option error;
  on_store_status_update : option error;
  on_provider_config_get : res ProviderConfig;
  on_secret_get : res corev1.Secret;
  on_new_client : option error;
  on_pvc_create : option error;
  on_pvc_delete : option error;
  on_vm_create : res JVal;
  on_vm_delete : option error;
  on_vm_get : res JVal;
  on_vmi_get : res JVal;
  on_clock : metav1.Time
}.

Definition scripted (s : Script) : Handlers unit :=
  {| store_get := fun w => (w, on_store_get s);
     store_update := fun w => (w, on_store_update s);
     store_status_update := fun w => (w, on_store_status_update s);
     provider_config_get := fun _ _ w => (w, on_provider_config_get s);
     secret_get := fun _ _ w => (w, on_secret_get s);
     RESTConfigFromKubeConfig := fun _ => on_new_client s;
     dynamic_NewForConfig := fun _ => None;
     kubernetes_NewForConfig := fun _ => None;
     pvc_create := fun _ w => (w, on_pvc_create s);
     pvc_delete := fun _ _ w => (w, on_pvc_delete s);
     vm_create := fun _ _ w => (w, on_vm_create s);
     vm_delete := fun _ _ w => (w, on_vm_delete s);
     vm_get := fun _ _ w => (w, on_vm_get s);
     vmi_get := fun _ _ w => (w, on_vmi_get s);
     clock := fun w => (w, on_clock s) |}.

(** A platform that keeps the named objects it is given: a create of a
    name that is there answers AlreadyExists, a read or delete of a name
    that is not there answers NotFound.  Names are (namespace, name). *)
Record Platform : Type := {
  pvcs : gset (string * string);
  vms : gmap (string * string) JVal;
  vmis : gmap (string * string) JVal;
  ticks : metav1.Time
}.

Definition already_exists (name : string) : error :=
  StatusError StatusReasonAlreadyExists (name +:+ " already exists").

Definition not_found (name : string) : error :=
  StatusError StatusReasonNotFound (name +:+ " not found").

Definition platform_pvc_create (pvc : corev1.PersistentVolumeClaim) (p : Platform)
  : Platform * option error :=
  let key := (corev1.pvc_Namespace pvc, corev1.pvc_Name pvc) in
  if bool_decide (key ∈ pvcs p)
  then (p, Some (already_exists (corev1.pvc_Name pvc)))
  else ({| pvcs := {[key]} ∪ pvcs p; vms := vms p; vmis := vmis p; ticks := ticks p |}, None).

Definition platform_pvc_delete (ns name : string) (p : Platform) : Platform * option error :=
  if bool_decide ((ns, name) ∈ pvcs p)
  then ({| pvcs := pvcs p ∖ {[(ns, name)]}; vms := vms p; vmis := vmis p; ticks := ticks p |},
        None)
  else (p, Some (not_found name)).

(** The platform gives a new machine its name as identifier. *)
Definition platform_vm_create (ns : string) (vm : JVal) (p : Platform) : Platform * res JVal :=
  let name := fst (NestedString vm ["metadata"; "name"]) in
  match vms p !! (ns, name) with
  | Some _ => (p, Err (already_exists name))
  | None =>
      let created :=
        match vm with
        | JObj fields =>
            JObj (assoc_set "metadata"
                    (match assoc "metadata" fields with
                     | Some (JObj m) => JObj (assoc_set "uid" (JStr ("uid-" +:+ name)) m)
                     | _ => JObj [("uid", JStr ("uid-" +:+ name))]
                     end) fields)
        | _ => vm
        end in
      ({| pvcs := pvcs p; vms := <[(ns, name) := created]> (vms p); vmis := vmis p;
          ticks := ticks p |}, Ok created)
  end.

Definition platform_vm_delete (ns name : string) (p : Platform) : Platform * option error :=
  match vms p !! (ns, name) with
  | Some _ =>
      ({| pvcs := pvcs p; vms := delete (ns, name) (vms p);
          vmis := delete (ns, name) (vmis p); ticks := ticks p |}, None)
  | None => (p, Some (not_found name))
  end.

Definition platform_get (objects : Platform -> gmap (string * string) JVal)
    (ns name : string) (p : Platform) : Platform * res JVal :=
  match objects p !! (ns, name) with
  | Some obj => (p, Ok obj)
  | None => (p, Err (not_found name))
  end.

(** The platform at another time. *)
Definition at_ticks (p : Platform) (t : metav1.Time) : Platform :=
  {| pvcs := pvcs p; vms := vms p; vmis := vmis p; ticks := t |}.

Definition platform_clock (p : Platform) : Platform * metav1.Time :=
  (at_ticks p (ticks p + 1), ticks p).

Definition platform (pc : ProviderConfig) (secret : corev1.Secret) : Handlers Platform :=
  {| store_get := fun w => (w, None);
     store_update := fun w => (w, None);
     store_status_update := fun w => (w, None);
     provider_config_get := fun _ _ w => (w, Ok pc);
     secret_get := fun _ _ w => (w, Ok secret);
     RESTConfigFromKubeConfig := fun _ => None;
     dynamic_NewForConfig := fun _ => None;
     kubernetes_NewForConfig := fun _ => None;
     pvc_create := platform_pvc_create;
     pvc_delete := platform_pvc_delete;
     vm_create := platform_vm_create;
     vm_delete := platform_vm_delete;
     vm_get := platform_get vms;
     vmi_get := platform_get vmis;
     clock := platform_clock |}.

End Worlds.

(** ** The address-selection policy, as the specification words it

    These definitions do not come from the Go code: they say what
    "syntactically IPv4" and "in the link-local block 169.254.0.0/16" mean,
    so that the loop of [GetVMStatus] can be compared with them. *)

Module AddressPolicy.

(** The value of a decimal digit. *)
Definition digit (c : ascii) : option Z :=
  let n := Z.of_N (N_of_ascii c) in
  if (48 <=? n) && (n <=? 57) then Some (n - 48) else None.

Fixpoint digits (s : string) : option (list Z) :=
  match s with
  | EmptyString => Some []
  | String c rest =>
      match digit c, digits rest with
      | Some d, Some ds => Some (d :: ds)
      | _, _ => None
      end
  end.

(** One to three digits, no leading zero, at most 255. *)
Definition octet (s : string) : option Z :=
  match digits s with
  | Some [a] => Some a
  | Some [a; b] => if a =? 0 then None else Some (10 * a + b)
  | Some [a; b; c] =>
      if a =? 0 then None
      else if 100 * a + 10 * b + c <=? 255 then Some (100 * a + 10 * b + c)
      else None
  | _ => None
  end.

(** The fields between the dots. *)
Fixpoint fields (s : string) : list string :=
  match s with
  | EmptyString => [EmptyString]
  | String c rest =>
      if Ascii.eqb c "."%char then EmptyString :: fields rest
      else
        match fields rest with
        | f :: fs => String c f :: fs
        | [] => [String c EmptyString]
        end
  end.

(** The fields put together again, with dots between them. *)
Fixpoint join (fs : list string) : string :=
  match fs with
  | [] => ""
  | [f] => f
  | f :: fs => f +:+ String "."%char (join fs)
  end.

(** A dotted quad. *)
Definition ipv4_octets (s : string) : option (Z * Z * Z * Z) :=
  match fields s with
  | [a; b; c; d] =>
      match octet a, octet b, octet c, octet d with
      | Some a, Some b, Some c, Some d => Some (a, b, c, d)
      | _, _, _, _ => None
      end
  | _ => None
  end.

Definition is_ipv4 (s : string) : bool :=
  match ipv4_octets s with
  | Some _ => true
  | None => false
  end.

(** Membership of 169.254.0.0/16: the first two octets. *)
Definition link_local (s : string) : bool :=
  match ipv4_octets s with
  | Some (a, b, _, _) => (a =? 169) && (b =? 254)
  | None => false
  end.

Definition is_ipv6 (s : string) : bool := Contains s ":".

(** An entry qualifies when its address is not empty, is IPv4 and is not
    link-local. *)
Definition qualifies (addr : string) : bool :=
  negb (String.eqb addr "") && is_ipv4 addr && negb (link_local addr).

(** The address and the hardware address that an entry of the
    interface list reports; an entry without one reports the empty
    string. *)
Definition entry_addr (iface : JVal) : string := fst (NestedString iface ["ipAddress"]).
Definition entry_mac (iface : JVal) : string := fst (NestedString iface ["mac"]).

(** The first qualifying entry, in list order: its address and hardware
    address; no address at all when no entry qualifies. *)
Definition select (interfaces : list JVal) : string * string :=
  match List.find (fun i => qualifies (entry_addr i)) interfaces with
  | Some i => (entry_addr i, entry_mac i)
  | None => ("", "")
  end.

(** The test that the code applies to the text of an address: not
    empty, no colon, not beginning with 169.254. and a dot. *)
Definition passes (addr : string) : bool :=
  negb (String.eqb addr "") && negb (Contains addr ":") && negb (HasPrefix addr "169.254.").

(** The first entry that passes, in list order: its address and hardware
    address; no address at all when no entry passes. *)
Definition select_by_text (interfaces : list JVal) : string * string :=
  match List.find (fun i => passes (entry_addr i)) interfaces with
  | Some i => (entry_addr i, entry_mac i)
  | None => ("", "")
  end.

(** What a platform reports as an address: nothing, an IPv4 address or
    an IPv6 address. *)
Definition is_address (addr : string) : Prop :=
  addr = "" \/ is_ipv4 addr = true \/ is_ipv6 addr = true.

(** An instance object with the given (address, hardware address)
    pairs. *)
Definition iface_json (i : string * string) : JVal :=
  JObj [("ipAddress", JStr (fst i)); ("mac", JStr (snd i))].

Definition instance_with (ifaces : list (string * string)) : JVal :=
  JObj [("status", JObj [("interfaces", JArr (map iface_json ifaces))])].

End AddressPolicy.


(** ** Kinds of calls in a trace *)

Module Trace.

Definition is_record_write (c : Call) : bool :=
  match c with
  | UpdateStatus _ | UpdateMachineRequest _ => true
  | _ => false
  end.

(** The write of metadata, which carries the finalizers. *)
Definition is_metadata_write (c : Call) : bool :=
  match c with
  | UpdateMachineRequest _ => true
  | _ => false
  end.

(** A create of a disk or of a machine. *)
Definition is_create (c : Call) : bool :=
  match c with
  | CreatePVC _ | CreateVirtualMachine _ _ => true
  | _ => false
  end.

(** Calls that neither create a resource nor write metadata. *)
Definition quiet (call : Call) : Prop :=
  is_create call = false /\ is_metadata_write call = false.

Definition is_disk_delete (c : Call) : bool :=
  match c with
  | DeletePVC _ _ => true
  | _ => false
  end.

Definition is_warning (c : Call) : bool :=
  match c with
  | RecordEvent eventtype _ _ => String.eqb eventtype corev1.EventTypeWarning
  | _ => false
  end.

End Trace.

(** ** Views on the constructed machine *)

Module Views.

(** The same options with another network-configuration payload. *)
Definition with_NetworkData (opts : harvester.VMCreateOptions) (networkData : string)
  : harvester.VMCreateOptions :=
  {| harvester.Name := harvester.Name opts; harvester.CPU := harvester.CPU opts;
     harvester.MemoryMB := harvester.MemoryMB opts; harvester.DiskGB := harvester.DiskGB opts;
     harvester.ImageName := harvester.ImageName opts;
     harvester.NetworkName := harvester.NetworkName opts;
     harvester.UserData := harvester.UserData opts;
     harvester.NetworkData := networkData; harvester.Labels := harvester.Labels opts |}.

(** Where the volumes and the disks sit in a VirtualMachine object. *)
Definition volumes_of (vm : JVal) : option JVal :=
  NestedField vm ["spec"; "template"; "spec"; "volumes"].

Definition disks_of (vm : JVal) : option JVal :=
  NestedField vm ["spec"; "template"; "spec"; "domain"; "devices"; "disks"].

Definition rootdisk_volume (pvcName : string) : JVal :=
  JObj [("name", JStr "rootdisk");
        ("persistentVolumeClaim", JObj [("claimName", JStr pvcName)])].

Definition rootdisk_disk : JVal :=
  JObj [("name", JStr "rootdisk"); ("bootOrder", JInt 1);
        ("disk", JObj [("bus", JStr "virtio")])].

Definition cloudinit_disk : JVal :=
  JObj [("name", JStr "cloudinit"); ("disk", JObj [("bus", JStr "virtio")])].

(** The seed volume: the user data, and the network data when there is
    some. *)
Definition cloudinit_volume (userData networkData : string) : JVal :=
  JObj [("name", JStr "cloudinit");
        ("cloudInitNoCloud",
         JObj (("userDataBase64", JStr (EncodeToString userData))
               :: if String.eqb networkData "" then []
                  else [("networkDataBase64", JStr (EncodeToString networkData))]))].

(** The options that [reconcilePending] hands to [CreateVM]. *)
Definition options_of (mr : butlerv1alpha1.MachineRequest) : harvester.VMCreateOptions :=
  {| harvester.Name := butlerv1alpha1.MachineName (butlerv1alpha1.Spec mr);
     harvester.CPU := butlerv1alpha1.CPU (butlerv1alpha1.Spec mr);
     harvester.MemoryMB := butlerv1alpha1.MemoryMB (butlerv1alpha1.Spec mr);
     harvester.DiskGB := butlerv1alpha1.DiskGB (butlerv1alpha1.Spec mr);
     harvester.ImageName := butlerv1alpha1.Image (butlerv1alpha1.Spec mr);
     harvester.NetworkName := "";
     harvester.UserData := butlerv1alpha1.UserData (butlerv1alpha1.Spec mr);
     harvester.NetworkData := butlerv1alpha1.NetworkData (butlerv1alpha1.Spec mr);
     harvester.Labels := butlerv1alpha1.Labels (butlerv1alpha1.Spec mr) |}.

(** Whether the stored record carries the guard token. *)
Definition has_guard (o : option butlerv1alpha1.MachineRequest) : bool :=
  match o with
  | Some mr => controllerutil.ContainsFinalizer mr controller.finalizerName
  | None => false
  end.

Definition phase_of (o : option butlerv1alpha1.MachineRequest) : option string :=
  match o with
  | Some mr => Some (butlerv1alpha1.Phase (butlerv1alpha1.Status mr))
  | None => None
  end.

Definition is_deleting (mr : butlerv1alpha1.MachineRequest) : bool :=
  negb (metav1.IsZero (metav1.DeletionTimestamp (butlerv1alpha1.ObjectMeta mr))).

End Views.

(** ** Passes, transitions and reachable states *)

Module Reach.

Import butlerv1alpha1 controller Views.

(** The forward path: Pending (or no phase yet), Creating, Running. *)
Definition rank (p : MachinePhase) : option nat :=
  if String.eqb p "" || String.eqb p MachinePhasePending then Some 0%nat
  else if String.eqb p MachinePhaseCreating then Some 1%nat
  else if String.eqb p MachinePhaseRunning then Some 2%nat
  else None.

(** A phase that the switch of [Reconcile] does not name. *)
Definition unknown (p : MachinePhase) : Prop :=
  rank p = None /\ p <> MachinePhaseFailed.

(** The moves of the phase that one pass can make. *)
Inductive phase_step : MachinePhase -> MachinePhase -> Prop :=
| step_stay p : phase_step p p
| step_fail p : phase_step p MachinePhaseFailed
| step_delete p : phase_step p MachinePhaseDeleting
| step_create p : rank p = Some 0%nat -> phase_step p MachinePhaseCreating
| step_ready : phase_step MachinePhaseCreating MachinePhaseRunning
| step_lost : phase_step MachinePhaseCreating MachinePhasePending
| step_reset p : unknown p -> phase_step p MachinePhasePending.

(** The store after a part of a pass that writes the status of [mr] at
    most: as before, or [mr] with a status in one of the phases. *)
Definition status_outcome (mr : MachineRequest) (before after : option MachineRequest)
    (phases : list MachinePhase) : Prop :=
  after = before
  \/ exists st, after = Some (with_Status mr st) /\ In (Phase st) phases.

(** What the record store can hold after one pass over the record [mr]. *)
Inductive pass_outcome (mr : MachineRequest) : option MachineRequest -> Prop :=
| outcome_unchanged : pass_outcome mr (Some mr)
| outcome_failed st :
    Phase st = MachinePhaseFailed ->
    pass_outcome mr (Some (with_Status mr st))
| outcome_deleting st :
    is_deleting mr = true ->
    Phase st = MachinePhaseDeleting ->
    pass_outcome mr (Some (with_Status mr st))
| outcome_released st :
    is_deleting mr = true ->
    Phase st = MachinePhaseDeleting ->
    pass_outcome mr
      (settle (with_Status (controllerutil.RemoveFinalizer mr finalizerName) st))
| outcome_guarded :
    is_deleting mr = false ->
    controllerutil.ContainsFinalizer mr finalizerName = false ->
    pass_outcome mr (Some (controllerutil.AddFinalizer mr finalizerName))
| outcome_dispatched st :
    is_deleting mr = false ->
    controllerutil.ContainsFinalizer mr finalizerName = true ->
    phase_step (Phase (Status mr)) (Phase st) ->
    Phase st <> MachinePhaseDeleting ->
    pass_outcome mr (Some (with_Status mr st)).

(** The guard token is on the record whenever it is in Creating or
    Running. *)
Definition guarded_when_provisioned (o : option MachineRequest) : Prop :=
  forall mr, o = Some mr ->
    Phase (Status mr) = MachinePhaseCreating \/ Phase (Status mr) = MachinePhaseRunning ->
    controllerutil.ContainsFinalizer mr finalizerName = true.

(** A record as its owner creates it: no status, no deletion intent,
    no guard token. *)
Definition created (mr : MachineRequest) : Prop :=
  Phase (Status mr) = ""
  /\ metav1.DeletionTimestamp (ObjectMeta mr) = None
  /\ controllerutil.ContainsFinalizer mr finalizerName = false.

(** The states of the loop: a created record, then passes of
    [Reconcile], the owner asking for deletion, and the world moving on
    its own, in any order. *)
Inductive reachable {W : Type} (H : Handlers W) (K : ApiConstants) : Cluster W -> Prop :=
| reach_created w mr :
    created mr -> reachable H K {| world := w; stored := Some mr |}
| reach_pass cl :
    reachable H K cl -> reachable H K (snd (fst (Reconcile H K cl)))
| reach_deletion cl mr t :
    reachable H K cl -> stored cl = Some mr ->
    reachable H K {| world := world cl; stored := settle (with_DeletionTimestamp mr (Some t)) |}
| reach_world cl w :
    reachable H K cl -> reachable H K {| world := w; stored := stored cl |}.

End Reach.

(** ** The claims that the code does not meet, as they are worded *)

Module Claims.

Import butlerv1alpha1 controller Views.

(** The disk delete follows the machine delete whatever the machine
    delete answers, and an absent machine is no error. *)
Definition disk_delete_is_unconditional : Prop :=
  forall (W : Type) (H : Handlers W) (c : harvester.Client) (name : string) (cl : Cluster W),
    snd (harvester.DeleteVM H c name cl)
    = [DeleteVirtualMachine (harvester.namespace c) name;
       DeletePVC (harvester.namespace c) (name +:+ "-rootdisk")]
    /\ (forall e, snd (vm_delete H (harvester.namespace c) name (world cl)) = Some e ->
                  IsNotFound e = true ->
                  fst (fst (harvester.DeleteVM H c name cl)) = None).

(** A transient error of the create call leaves the phase as it is and
    asks for the short delay. *)
Definition transient_create_error_keeps_phase : Prop :=
  forall (W : Type) (H : Handlers W) (K : ApiConstants) (mr : MachineRequest)
         (hc : harvester.Client) (cl : Cluster W) (e : error),
    stored cl = Some mr ->
    fst (fst (harvester.CreateVM H hc (options_of mr) cl)) = Err e ->
    ReasonForError e = StatusReasonServiceUnavailable ->
    let '(result, cl', _) := reconcilePending H K mr hc cl in
    phase_of (stored cl') = phase_of (stored cl)
    /\ result = (Result_RequeueAfter requeueShort, None).

(** Outside Pending, every reachable record carries the guard token. *)
Definition guard_outside_pending : Prop :=
  forall (W : Type) (H : Handlers W) (K : ApiConstants) (cl : Cluster W) (mr : MachineRequest),
    Reach.reachable H K cl ->
    stored cl = Some mr ->
    Reach.rank (Phase (Status mr)) <> Some 0%nat ->
    controllerutil.ContainsFinalizer mr finalizerName = true.

(** On the forward path no pass moves the phase backward. *)
Definition forward_path_is_monotonic : Prop :=
  forall (W : Type) (H : Handlers W) (K : ApiConstants) (cl : Cluster W)
         (mr mr' : MachineRequest) (i j : nat),
    stored cl = Some mr ->
    stored (snd (fst (Reconcile H K cl))) = Some mr' ->
    Reach.rank (Phase (Status mr)) = Some i ->
    Reach.rank (Phase (Status mr')) = Some j ->
    (i <= j)%nat.

(** Whatever the interface list holds, the selected address is the one
    of the first entry whose address is not empty, is syntactically IPv4
    and lies outside 169.254.0.0/16. *)
Definition first_ipv4_is_selected : Prop :=
  forall (W : Type) (H : Handlers W) (c : harvester.Client) (name : string) (cl : Cluster W)
         (w1 w2 : W) (vm vmi : JVal),
    vm_get H (harvester.namespace c) name (world cl) = (w1, Ok vm) ->
    vmi_get H (harvester.namespace c) name w1 = (w2, Ok vmi) ->
    harvester.IPAddress (fst (fst (fst (harvester.GetVMStatus H c name cl))))
    = fst (AddressPolicy.select (fst (NestedSlice vmi ["status"; "interfaces"]))).

(** A pass over a record in the Failed phase writes nothing and leaves
    the stored record as it is. *)
Definition failed_is_inert : Prop :=
  forall (W : Type) (H : Handlers W) (K : ApiConstants) (cl : Cluster W) (mr : MachineRequest),
    stored cl = Some mr ->
    Phase (Status mr) = MachinePhaseFailed ->
    let '(_, cl', calls) := Reconcile H K cl in
    stored cl' = stored cl
    /\ Forall (fun call => Trace.is_record_write call = false) calls.

End Claims.

(** ** Sample data *)

Module Samples.

Import butlerv1alpha1.

Definition client : harvester.Client :=
  {| harvester.namespace := "default";
     harvester.config :=
       {| hpc_Namespace := "default"; hpc_ImageName := "default/img1";
          hpc_NetworkName := "default/vlan40" |} |}.

Definition constants : ApiConstants :=
  {| ProviderTypeHarvester := "harvester";
     ReasonProviderError := "ProviderError";
     ReasonCreating := "Creating";
     ReasonRunning := "Running";
     ReasonWaitingForIP := "WaitingForIP" |}.

Definition provider_config : ProviderConfig :=
  {| pc_Name := "harvester-prod"; pc_Namespace := "butler-system";
     pc_Provider := "harvester";
     pc_CredentialsRef :=
       {| cred_Name := "harvester-kubeconfig"; cred_Namespace := ""; cred_Key := "" |};
     pc_Harvester := Some (harvester.config client) |}.

Definition secret : corev1.Secret :=
  {| corev1.Data := {[ "kubeconfig" := "apiVersion: v1" ]} |}.

(** A machine object as the platform returns it. *)
Definition vm_object : JVal :=
  JObj [("metadata", JObj [("name", JStr "alpha-cp-0"); ("uid", JStr "uid-alpha-cp-0")]);
        ("status", JObj [("ready", JBool true); ("printableStatus", JStr "Running")])].

Definition reported_interfaces : list (string * string) :=
  [("169.254.1.5", "aa:bb:aa"); ("fe80::1", "aa:bb:bb"); ("10.0.0.7", "aa:bb:cc")].

(** A script: the record store never refuses, the clock shows 1000. *)
Definition script (pc : res ProviderConfig) (pvc_create : option error) (vm_create : res JVal)
    (vm_delete : option error) (vm_get vmi_get : res JVal) : Worlds.Script :=
  {| Worlds.on_store_get := None;
     Worlds.on_store_update := None;
     Worlds.on_store_status_update := None;
     Worlds.on_provider_config_get := pc;
     Worlds.on_secret_get := Ok secret;
     Worlds.on_new_client := None;
     Worlds.on_pvc_create := pvc_create;
     Worlds.on_pvc_delete := None;
     Worlds.on_vm_create := vm_create;
     Worlds.on_vm_delete := vm_delete;
     Worlds.on_vm_get := vm_get;
     Worlds.on_vmi_get := vmi_get;
     Worlds.on_clock := 1000 |}.

Definition unavailable : error :=
  StatusError StatusReasonServiceUnavailable
    "the server is currently unable to handle the request".

(** Every call succeeds; the instance reports [reported_interfaces]. *)
Definition reporting_script : Worlds.Script :=
  script (Ok provider_config) None (Ok vm_object) None (Ok vm_object)
    (Ok (AddressPolicy.instance_with reported_interfaces)).

(** The machine delete is refused for a while. *)
Definition unavailable_delete_script : Worlds.Script :=
  script (Ok provider_config) None (Ok vm_object) (Some unavailable) (Ok vm_object)
    (Ok (AddressPolicy.instance_with reported_interfaces)).

(** The machine is already gone when it is deleted. *)
Definition absent_delete_script : Worlds.Script :=
  script (Ok provider_config) None (Ok vm_object) (Some (Worlds.not_found "alpha-cp-0"))
    (Ok vm_object) (Ok (AddressPolicy.instance_with reported_interfaces)).

(** The disk create is refused for a while. *)
Definition unavailable_create_script : Worlds.Script :=
  script (Ok provider_config) (Some unavailable) (Ok vm_object) None (Ok vm_object)
    (Ok (AddressPolicy.instance_with reported_interfaces)).

(** The provider configuration cannot be read. *)
Definition missing_provider_script : Worlds.Script :=
  script (Err (Worlds.not_found "harvester-prod")) None (Ok vm_object) None (Ok vm_object)
    (Ok (AddressPolicy.instance_with reported_interfaces)).

(** The machine has vanished from the platform. *)
Definition vanished_script : Worlds.Script :=
  script (Ok provider_config) None (Ok vm_object) None
    (Err (Worlds.not_found "alpha-cp-0")) (Err (Worlds.not_found "alpha-cp-0")).

(** The status read is refused for a while. *)
Definition unavailable_read_script : Worlds.Script :=
  script (Ok provider_config) None (Ok vm_object) None (Err unavailable) (Err unavailable).

Definition empty_cluster : Cluster unit := {| world := tt; stored := None |}.

(** A platform that holds nothing yet. *)
Definition empty_platform : Worlds.Platform :=
  {| Worlds.pvcs := ∅; Worlds.vms := ∅; Worlds.vmis := ∅; Worlds.ticks := 1000 |}.

(** A record of the worker example in a given phase. *)
Definition status_in (phase : MachinePhase) (ip mac : string)
    (conditions : list metav1.Condition) : MachineRequestStatus :=
  {| Phase := phase; ProviderID := if String.eqb phase "" then "" else "uid-alpha-cp-0";
     IPAddress := ip; MACAddress := mac;
     FailureReason := ""; FailureMessage := ""; Conditions := conditions;
     LastUpdated := None; ObservedGeneration := 1 |}.

Definition request (finalizers : list string) (deletion : option metav1.Time)
    (status : MachineRequestStatus) : MachineRequest :=
  {| ObjectMeta :=
       {| metav1.Name := "alpha-cp-0"; metav1.Namespace := "butler-system";
          metav1.Generation := 1; metav1.DeletionTimestamp := deletion;
          metav1.Finalizers := finalizers |};
     Spec :=
       {| MachineName := "alpha-cp-0";
          ProviderRef := {| ref_Name := "harvester-prod"; ref_Namespace := "" |};
          CPU := 4; MemoryMB := 16384; DiskGB := 100; Image := "default/img1";
          UserData := ""; NetworkData := ""; Labels := [] |};
     Status := status |}.

(** The conditions a record has once [reconcileCreating] has seen an
    address. *)
Definition ready_conditions : list metav1.Condition :=
  [ {| metav1.Type_ := "Progressing"; metav1.Status := metav1.ConditionFalse;
       metav1.ObservedGeneration := 1; metav1.LastTransitionTime := Some 900;
       metav1.Reason := "Running"; metav1.Message := "VM creation complete" |};
    {| metav1.Type_ := "Ready"; metav1.Status := metav1.ConditionTrue;
       metav1.ObservedGeneration := 1; metav1.LastTransitionTime := Some 900;
       metav1.Reason := "Running"; metav1.Message := "VM is running with IP 10.0.0.9" |} ].

Definition fresh_request : MachineRequest :=
  request [] None (status_in "" "" "" []).

Definition pending_request : MachineRequest :=
  request [controller.finalizerName] None (status_in "" "" "" []).

Definition creating_request : MachineRequest :=
  request [controller.finalizerName] None (status_in MachinePhaseCreating "" "" []).

Definition running_request : MachineRequest :=
  request [controller.finalizerName] None
    (status_in MachinePhaseRunning "10.0.0.9" "aa:bb:aa" ready_conditions).

(** A record that has failed and stays with its owner. *)
Definition failed_request : MachineRequest :=
  request [controller.finalizerName] None
    (status_in MachinePhaseFailed "10.0.0.9" "aa:bb:aa" []).

(** A record that had failed and is now being deleted by its owner. *)
Definition deleted_request : MachineRequest :=
  request [controller.finalizerName] (Some 950)
    (status_in MachinePhaseFailed "10.0.0.9" "aa:bb:aa" []).

Definition cluster_with (mr : MachineRequest) : Cluster unit :=
  {| world := tt; stored := Some mr |}.

(** The options of the README's worker example, with and without
    initialization payloads. *)
Definition options (userData networkData : string) : harvester.VMCreateOptions :=
  {| harvester.Name := "alpha-cp-0"; harvester.CPU := 4; harvester.MemoryMB := 16384;
     harvester.DiskGB := 100; harvester.ImageName := "default/img1";
     harvester.NetworkName := ""; harvester.UserData := userData;
     harvester.NetworkData := networkData; harvester.Labels := [] |}.

End Samples.

(** ** Further views, for the properties beyond the address policy *)

Module Probe.

Import butlerv1alpha1.

(** The test of the loop of [GetVMStatus] on one entry: a map whose
    address is not empty and passes [isUsableIP]. *)
Definition usable_entry (iface : JVal) : bool :=
  match iface with
  | JObj _ =>
      negb (String.eqb (AddressPolicy.entry_addr iface) "")
      && harvester.isUsableIP (AddressPolicy.entry_addr iface)
  | _ => false
  end.

(** The names of the entries of a list of volumes or disks. *)
Definition names_of (o : option JVal) : list string :=
  match o with
  | Some (JArr items) => map (fun v => fst (NestedString v ["name"])) items
  | _ => []
  end.

(** The label [key] of the machine, and of its instance template. *)
Definition label_of (vm : JVal) (key : string) : option JVal :=
  NestedField vm ["metadata"; "labels"; key].

Definition template_label_of (vm : JVal) (key : string) : option JVal :=
  NestedField vm ["spec"; "template"; "metadata"; "labels"; key].

(** The metadata of a record apart from its finalizers. *)
Definition identity_of (mr : MachineRequest)
  : string * string * Z * option metav1.Time * MachineRequestSpec :=
  (metav1.Name (ObjectMeta mr), metav1.Namespace (ObjectMeta mr),
   metav1.Generation (ObjectMeta mr), metav1.DeletionTimestamp (ObjectMeta mr), Spec mr).

(** The finalizers of other controllers, in order. *)
Definition foreign_finalizers (mr : MachineRequest) : list string :=
  filter (fun f => f <> controller.finalizerName) (metav1.Finalizers (ObjectMeta mr)).

Definition is_machine_delete (c : Call) : bool :=
  match c with
  | DeleteVirtualMachine _ _ => true
  | _ => false
  end.

Definition is_machine_create (c : Call) : bool :=
  match c with
  | CreateVirtualMachine _ _ => true
  | _ => false
  end.

(** A call to the Harvester cluster. *)
Definition is_platform_call (c : Call) : bool :=
  match c with
  | CreatePVC _ | DeletePVC _ _ | CreateVirtualMachine _ _ | DeleteVirtualMachine _ _
  | GetVirtualMachine _ _ | GetVirtualMachineInstance _ _ => true
  | _ => false
  end.

(** A read of the machine or of its instance. *)
Definition is_machine_read (c : Call) : bool :=
  match c with
  | GetVirtualMachine _ _ | GetVirtualMachineInstance _ _ => true
  | _ => false
  end.

(** The calls that any pass may issue: the reads of the record, of the
    provider configuration and of the secret, the status write and the
    events. *)
Definition is_bookkeeping (c : Call) : bool :=
  match c with
  | GetMachineRequest | GetProviderConfig _ _ | GetSecret _ _ | UpdateStatus _
  | RecordEvent _ _ _ => true
  | _ => false
  end.

(** What the record store answers to a call of a pass, in a world. *)
Definition store_answer {W : Type} (H : Handlers W) (call : Call) (w : W)
  : option (W * option error) :=
  match call with
  | GetMachineRequest => Some (store_get H w)
  | UpdateMachineRequest _ => Some (store_update H w)
  | UpdateStatus _ => Some (store_status_update H w)
  | _ => None
  end.

(** The answer of a pass that the record store refused: the zero result
    with the error that the store gave to the last call of the pass, and
    the world as that answer left it. *)
Definition store_fault {W : Type} (H : Handlers W)
    (result : controller.Result * option error) (after : Cluster W) (calls : list Call)
  : Prop :=
  exists e before call w,
    result = (controller.Result_zero, Some e)
    /\ calls = before ++ [call]
    /\ store_answer H call w = Some (world after, Some e).

(** The condition of a type, as a pair of its status and its reason. *)
Definition condition_of (mr : MachineRequest) (type : string)
  : option (metav1.ConditionStatus * string) :=
  match meta.FindStatusCondition (Conditions (Status mr)) type with
  | Some c => Some (metav1.Status c, metav1.Reason c)
  | None => None
  end.

End Probe.
(* ================================================================== *)
(** * Theorems *)

(** ** Strings *)

Section StringFacts.

Lemma prefix_split (p s : string) :
  String.prefix p s = true -> exists r, s = p +:+ r.
Proof.
  revert s. induction p as [|c p IH]; intros s Hp.
  - exists s. reflexivity.
  - destruct s as [|d s]; simpl in Hp; [discriminate|].
    destruct (ascii_dec c d) as [->|]; [|discriminate].
    destruct (IH _ Hp) as [r ->]. exists r. reflexivity.
Qed.

Lemma Contains_char_app (c : ascii) (s t : string) :
  Contains (s +:+ t) (String c "") = Contains s (String c "") || Contains t (String c "").
Proof.
  induction s as [|d s IH]; simpl.
  - reflexivity.
  - rewrite IH. destruct (ascii_dec c d) as [->|Hne].
    + destruct (s +:+ t), s; reflexivity.
    + reflexivity.
Qed.

End StringFacts.

(** ** Address selection *)

Section Addresses.

Import AddressPolicy.

Lemma fields_nonempty s : fields s <> [].
Proof.
  induction s as [|c s IH]; simpl; [discriminate|].
  destruct (Ascii.eqb c "."); [discriminate|].
  destruct (fields s); discriminate.
Qed.

Lemma join_fields s : join (fields s) = s.
Proof.
  induction s as [|c s IH]; simpl; [reflexivity|].
  destruct (Ascii.eqb_spec c "."%char) as [->|Hne].
  - pose proof (fields_nonempty s). destruct (fields s) eqn:E; [congruence|].
    change (join ("" :: s0 :: l)) with (String "."%char (join (s0 :: l))). rewrite IH. reflexivity.
  - pose proof (fields_nonempty s). destruct (fields s) as [|f fs] eqn:E; [congruence|].
    destruct fs; simpl in *; rewrite <- IH; reflexivity.
Qed.

Lemma digit_inv c d : digit c = Some d -> 0 <= d <= 9 /\ c = ascii_of_N (Z.to_N (d + 48)).
Proof.
  unfold digit. intros Hd.
  destruct (_ && _) eqn:E; [|discriminate]. injection Hd as <-.
  apply andb_true_iff in E as [E1 E2]. apply Z.leb_le in E1, E2.
  split; [lia|]. replace (Z.of_N (N_of_ascii c) - 48 + 48) with (Z.of_N (N_of_ascii c)) by lia.
  rewrite N2Z.id, ascii_N_embedding. reflexivity.
Qed.

Lemma digits_no_char s ds sep :
  digits s = Some ds -> digit sep = None -> Contains s (String sep "") = false.
Proof.
  revert ds. induction s as [|c s IH]; intros ds Hs Hsep; simpl in *; [reflexivity|].
  destruct (digit c) eqn:Hc; [|discriminate].
  destruct (digits s) eqn:Hds; [|discriminate].
  rewrite (IH _ eq_refl Hsep).
  destruct (ascii_dec sep c) as [->|]; [congruence|]. reflexivity.
Qed.

Lemma octet_digits s v : octet s = Some v -> exists ds, digits s = Some ds.
Proof. unfold octet. destruct (digits s); [eauto|discriminate]. Qed.

Lemma octet_no_char s v sep :
  octet s = Some v -> digit sep = None -> Contains s (String sep "") = false.
Proof. intros [ds Hds]%octet_digits. eauto using digits_no_char. Qed.

Lemma digits_inv3 s ds : digits s = Some ds ->
  s = string_of_list_ascii (map (fun d => ascii_of_N (Z.to_N (d + 48))) ds) /\ Forall (fun d => 0 <= d <= 9) ds.
Proof.
  revert ds. induction s as [|c s IH]; intros ds Hs; simpl in *.
  - injection Hs as <-. split; [reflexivity|constructor].
  - destruct (digit c) eqn:Hc; [|discriminate].
    destruct (digits s) eqn:Hds; [|discriminate]. injection Hs as <-.
    destruct (IH _ eq_refl) as [-> HF]. apply digit_inv in Hc as [Hr ->].
    split; [reflexivity| constructor; assumption].
Qed.

Lemma octet_169 s : octet s = Some 169 -> s = "169".
Proof.
  unfold octet. destruct (digits s) as [ds|] eqn:Hds; [|discriminate].
  apply digits_inv3 in Hds as [-> HF].
  destruct ds as [|a [|b [|c [|? ?]]]]; try discriminate.
  - intros [= ->]. inversion HF; subst. lia.
  - destruct (a =? 0); [discriminate|]. intros [= Hv].
    inversion HF as [|? ? Ha HF']; subst. inversion HF' as [|? ? Hb ?]; subst. lia.
  - destruct (a =? 0); [discriminate|]. destruct (_ <=? 255); [|discriminate]. intros [= Hv].
    inversion HF as [|? ? Ha HF']; subst. inversion HF' as [|? ? Hb HF'']; subst.
    inversion HF'' as [|? ? Hc ?]; subst.
    assert (a = 1 /\ b = 6 /\ c = 9) as (-> & -> & ->) by lia. reflexivity.
Qed.

Lemma octet_254 s : octet s = Some 254 -> s = "254".
Proof.
  unfold octet. destruct (digits s) as [ds|] eqn:Hds; [|discriminate].
  apply digits_inv3 in Hds as [-> HF].
  destruct ds as [|a [|b [|c [|? ?]]]]; try discriminate.
  - intros [= ->]. inversion HF; subst. lia.
  - destruct (a =? 0); [discriminate|]. intros [= Hv].
    inversion HF as [|? ? Ha HF']; subst. inversion HF' as [|? ? Hb ?]; subst. lia.
  - destruct (a =? 0); [discriminate|]. destruct (_ <=? 255); [|discriminate]. intros [= Hv].
    inversion HF as [|? ? Ha HF']; subst. inversion HF' as [|? ? Hb HF'']; subst.
    inversion HF'' as [|? ? Hc ?]; subst.
    assert (a = 2 /\ b = 5 /\ c = 4) as (-> & -> & ->) by lia. reflexivity.
Qed.

Lemma ipv4_fields s q : ipv4_octets s = Some q ->
  exists a b c d, fields s = [a; b; c; d] /\
    octet a = Some (q.1.1.1) /\ octet b = Some (q.1.1.2) /\ octet c = Some (q.1.2) /\ octet d = Some (q.2).
Proof.
  unfold ipv4_octets.
  destruct (fields s) as [|a [|b [|c [|d [|? ?]]]]]; try discriminate.
  destruct (octet a) eqn:Ha, (octet b) eqn:Hb, (octet c) eqn:Hc, (octet d) eqn:Hd; try discriminate.
  intros [= <-]. exists a, b, c, d. simpl. auto.
Qed.

Lemma ipv4_no_colon s : is_ipv4 s = true -> Contains s ":" = false.
Proof.
  unfold is_ipv4. destruct (ipv4_octets s) as [q|] eqn:Hq; [|discriminate]. intros _.
  destruct (ipv4_fields _ _ Hq) as (a & b & c & d & Hf & Ha & Hb & Hc & Hd).
  rewrite <- (join_fields s), Hf. simpl.
  rewrite !Contains_char_app.
  change (String "." (c +:+ String "." d)) with ("." +:+ (c +:+ String "." d)).
  change (String "." (b +:+ "." +:+ (c +:+ String "." d))) with ("." +:+ (b +:+ "." +:+ (c +:+ String "." d))).
  change (String "." d) with ("." +:+ d).
  rewrite !Contains_char_app.
  rewrite (octet_no_char a _ ":" Ha eq_refl), (octet_no_char b _ ":" Hb eq_refl),
    (octet_no_char c _ ":" Hc eq_refl), (octet_no_char d _ ":" Hd eq_refl).
  reflexivity.
Qed.

Lemma fields_169_254 r : fields ("169.254." +:+ r) = "169" :: "254" :: fields r.
Proof.
  pose proof (fields_nonempty r).
  change ("169.254." +:+ r)
    with (String "1" (String "6" (String "9" (String "."
           (String "2" (String "5" (String "4" (String "." r)))))))).
  cbn. destruct (fields r); [congruence|]. reflexivity.
Qed.

Lemma prefix_169_254 r : HasPrefix ("169.254." +:+ r) "169.254." = true.
Proof. destruct r; reflexivity. Qed.

Lemma ipv4_link_local_prefix s :
  is_ipv4 s = true -> HasPrefix s "169.254." = link_local s.
Proof.
  unfold is_ipv4, link_local. destruct (ipv4_octets s) as [[[[a b] c] d]|] eqn:Hq; [|discriminate].
  intros _.
  destruct (ipv4_fields _ _ Hq) as (fa & fb & fc & fd & Hf & Ha & Hb & Hc & Hd). simpl in *.
  destruct (HasPrefix s "169.254.") eqn:Hp.
  - apply prefix_split in Hp as [r ->].
    rewrite fields_169_254 in Hf. injection Hf as <- <- Hr.
    vm_compute in Ha, Hb. injection Ha as <-. injection Hb as <-. reflexivity.
  - symmetry. apply not_true_iff_false. intros [Ea Eb]%andb_true_iff.
    apply Z.eqb_eq in Ea, Eb. subst a b.
    apply octet_169 in Ha. apply octet_254 in Hb. subst fa fb.
    assert (Hs : s = join ["169"; "254"; fc; fd]) by (rewrite <- Hf; symmetry; apply join_fields).
    rewrite Hs in Hp.
    change (join ["169"; "254"; fc; fd]) with ("169.254." +:+ join [fc; fd]) in Hp.
    rewrite prefix_169_254 in Hp. discriminate Hp.
Qed.

(** On addresses, the test of the Go loop is the test of the policy. *)
Lemma usable_qualifies addr :
  is_address addr ->
  negb (String.eqb addr "") && harvester.isUsableIP addr = qualifies addr.
Proof.
  unfold is_address, qualifies, harvester.isUsableIP, is_ipv6.
  intros [->|[H4|H6]].
  - reflexivity.
  - rewrite H4, (ipv4_no_colon _ H4), (ipv4_link_local_prefix _ H4).
    destruct (link_local addr), (String.eqb addr ""); reflexivity.
  - rewrite H6. destruct (is_ipv4 addr) eqn:H4.
    + rewrite (ipv4_no_colon _ H4) in H6. discriminate.
    + destruct (String.eqb addr ""); reflexivity.
Qed.

(** The loop selects what the policy selects. *)
Lemma scan_select interfaces st :
  Forall is_address (map entry_addr interfaces) ->
  harvester.scan_interfaces interfaces st =
    match List.find (fun i => qualifies (entry_addr i)) interfaces with
    | Some i => {| harvester.Exists := harvester.Exists st; harvester.Ready := harvester.Ready st;
                   harvester.Phase := harvester.Phase st;
                   harvester.IPAddress := entry_addr i; harvester.MACAddress := entry_mac i |}
    | None => st
    end.
Proof.
  induction interfaces as [|i interfaces IH]; intros HF; [reflexivity|].
  inversion HF as [|? ? Ha HF']; subst.
  cbn [harvester.scan_interfaces List.find].
  destruct i as [| | | | |obj]; try (apply IH, HF').
  fold (entry_addr (JObj obj)). fold (entry_mac (JObj obj)).
  rewrite (usable_qualifies _ Ha).
  destruct (qualifies _); [reflexivity|]. apply IH, HF'.
Qed.

Lemma scan_no_colon ifaces st :
  Contains (harvester.IPAddress st) ":" = false ->
  Contains (harvester.IPAddress (harvester.scan_interfaces ifaces st)) ":" = false.
Proof.
  intros Hst. induction ifaces as [|i ifaces IH]; [exact Hst|].
  cbn [harvester.scan_interfaces]. destruct i; try exact IH.
  destruct (negb _ && _) eqn:E; [|exact IH].
  apply andb_true_iff in E as [_ E]. unfold harvester.isUsableIP in E.
  cbn [harvester.IPAddress]. clear Hst IH.
  destruct (Contains _ ":"); [discriminate|reflexivity].
Qed.

(** What [GetVMStatus] returns once both reads have answered. *)
Lemma GetVMStatus_found {W} (H : Handlers W) (c : harvester.Client) (name : string)
    (cl : Cluster W) (w1 w2 : W) (vm vmi : JVal) :
  vm_get H (harvester.namespace c) name (world cl) = (w1, Ok vm) ->
  vmi_get H (harvester.namespace c) name w1 = (w2, Ok vmi) ->
  harvester.GetVMStatus H c name cl =
    (let status :=
       {| harvester.Exists := true;
          harvester.Ready :=
            if snd (NestedBool vm ["status"; "ready"])
            then fst (NestedBool vm ["status"; "ready"]) else false;
          harvester.Phase := fst (NestedString vm ["status"; "printableStatus"]);
          harvester.IPAddress := ""; harvester.MACAddress := "" |} in
     let interfaces := fst (NestedSlice vmi ["status"; "interfaces"]) in
     (if snd (NestedSlice vmi ["status"; "interfaces"]) && (0 <? Z.of_nat (length interfaces))
      then harvester.scan_interfaces interfaces status else status, None),
    {| world := w2; stored := stored cl |},
    [GetVirtualMachine (harvester.namespace c) name;
     GetVirtualMachineInstance (harvester.namespace c) name]).
Proof.
  intros Hvm Hvmi.
  unfold harvester.GetVMStatus, harvester.GetVM, harvester.GetVMI, bind, external.
  rewrite Hvm. destruct (NestedBool vm _) as [ready found]. cbn [world stored].
  rewrite Hvmi. destruct (NestedSlice vmi _) as [interfaces found'].
  cbn [fst snd]. destruct (found' && _); reflexivity.
Qed.

(** The loop selects the first entry whose address passes the test on
    its text. *)
Lemma scan_by_text interfaces st :
  harvester.scan_interfaces interfaces st =
    match List.find (fun i => passes (entry_addr i)) interfaces with
    | Some i => {| harvester.Exists := harvester.Exists st; harvester.Ready := harvester.Ready st;
                   harvester.Phase := harvester.Phase st;
                   harvester.IPAddress := entry_addr i; harvester.MACAddress := entry_mac i |}
    | None => st
    end.
Proof.
  induction interfaces as [|i interfaces IH]; [reflexivity|].
  cbn [harvester.scan_interfaces List.find].
  destruct i as [| | | | |obj]; try exact IH.
  fold (entry_addr (JObj obj)). fold (entry_mac (JObj obj)).
  unfold passes at 1, harvester.isUsableIP.
  destruct (String.eqb (entry_addr (JObj obj)) ""); [exact IH|].
  destruct (Contains (entry_addr (JObj obj)) ":"); [exact IH|].
  destruct (HasPrefix (entry_addr (JObj obj)) "169.254."); [exact IH|reflexivity].
Qed.

(** On the addresses that a platform reports, the test on the text and
    the policy agree. *)
Lemma passes_qualifies addr : is_address addr -> passes addr = qualifies addr.
Proof.
  intros Ha. rewrite <- (usable_qualifies addr Ha). unfold passes, harvester.isUsableIP.
  destruct (String.eqb addr ""), (Contains addr ":"), (HasPrefix addr "169.254."); reflexivity.
Qed.

Lemma select_by_text_select interfaces :
  Forall is_address (map entry_addr interfaces) ->
  select_by_text interfaces = select interfaces.
Proof.
  unfold select_by_text, select.
  induction interfaces as [|i interfaces IH]; intros HF; [reflexivity|].
  inversion HF as [|? ? Ha HF']; subst. cbn [List.find].
  rewrite (passes_qualifies _ Ha). destruct (qualifies (entry_addr i)); [reflexivity|].
  exact (IH HF').
Qed.

(** What the status carries after the loop, or without it when the
    list is absent or empty. *)
Lemma picked_by_text (found : bool) interfaces base :
  harvester.IPAddress base = "" ->
  harvester.MACAddress base = "" ->
  (found = false -> interfaces = []) ->
  let picked :=
    if found && (0 <? Z.of_nat (length interfaces))
    then harvester.scan_interfaces interfaces base else base in
  harvester.IPAddress picked = fst (select_by_text interfaces)
  /\ harvester.MACAddress picked = snd (select_by_text interfaces).
Proof.
  intros Hip Hmac Hfound. cbv zeta. unfold select_by_text.
  destruct (found && _) eqn:Hloop.
  - rewrite scan_by_text. destruct (List.find _ interfaces); split; try reflexivity;
      assumption.
  - assert (Hempty : interfaces = []).
    { apply andb_false_iff in Hloop as [Hf|Hlen]; [exact (Hfound Hf)|].
      apply Z.ltb_ge in Hlen. destruct interfaces; [reflexivity|]. cbn [length] in Hlen. lia. }
    rewrite Hempty. split; assumption.
Qed.

(** C4, as amended.  For every reported interface list, [GetVMStatus]
    selects the first entry in list order whose address is not empty,
    holds no colon and does not begin with 169.254. and a dot, with that
    entry's hardware address, and returns no error, also when no entry
    passes; the code does not check the syntax of the address any
    further.  On the lists whose addresses are each empty, syntactically
    IPv4 or hold a colon, that entry is the first one whose address is
    not empty, is syntactically IPv4 and lies outside 169.254.0.0/16.
    Whatever the list holds, the selected address never contains a
    colon; and for the list 169.254.1.5, fe80::1, 10.0.0.7 the selected
    address is 10.0.0.7. *)
Theorem GetVMStatus_selects_first_usable_address :
  (forall W (H : Handlers W) (c : harvester.Client) (name : string) (cl : Cluster W)
          (w1 w2 : W) (vm vmi : JVal),
      vm_get H (harvester.namespace c) name (world cl) = (w1, Ok vm) ->
      vmi_get H (harvester.namespace c) name w1 = (w2, Ok vmi) ->
      let interfaces := fst (NestedSlice vmi ["status"; "interfaces"]) in
      exists status,
        fst (fst (harvester.GetVMStatus H c name cl)) = (status, None)
        /\ harvester.IPAddress status = fst (select_by_text interfaces)
        /\ harvester.MACAddress status = snd (select_by_text interfaces)
        /\ (Forall is_address (map entry_addr interfaces) ->
            harvester.IPAddress status = fst (select interfaces)
            /\ harvester.MACAddress status = snd (select interfaces)))
  /\ (forall W (H : Handlers W) (c : harvester.Client) (name : string) (cl : Cluster W),
        is_ipv6 (harvester.IPAddress (fst (fst (fst (harvester.GetVMStatus H c name cl)))))
        = false)
  /\ harvester.IPAddress
       (harvester.scan_interfaces
          [JObj [("ipAddress", JStr "169.254.1.5")];
           JObj [("ipAddress", JStr "fe80::1")];
           JObj [("ipAddress", JStr "10.0.0.7")]]
          harvester.VMStatus_zero) = "10.0.0.7".
Proof.
  split; [|split].
  - intros W H c name cl w1 w2 vm vmi Hvm Hvmi interfaces.
    rewrite (GetVMStatus_found H c name cl w1 w2 vm vmi Hvm Hvmi).
    fold interfaces. cbn [fst]. eexists. split; [reflexivity|].
    destruct (picked_by_text (snd (NestedSlice vmi ["status"; "interfaces"])) interfaces
                {| harvester.Exists := true;
                   harvester.Ready :=
                     if snd (NestedBool vm ["status"; "ready"])
                     then fst (NestedBool vm ["status"; "ready"]) else false;
                   harvester.Phase := fst (NestedString vm ["status"; "printableStatus"]);
                   harvester.IPAddress := ""; harvester.MACAddress := "" |}
                eq_refl eq_refl) as [Hip Hmac].
    { intros Hfound. subst interfaces. unfold NestedSlice in *.
      destruct (NestedField vmi _) as [[]|]; try reflexivity. discriminate Hfound. }
    split; [exact Hip|]. split; [exact Hmac|].
    intros Haddr. rewrite <- (select_by_text_select interfaces Haddr).
    split; [exact Hip|exact Hmac].
  - intros W H c name cl. unfold is_ipv6.
    unfold harvester.GetVMStatus, harvester.GetVM, harvester.GetVMI, bind, external.
    destruct (vm_get H _ _ _) as [w1 [vm|e]]; [|reflexivity].
    destruct (NestedBool vm _) as [ready found]. cbn [world stored].
    destruct (vmi_get H _ _ _) as [w2 [vmi|e]]; [|reflexivity].
    destruct (NestedSlice vmi _) as [interfaces found'].
    destruct (found' && _); cbn [fst snd]; [|reflexivity].
    apply scan_no_colon. reflexivity.
  - reflexivity.
Qed.

(** An instance that reports a text that is no address before an IPv4
    address: the code selects the text, the policy of the claim selects
    the IPv4 address. *)
Lemma text_that_is_no_address_is_selected :
  harvester.IPAddress
    (fst (fst (fst (harvester.GetVMStatus
                      (Worlds.scripted
                         (Samples.script (Ok Samples.provider_config) None
                            (Ok Samples.vm_object) None (Ok Samples.vm_object)
                            (Ok (instance_with
                                   [("not-an-ip", "aa:bb:aa"); ("10.0.0.7", "aa:bb:cc")]))))
                      Samples.client "alpha-cp-0" Samples.empty_cluster))))
  = "not-an-ip"
  /\ fst (select (map iface_json [("not-an-ip", "aa:bb:aa"); ("10.0.0.7", "aa:bb:cc")]))
     = "10.0.0.7"
  /\ ~ Claims.first_ipv4_is_selected.
Proof.
  split; [reflexivity|]. split; [reflexivity|]. intros Hclaim.
  specialize (Hclaim unit
                (Worlds.scripted
                   (Samples.script (Ok Samples.provider_config) None
                      (Ok Samples.vm_object) None (Ok Samples.vm_object)
                      (Ok (instance_with
                             [("not-an-ip", "aa:bb:aa"); ("10.0.0.7", "aa:bb:cc")]))))
                Samples.client "alpha-cp-0" Samples.empty_cluster tt tt Samples.vm_object
                (instance_with [("not-an-ip", "aa:bb:aa"); ("10.0.0.7", "aa:bb:cc")])
                eq_refl eq_refl).
  vm_compute in Hclaim. discriminate Hclaim.
Qed.

(** The theorem at work on a scripted environment that reports a
    link-local, an IPv6 and a routable address. *)
Lemma GetVMStatus_selects_first_usable_address_witness :
  exists status,
    fst (fst (harvester.GetVMStatus (Worlds.scripted Samples.reporting_script)
                Samples.client "alpha-cp-0" Samples.empty_cluster)) = (status, None)
    /\ harvester.IPAddress status = "10.0.0.7"
    /\ harvester.MACAddress status = "aa:bb:cc".
Proof.
  destruct (proj1 GetVMStatus_selects_first_usable_address unit
              (Worlds.scripted Samples.reporting_script) Samples.client "alpha-cp-0"
              Samples.empty_cluster tt tt Samples.vm_object
              (instance_with Samples.reported_interfaces) eq_refl eq_refl)
    as (status & Hget & _ & _ & Hpolicy).
  exists status. split; [exact Hget|]. apply Hpolicy.
  constructor; [right; left; reflexivity|].
  constructor; [right; right; reflexivity|].
  constructor; [right; left; reflexivity|].
  constructor.
Defined.

End Addresses.

(** ** The constructed machine *)

Section BuildVM.

Import Views.

Lemma buildVM_volumes_of c opts pvcName networkName :
  volumes_of (harvester.buildVM c opts pvcName networkName)
  = Some (JArr (harvester.buildVM_volumes opts pvcName)).
Proof. reflexivity. Qed.

Lemma buildVM_disks_of c opts pvcName networkName :
  disks_of (harvester.buildVM c opts pvcName networkName)
  = Some (JArr (harvester.buildVM_disks opts)).
Proof. reflexivity. Qed.

(** C9. With an empty user-data payload the constructed machine carries
    the root disk only, no cloud-init volume and no cloud-init disk, and
    the machine is the same whatever the network-configuration payload is;
    with a non-empty user-data payload the cloud-init volume carries the
    base64 of the user data, and the base64 of the network configuration
    exactly when that payload is not empty. *)
Theorem buildVM_cloud_init_needs_user_data
    (c : harvester.Client) (opts : harvester.VMCreateOptions) (pvcName networkName : string) :
  let vm := harvester.buildVM c opts pvcName networkName in
  (harvester.UserData opts = "" ->
     volumes_of vm = Some (JArr [rootdisk_volume pvcName])
     /\ disks_of vm = Some (JArr [rootdisk_disk])
     /\ forall networkData,
          harvester.buildVM c (with_NetworkData opts networkData) pvcName networkName = vm)
  /\ (harvester.UserData opts <> "" ->
        volumes_of vm =
          Some (JArr [rootdisk_volume pvcName;
                      cloudinit_volume (harvester.UserData opts) (harvester.NetworkData opts)])
        /\ disks_of vm = Some (JArr [rootdisk_disk; cloudinit_disk])).
Proof.
  cbv zeta. rewrite buildVM_volumes_of, buildVM_disks_of. split.
  - intros Hempty. repeat split.
    + unfold harvester.buildVM_volumes. rewrite Hempty. reflexivity.
    + unfold harvester.buildVM_disks. rewrite Hempty. reflexivity.
    + intros networkData.
      unfold harvester.buildVM, harvester.buildVM_volumes, harvester.buildVM_disks,
        harvester.buildVM_labels, with_NetworkData.
      cbn [harvester.UserData harvester.Name harvester.CPU harvester.MemoryMB
           harvester.Labels harvester.NetworkData].
      rewrite Hempty. reflexivity.
  - intros Hdata. apply String.eqb_neq in Hdata.
    unfold harvester.buildVM_volumes, harvester.buildVM_disks, harvester.cloudInitVolume,
      cloudinit_volume.
    rewrite Hdata. cbn [negb]. split; [|reflexivity].
    destruct (String.eqb (harvester.NetworkData opts) ""); reflexivity.
Qed.

(** The worker example without user data: the network configuration is
    dropped. *)
Lemma buildVM_cloud_init_needs_user_data_witness :
  volumes_of (harvester.buildVM Samples.client (Samples.options "" "version: 2")
                "alpha-cp-0-rootdisk" "default/vlan40")
  = Some (JArr [rootdisk_volume "alpha-cp-0-rootdisk"])
  /\ volumes_of (harvester.buildVM Samples.client (Samples.options "#cloud-config" "version: 2")
                   "alpha-cp-0-rootdisk" "default/vlan40")
     = Some (JArr [rootdisk_volume "alpha-cp-0-rootdisk";
                   cloudinit_volume "#cloud-config" "version: 2"]).
Proof.
  split.
  - apply (proj1 (buildVM_cloud_init_needs_user_data Samples.client
                    (Samples.options "" "version: 2") "alpha-cp-0-rootdisk" "default/vlan40")).
    reflexivity.
  - apply (proj2 (buildVM_cloud_init_needs_user_data Samples.client
                    (Samples.options "#cloud-config" "version: 2")
                    "alpha-cp-0-rootdisk" "default/vlan40")).
    discriminate.
Defined.

End BuildVM.

(** ** The adapter's create and delete protocols *)

Section Protocols.

Context {W : Type} (H : Handlers W).

Import butlerv1alpha1 Views.

(** C6. [CreateVM] creates the disk first.  When the disk create fails,
    its error is returned and nothing else is called.  When it succeeds,
    the machine that references that disk is created; when the machine
    create fails, the disk is deleted again, whatever that delete answers,
    and the error returned is the machine create's.  Without an image no
    call is made at all. *)
Theorem CreateVM_disk_first_then_machine_with_rollback
    (c : harvester.Client) (opts : harvester.VMCreateOptions) (cl : Cluster W) :
  let imageName :=
    if String.eqb (harvester.ImageName opts) ""
    then hpc_ImageName (harvester.config c) else harvester.ImageName opts in
  let networkName :=
    if String.eqb (harvester.NetworkName opts) ""
    then hpc_NetworkName (harvester.config c) else harvester.NetworkName opts in
  let ns := harvester.namespace c in
  let pvcName := harvester.Name opts +:+ "-rootdisk" in
  let pvc := harvester.imagePVC c pvcName imageName (harvester.DiskGB opts) in
  let vm := harvester.buildVM c opts pvcName networkName in
  (if String.eqb imageName ""
   then
     harvester.CreateVM H c opts cl =
       (Err (Errorf "no image specified and no default image in provider config"), cl, [])
   else
     match pvc_create H pvc (world cl) with
     | (w1, Some diskError) =>
         harvester.CreateVM H c opts cl =
           (Err (Wrap "failed to create PVC: " diskError),
            {| world := w1; stored := stored cl |},
            [CreatePVC pvc])
     | (w1, None) =>
         match vm_create H ns vm w1 with
         | (w2, Ok created) =>
             harvester.CreateVM H c opts cl =
               (Ok (GetUID created),
                {| world := w2; stored := stored cl |},
                [CreatePVC pvc; CreateVirtualMachine ns vm])
         | (w2, Err machineError) =>
             harvester.CreateVM H c opts cl =
               (Err (Wrap "failed to create VM: " machineError),
                {| world := fst (pvc_delete H ns pvcName w2); stored := stored cl |},
                [CreatePVC pvc; CreateVirtualMachine ns vm; DeletePVC ns pvcName])
             /\ root_cause (Wrap "failed to create VM: " machineError)
                = root_cause machineError
         end
     end)
  /\ corev1.pvc_Name pvc = pvcName
  /\ (exists others, volumes_of vm = Some (JArr (rootdisk_volume pvcName :: others))).
Proof.
  cbv zeta. split; [|split; [reflexivity|]].
  - unfold harvester.CreateVM, harvester.createImagePVC, bind, external, ret.
    destruct (String.eqb (if String.eqb (harvester.ImageName opts) "" then _ else _) "");
      [reflexivity|].
    destruct (pvc_create H _ _) as [w1 [diskError|]]; [reflexivity|].
    cbn [world stored].
    destruct (vm_create H _ _ _) as [w2 [created|machineError]]; [reflexivity|].
    cbn [world stored].
    destruct (pvc_delete H _ _ _) as [w3 answer]. split; reflexivity.
  - rewrite buildVM_volumes_of. unfold harvester.buildVM_volumes.
    destruct (negb _); eexists; reflexivity.
Qed.

End Protocols.

(** ** The reconciler *)

Section Driver.

Context {W : Type} (H : Handlers W).

Import butlerv1alpha1 controller.

Lemma Now_spec (cl : Cluster W) :
  Now H cl = (snd (clock H (world cl)),
              {| world := fst (clock H (world cl)); stored := stored cl |}, []).
Proof. unfold Now. destruct (clock H (world cl)). reflexivity. Qed.

Lemma FindStatusCondition_app_new conditions c :
  meta.FindStatusCondition conditions (metav1.Type_ c) = None ->
  meta.FindStatusCondition (conditions ++ [c]) (metav1.Type_ c) = Some c.
Proof.
  induction conditions as [|d conditions IH]; cbn [meta.FindStatusCondition app].
  - rewrite String.eqb_refl. reflexivity.
  - destruct (String.eqb (metav1.Type_ d) (metav1.Type_ c)); [discriminate|exact IH].
Qed.

Lemma FindStatusCondition_store conditions existing c' :
  meta.FindStatusCondition conditions (metav1.Type_ c') = Some existing ->
  meta.FindStatusCondition (meta.store_condition conditions c') (metav1.Type_ c') = Some c'.
Proof.
  induction conditions as [|d conditions IH]; cbn [meta.FindStatusCondition meta.store_condition].
  - discriminate.
  - destruct (String.eqb (metav1.Type_ d) (metav1.Type_ c')) eqn:E.
    + intros _. cbn [meta.FindStatusCondition]. rewrite String.eqb_refl. reflexivity.
    + intros Hf. cbn [meta.FindStatusCondition]. rewrite E. exact (IH Hf).
Qed.

Lemma FindStatusCondition_type conditions type c :
  meta.FindStatusCondition conditions type = Some c -> metav1.Type_ c = type.
Proof.
  induction conditions as [|d conditions IH]; cbn [meta.FindStatusCondition]; [discriminate|].
  destruct (String.eqb_spec (metav1.Type_ d) type) as [Ht|]; [|exact IH].
  intros [= <-]. exact Ht.
Qed.

(** [SetStatusCondition] reads the clock at most, and the condition of
    that type afterwards has the new status, reason and message. *)
Lemma SetStatusCondition_spec conditions c (cl : Cluster W) :
  exists conditions' w,
    meta.SetStatusCondition H conditions c cl
    = (conditions', {| world := w; stored := stored cl |}, [])
    /\ exists c', meta.FindStatusCondition conditions' (metav1.Type_ c) = Some c'
                  /\ metav1.Status c' = metav1.Status c
                  /\ metav1.Reason c' = metav1.Reason c
                  /\ metav1.Message c' = metav1.Message c.
Proof.
  unfold meta.SetStatusCondition, bind, ret.
  destruct (meta.FindStatusCondition conditions _) as [existing|] eqn:Hfind.
  - pose proof (FindStatusCondition_type _ _ _ Hfind) as Htype.
    assert (Hstore : forall s t,
      exists c',
        meta.FindStatusCondition
          (meta.store_condition conditions
             {| metav1.Type_ := metav1.Type_ existing; metav1.Status := s;
                metav1.ObservedGeneration := metav1.ObservedGeneration c;
                metav1.LastTransitionTime := t;
                metav1.Reason := metav1.Reason c; metav1.Message := metav1.Message c |})
          (metav1.Type_ c) = Some c'
        /\ metav1.Status c' = s
        /\ metav1.Reason c' = metav1.Reason c
        /\ metav1.Message c' = metav1.Message c).
    { intros s t.
      set (c2 := {| metav1.Type_ := metav1.Type_ existing; metav1.Status := s;
                    metav1.ObservedGeneration := metav1.ObservedGeneration c;
                    metav1.LastTransitionTime := t;
                    metav1.Reason := metav1.Reason c; metav1.Message := metav1.Message c |}).
      exists c2. split; [|repeat split; reflexivity].
      replace (metav1.Type_ c) with (metav1.Type_ c2) by exact Htype.
      apply (FindStatusCondition_store conditions existing c2).
      change (metav1.Type_ c2) with (metav1.Type_ existing). rewrite Htype. exact Hfind. }
    destruct (bool_decide (metav1.Status existing = metav1.Status c)) eqn:Hsame.
    + apply bool_decide_eq_true in Hsame. destruct cl. eexists _, _. split; [reflexivity|].
      cbn [metav1.Status]. rewrite Hsame. apply Hstore.
    + destruct (metav1.LastTransitionTime c).
      * destruct cl. eexists _, _. split; [reflexivity|]. apply Hstore.
      * rewrite Now_spec. eexists _, _. split; [reflexivity|]. apply Hstore.
  - destruct (metav1.LastTransitionTime c).
    + destruct cl. eexists _, _. split; [reflexivity|].
      exists (meta.with_transition c (metav1.Status c) (Some t)).
      split; [|repeat split; reflexivity].
      apply (FindStatusCondition_app_new conditions
               (meta.with_transition c (metav1.Status c) (Some t))). exact Hfind.
    + rewrite Now_spec. eexists _, _. split; [reflexivity|].
      exists (meta.with_transition c (metav1.Status c) (Some (snd (clock H (world cl))))).
      split; [|repeat split; reflexivity].
      apply (FindStatusCondition_app_new conditions
               (meta.with_transition c (metav1.Status c) _)). exact Hfind.
Qed.

Lemma setCondition_spec mr c (cl : Cluster W) :
  exists conditions' w,
    setCondition H mr c cl
    = (with_Status mr (set_Conditions conditions' (Status mr)),
       {| world := w; stored := stored cl |}, [])
    /\ exists c', meta.FindStatusCondition conditions' (metav1.Type_ c) = Some c'
                  /\ metav1.Status c' = metav1.Status c
                  /\ metav1.Reason c' = metav1.Reason c
                  /\ metav1.Message c' = metav1.Message c.
Proof.
  unfold setCondition, bind, ret.
  destruct (SetStatusCondition_spec (Conditions (Status mr)) c cl) as (cs & w & -> & Hc).
  eexists _, _. split; [reflexivity|exact Hc].
Qed.

(** [GetVMStatus] only reads, and leaves the record store alone. *)
Lemma GetVMStatus_reads hc name (cl : Cluster W) :
  let '(_, cl1, calls) := harvester.GetVMStatus H hc name cl in
  stored cl1 = stored cl
  /\ (calls = [GetVirtualMachine (harvester.namespace hc) name]
      \/ calls = [GetVirtualMachine (harvester.namespace hc) name;
                  GetVirtualMachineInstance (harvester.namespace hc) name]).
Proof.
  unfold harvester.GetVMStatus, harvester.GetVM, harvester.GetVMI, bind, external, ret.
  destruct (vm_get H _ _ _) as [w1 [vm|e]]; [|split; [reflexivity|left; reflexivity]].
  destruct (NestedBool vm _) as [ready found]. cbn [world stored].
  destruct (vmi_get H _ _ _) as [w2 [vmi|e]]; [|split; [reflexivity|right; reflexivity]].
  destruct (NestedSlice vmi _) as [interfaces found'].
  destruct (found' && _); (split; [reflexivity|right; reflexivity]).
Qed.

(** C10. In the Running phase, once the status read has succeeded: when
    the observed address is not empty and differs from the recorded one,
    exactly one status write follows the reads, and the record written is
    the record read with the address and the last-updated time replaced,
    so that its hardware address, provider identifier, phase, conditions
    and failure fields are the recorded ones whatever the read observed;
    when the observed address is empty or equal to the recorded one, the
    pass ends after the reads, with no write, and asks for the long
    delay. *)
Theorem reconcileRunning_drift_writes_address_only
    (mr : MachineRequest) (hc : harvester.Client) (cl cl1 : Cluster W)
    (status : harvester.VMStatus) (reads : list Call) :
  harvester.GetVMStatus H hc (MachineName (Spec mr)) cl = ((status, None), cl1, reads) ->
  let observed := harvester.IPAddress status in
  let now := snd (clock H (world cl1)) in
  let written :=
    with_Status mr (set_LastUpdated (Some now) (set_IPAddress observed (Status mr))) in
  Forall (fun call => Trace.is_record_write call = false) reads
  /\ (observed <> "" -> observed <> IPAddress (Status mr) ->
        snd (reconcileRunning H mr hc cl) = reads ++ [UpdateStatus written]
        /\ (forall old w,
              stored cl1 = Some old ->
              store_status_update H (fst (clock H (world cl1))) = (w, None) ->
              reconcileRunning H mr hc cl =
                ((Result_RequeueAfter requeueLong, None),
                 {| world := w; stored := Some (with_Status old (Status written)) |},
                 reads ++ [UpdateStatus written]))
        /\ ObjectMeta written = ObjectMeta mr
        /\ Spec written = Spec mr
        /\ IPAddress (Status written) = observed
        /\ MACAddress (Status written) = MACAddress (Status mr)
        /\ ProviderID (Status written) = ProviderID (Status mr)
        /\ Phase (Status written) = Phase (Status mr)
        /\ Conditions (Status written) = Conditions (Status mr)
        /\ FailureReason (Status written) = FailureReason (Status mr)
        /\ FailureMessage (Status written) = FailureMessage (Status mr)
        /\ ObservedGeneration (Status written) = ObservedGeneration (Status mr))
  /\ (observed = "" \/ observed = IPAddress (Status mr) ->
        reconcileRunning H mr hc cl = ((Result_RequeueAfter requeueLong, None), cl1, reads)).
Proof.
  intros Hget observed now written. split; [|split].
  - pose proof (GetVMStatus_reads hc (MachineName (Spec mr)) cl) as Hr.
    rewrite Hget in Hr. destruct Hr as [_ [-> | ->]]; repeat constructor.
  - intros H1%String.eqb_neq H2%String.eqb_neq.
    unfold reconcileRunning, bind. rewrite Hget. fold observed. rewrite H1, H2.
    cbn [negb andb]. rewrite Now_spec. fold now. fold written.
    unfold StatusUpdate. cbn [world stored].
    split; [|split].
    + destruct (store_status_update H _) as [w [e|]]; [reflexivity|].
      destruct (stored cl1); reflexivity.
    + intros old w Hold Hw. rewrite Hw, Hold. reflexivity.
    + repeat split; reflexivity.
  - intros Hs. unfold reconcileRunning, bind. rewrite Hget. fold observed.
    replace (negb (String.eqb observed "")
             && negb (String.eqb observed (IPAddress (Status mr)))) with false.
    + unfold ret. rewrite app_nil_r. reflexivity.
    + destruct Hs as [-> | ->]; [reflexivity|].
      rewrite String.eqb_refl, andb_false_r. reflexivity.
Qed.

End Driver.

(** The theorem on the worker example: the record says 10.0.0.9 with
    hardware address aa:bb:aa, the platform reports 10.0.0.7 with
    aa:bb:cc; the write replaces the address and keeps aa:bb:aa. *)
Lemma reconcileRunning_drift_writes_address_only_witness :
  let written :=
    butlerv1alpha1.with_Status Samples.running_request
      (butlerv1alpha1.set_LastUpdated (Some 1000)
         (butlerv1alpha1.set_IPAddress "10.0.0.7"
            (butlerv1alpha1.Status Samples.running_request))) in
  snd (controller.reconcileRunning (Worlds.scripted Samples.reporting_script)
         Samples.running_request Samples.client
         (Samples.cluster_with Samples.running_request))
  = [GetVirtualMachine "default" "alpha-cp-0";
     GetVirtualMachineInstance "default" "alpha-cp-0";
     UpdateStatus written]
  /\ butlerv1alpha1.MACAddress (butlerv1alpha1.Status written) = "aa:bb:aa".
Proof.
  pose proof (reconcileRunning_drift_writes_address_only
                (Worlds.scripted Samples.reporting_script)
                Samples.running_request Samples.client
                (Samples.cluster_with Samples.running_request)
                (Samples.cluster_with Samples.running_request)
                {| harvester.Exists := true; harvester.Ready := true;
                   harvester.Phase := "Running"; harvester.IPAddress := "10.0.0.7";
                   harvester.MACAddress := "aa:bb:cc" |}
                [GetVirtualMachine "default" "alpha-cp-0";
                 GetVirtualMachineInstance "default" "alpha-cp-0"]
                eq_refl) as [_ [Hdrift _]].
  destruct Hdrift as (Htrace & _ & _ & _ & _ & Hmac & _); [discriminate|discriminate|].
  split; [exact Htrace|exact Hmac].
Defined.

(** Case analysis on the answers of the environment. *)
Ltac handler_step H :=
  match goal with
  | |- context [Now H ?cl] => rewrite (Now_spec H cl)
  | |- context [store_status_update H ?w] =>
      let e := fresh "status_answer" in destruct (store_status_update H w) as [? [?|]] eqn:e
  | |- context [store_update H ?w] =>
      let e := fresh "update_answer" in destruct (store_update H w) as [? [?|]] eqn:e
  | |- context [store_get H ?w] =>
      let e := fresh "get_answer" in destruct (store_get H w) as [? [?|]] eqn:e
  | |- context [vm_delete H ?a ?b ?w] =>
      let e := fresh "vm_delete_answer" in destruct (vm_delete H a b w) as [? [?|]] eqn:e
  | |- context [pvc_delete H ?a ?b ?w] =>
      let e := fresh "pvc_delete_answer" in destruct (pvc_delete H a b w) as [? [?|]] eqn:e
  | |- context [pvc_create H ?a ?w] =>
      let e := fresh "pvc_create_answer" in destruct (pvc_create H a w) as [? [?|]] eqn:e
  | |- context [vm_create H ?a ?b ?w] =>
      let e := fresh "vm_create_answer" in destruct (vm_create H a b w) as [? [?|?]] eqn:e
  | |- context [vm_get H ?a ?b ?w] =>
      let e := fresh "vm_get_answer" in destruct (vm_get H a b w) as [? [?|?]] eqn:e
  | |- context [vmi_get H ?a ?b ?w] =>
      let e := fresh "vmi_get_answer" in destruct (vmi_get H a b w) as [? [?|?]] eqn:e
  | |- context [provider_config_get H ?a ?b ?w] =>
      let e := fresh "pc_answer" in destruct (provider_config_get H a b w) as [? [?|?]] eqn:e
  | |- context [secret_get H ?a ?b ?w] =>
      let e := fresh "secret_answer" in destruct (secret_get H a b w) as [? [?|?]] eqn:e
  | |- context [controller.SetFailure H ?mr ?r ?m ?cl] => unfold controller.SetFailure
  | |- context [controller.setCondition H ?mr ?c ?cl] =>
      let cs := fresh "conditions" in let w := fresh "w" in let e := fresh "set_answer" in
      let f := fresh "condition_set" in
      destruct (setCondition_spec H mr c cl) as (cs & w & e & f); rewrite e; clear e
  end.

Ltac handlers H := repeat (cbn [world stored fst snd] in *; handler_step H).

(** The same, also on the error tests and on the content of the store. *)
Ltac branch_step :=
  match goal with
  | |- context [IsNotFound ?e] => destruct (IsNotFound e)
  | |- context [IsAlreadyExists ?e] => destruct (IsAlreadyExists e)
  | |- context [stored ?c] => is_var c; destruct (stored c)
  end.

Ltac crunch H :=
  repeat (cbn [world stored fst snd negb] in *; first [handler_step H | branch_step]).

(** ** What a pass leaves in the record store *)

Section Outcomes.

Context {W : Type} (H : Handlers W) (K : butlerv1alpha1.ApiConstants).

Import butlerv1alpha1 controller Views Reach.

Lemma status_outcome_incl mr before after phases phases' :
  status_outcome mr before after phases ->
  incl phases phases' ->
  status_outcome mr before after phases'.
Proof.
  intros [Hs|(st & Hs & Hin)] Hincl; [left; exact Hs|].
  right. exists st. split; [exact Hs|apply Hincl, Hin].
Qed.

Lemma updateStatusError_outcome mr reason message (cl : Cluster W) :
  stored cl = Some mr ->
  status_outcome mr (stored cl) (stored (snd (fst (updateStatusError H mr reason message cl))))
    [MachinePhaseFailed].
Proof.
  intros Hst. unfold updateStatusError, StatusUpdate, Event, bind, ret.
  handlers H; rewrite ?Hst; cbn [world stored].
  all: try (left; reflexivity).
  right. eexists. split; [reflexivity|left; reflexivity].
Qed.

Lemma updatePhase_outcome mr phase (cl : Cluster W) :
  stored cl = Some mr ->
  status_outcome mr (stored cl) (stored (snd (fst (updatePhase H mr phase cl)))) [phase].
Proof.
  intros Hst. unfold updatePhase, StatusUpdate, bind, ret.
  handlers H; rewrite ?Hst; cbn [world stored].
  all: try (left; reflexivity).
  right. eexists. split; [reflexivity|left; reflexivity].
Qed.

Lemma getProviderConfig_keeps mr (cl : Cluster W) :
  let '(_, cl', calls) := getProviderConfig H mr cl in
  stored cl' = stored cl
  /\ Forall (fun call => Trace.is_create call = false /\ Trace.is_record_write call = false) calls.
Proof.
  unfold getProviderConfig, bind, ret, external. handlers H.
  all: split; [reflexivity|repeat constructor].
Qed.

Lemma createHarvesterClient_keeps pc (cl : Cluster W) :
  let '(_, cl', calls) := createHarvesterClient H pc cl in
  stored cl' = stored cl
  /\ Forall (fun call => Trace.is_create call = false /\ Trace.is_record_write call = false) calls.
Proof.
  unfold createHarvesterClient, bind, ret, external.
  destruct (pc_Harvester pc); [|split; [reflexivity|constructor]].
  handlers H; [|split; [reflexivity|repeat constructor]].
  destruct (corev1.Data _ !! _); split; try reflexivity; repeat constructor.
Qed.

Lemma CreateVM_keeps hc opts (cl : Cluster W) :
  let '(_, cl', calls) := harvester.CreateVM H hc opts cl in
  stored cl' = stored cl
  /\ Forall (fun call => Trace.is_record_write call = false /\ Trace.is_warning call = false) calls.
Proof.
  unfold harvester.CreateVM, harvester.createImagePVC, bind, ret, external.
  destruct (String.eqb _ ""); [split; [reflexivity|constructor]|].
  handlers H; split; try reflexivity; repeat constructor.
Qed.

Lemma DeleteVM_keeps hc name (cl : Cluster W) :
  let '(_, cl', calls) := harvester.DeleteVM H hc name cl in
  stored cl' = stored cl
  /\ Forall (fun call => Trace.is_create call = false /\ Trace.is_record_write call = false) calls.
Proof.
  unfold harvester.DeleteVM, bind, ret, external.
  handlers H; split; try reflexivity; repeat constructor.
Qed.

Lemma reconcilePending_options mr hc :
  reconcilePending H K mr hc =
    (let* created := harvester.CreateVM H hc (options_of mr) in
     match created with
     | Err err =>
         if IsAlreadyExists err
         then updatePhase H mr MachinePhaseCreating
         else
           let* _ :=
             Event corev1.EventTypeWarning "CreateFailed"
               ("Failed to create VM: " +:+ Error err) in
           updateStatusError H mr (ReasonProviderError K) (Error err)
     | Ok providerID =>
         let* now := Now H in
         let mr :=
           with_Status mr
             (set_ObservedGeneration (metav1.Generation (ObjectMeta mr))
                (set_LastUpdated (Some now)
                   (set_FailureMessage ""
                      (set_FailureReason ""
                         (set_Phase MachinePhaseCreating
                            (set_ProviderID providerID (Status mr))))))) in
         let* mr :=
           setCondition H mr
             (condition ConditionTypeProgressing metav1.ConditionTrue (ReasonCreating K)
                "VM is being created" (metav1.Generation (ObjectMeta mr))) in
         let* r := StatusUpdate H mr in
         match r with
         | Err err => ret (Result_zero, Some err)
         | Ok mr =>
             let* _ := Event corev1.EventTypeNormal "Created" "VM creation initiated" in
             ret (Result_RequeueAfter requeueShort, None)
         end
     end).
Proof. reflexivity. Qed.

Lemma reconcilePending_outcome mr hc (cl : Cluster W) :
  stored cl = Some mr ->
  status_outcome mr (stored cl) (stored (snd (fst (reconcilePending H K mr hc cl))))
    [MachinePhaseFailed; MachinePhaseCreating].
Proof.
  intros Hst. rewrite reconcilePending_options. unfold bind at 1.
  pose proof (CreateVM_keeps hc (options_of mr) cl) as Hc.
  destruct (harvester.CreateVM H hc (options_of mr) cl) as [[[uid|e] cl1] t1];
    destruct Hc as [Hc _]; rewrite <- Hc in *.
  - unfold StatusUpdate, Event, bind, ret. handlers H; rewrite ?Hst; cbn [world stored fst snd].
    all: try (left; reflexivity).
    right. eexists. split; [reflexivity|]. right; left. reflexivity.
  - destruct (IsAlreadyExists e).
    + pose proof (updatePhase_outcome mr MachinePhaseCreating cl1 Hst) as Hp.
      destruct (updatePhase H mr MachinePhaseCreating cl1) as [[r cl2] t2]. cbn [fst snd] in *.
      eapply status_outcome_incl; [exact Hp|]. intros p [<-|[]]. right; left; reflexivity.
    + unfold Event, bind. cbn [fst snd].
      pose proof (updateStatusError_outcome mr (ReasonProviderError K) (Error e) cl1 Hst) as Hp.
      destruct (updateStatusError H mr _ _ cl1) as [[r cl2] t2]. cbn [fst snd] in *.
      eapply status_outcome_incl; [exact Hp|]. intros p [<-|[]]. left; reflexivity.
Qed.

Lemma reconcileCreating_outcome mr hc (cl : Cluster W) :
  stored cl = Some mr ->
  status_outcome mr (stored cl) (stored (snd (fst (reconcileCreating H K mr hc cl))))
    [MachinePhasePending; MachinePhaseRunning; Phase (Status mr)].
Proof.
  intros Hst. unfold reconcileCreating. unfold bind at 1.
  pose proof (GetVMStatus_reads H hc (MachineName (Spec mr)) cl) as Hr.
  destruct (harvester.GetVMStatus H hc _ cl) as [[[status [e|]] cl1] t1];
    destruct Hr as [Hr _]; rewrite <- Hr in *.
  - destruct (IsNotFound e).
    + pose proof (updatePhase_outcome mr MachinePhasePending cl1 Hst) as Hp.
      destruct (updatePhase H mr MachinePhasePending cl1) as [[r cl2] t2]. cbn [fst snd] in *.
      eapply status_outcome_incl; [exact Hp|]. intros p [<-|[]]. left; reflexivity.
    + left. reflexivity.
  - destruct (negb _).
    + unfold StatusUpdate, Event, bind, ret.
      handlers H; rewrite ?Hst; cbn [world stored fst snd].
      all: try (left; reflexivity).
      right. eexists. split; [reflexivity|]. right; left. reflexivity.
    + unfold StatusUpdate, Event, bind, ret.
      handlers H; rewrite ?Hst; cbn [world stored fst snd].
      all: try (left; reflexivity).
      right. eexists. split; [reflexivity|]. right; right; left. reflexivity.
Qed.

Lemma reconcileRunning_outcome mr hc (cl : Cluster W) :
  stored cl = Some mr ->
  status_outcome mr (stored cl) (stored (snd (fst (reconcileRunning H mr hc cl))))
    [MachinePhaseFailed; Phase (Status mr)].
Proof.
  intros Hst. unfold reconcileRunning. unfold bind at 1.
  pose proof (GetVMStatus_reads H hc (MachineName (Spec mr)) cl) as Hr.
  destruct (harvester.GetVMStatus H hc _ cl) as [[[status [e|]] cl1] t1];
    destruct Hr as [Hr _]; rewrite <- Hr in *.
  - destruct (IsNotFound e); [|left; reflexivity].
    unfold StatusUpdate, Event, bind, ret.
    handlers H; rewrite ?Hst; cbn [world stored fst snd].
    all: try (left; reflexivity).
    right. eexists. split; [reflexivity|]. left. reflexivity.
  - destruct (_ && _); [|left; reflexivity].
    unfold StatusUpdate, Event, bind, ret.
    handlers H; rewrite ?Hst; cbn [world stored fst snd].
    all: try (left; reflexivity).
    right. eexists. split; [reflexivity|]. right; left. reflexivity.
Qed.


Lemma reconcileDelete_outcome mr hc (cl : Cluster W) :
  stored cl = Some mr ->
  is_deleting mr = true ->
  pass_outcome mr (stored (snd (fst (reconcileDelete H mr hc cl)))).
Proof.
  intros Hst Hdel. unfold reconcileDelete. unfold bind at 1.
  destruct (negb (String.eqb (Phase (Status mr)) MachinePhaseDeleting)) eqn:Hph.
  - unfold bind at 1. rewrite Now_spec. unfold StatusUpdate. cbn [world stored].
    destruct (store_status_update H _) as [w1 [e|]]; [cbn; rewrite Hst; constructor|].
    rewrite Hst. unfold bind at 1.
    set (mr1 := with_Status mr _).
    set (cl1 := {| world := w1; stored := Some mr1 |}).
    pose proof (DeleteVM_keeps hc (MachineName (Spec mr1)) cl1) as Hk.
    destruct (harvester.DeleteVM H hc _ cl1) as [[err cl2] t2]. destruct Hk as [Hk _].
    assert (Hd : pass_outcome mr (Some mr1)) by (apply outcome_deleting; [exact Hdel|reflexivity]).
    destruct (match err with Some e => negb (IsNotFound e) | None => false end);
      [cbn; rewrite Hk; exact Hd|].
    unfold Update, Event, bind, ret. handlers H; rewrite ?Hk; cbn [world stored fst snd].
    all: try exact Hd.
    apply (outcome_released mr (Status mr1)); [exact Hdel|reflexivity].
  - apply negb_false_iff, String.eqb_eq in Hph. unfold ret at 1, bind at 1.
    pose proof (DeleteVM_keeps hc (MachineName (Spec mr)) cl) as Hk.
    destruct (harvester.DeleteVM H hc _ cl) as [[err cl2] t2]. destruct Hk as [Hk _].
    destruct (match err with Some e => negb (IsNotFound e) | None => false end);
      [cbn; rewrite Hk, Hst; constructor|].
    unfold Update, Event, bind, ret. handlers H; rewrite ?Hk, ?Hst; cbn [world stored fst snd].
    all: try apply outcome_unchanged.
    apply (outcome_released mr (Status mr)); [exact Hdel|exact Hph].
Qed.

Lemma rank_cases p :
  (rank p = Some 0%nat /\ (String.eqb p "" || String.eqb p MachinePhasePending = true))
  \/ (rank p = Some 1%nat /\ p = MachinePhaseCreating)
  \/ (rank p = Some 2%nat /\ p = MachinePhaseRunning)
  \/ (rank p = None /\ p = MachinePhaseFailed)
  \/ unknown p.
Proof.
  unfold unknown, rank.
  destruct (String.eqb p "" || String.eqb p MachinePhasePending); [left; auto|].
  destruct (String.eqb_spec p MachinePhaseCreating); [right; left; auto|].
  destruct (String.eqb_spec p MachinePhaseRunning); [right; right; left; auto|].
  destruct (String.eqb_spec p MachinePhaseFailed); [right; right; right; left; auto|].
  right; right; right; right. auto.
Qed.

Lemma dispatch_outcome mr hc (cl : Cluster W) :
  stored cl = Some mr ->
  let after := stored (snd (fst (dispatch H K mr hc cl))) in
  after = stored cl
  \/ exists st, after = Some (with_Status mr st)
                /\ phase_step (Phase (Status mr)) (Phase st)
                /\ Phase st <> MachinePhaseDeleting.
Proof.
  intros Hst. cbv zeta. unfold dispatch.
  destruct (rank_cases (Phase (Status mr))) as [[Hr Hp]|[[Hr Hp]|[[Hr Hp]|[[Hr Hp]|Hu]]]].
  - rewrite Hp.
    destruct (reconcilePending_outcome mr hc cl Hst) as [Ho|(st & Ho & Hin)]; [left; exact Ho|].
    right. exists st. split; [exact Ho|].
    destruct Hin as [<-|[<-|[]]]; split; try discriminate.
    + apply step_fail.
    + apply step_create, Hr.
  - rewrite Hp. cbn [String.eqb orb]. change (String.eqb MachinePhaseCreating "") with false.
    cbn.
    destruct (reconcileCreating_outcome mr hc cl Hst) as [Ho|(st & Ho & Hin)]; [left; exact Ho|].
    right. exists st. split; [exact Ho|]. rewrite Hp in Hin.
    destruct Hin as [<-|[<-|[<-|[]]]]; split; try discriminate; constructor.
  - rewrite Hp. cbn.
    destruct (reconcileRunning_outcome mr hc cl Hst) as [Ho|(st & Ho & Hin)]; [left; exact Ho|].
    right. exists st. split; [exact Ho|]. rewrite Hp in Hin.
    destruct Hin as [<-|[<-|[]]]; split; try discriminate; constructor.
  - rewrite Hp. cbn. left. reflexivity.
  - destruct Hu as [Hr Hf]. pose proof Hr as Hr'. unfold rank in Hr'.
    destruct (String.eqb _ "" || _); [discriminate|].
    destruct (String.eqb _ MachinePhaseCreating); [discriminate|].
    destruct (String.eqb _ MachinePhaseRunning); [discriminate|].
    destruct (String.eqb_spec (Phase (Status mr)) MachinePhaseFailed); [contradiction|].
    destruct (updatePhase_outcome mr MachinePhasePending cl Hst) as [Ho|(st & Ho & Hin)];
      [left; exact Ho|].
    right. exists st. split; [exact Ho|].
    destruct Hin as [<-|[]]. split; [|discriminate]. apply step_reset. split; assumption.
Qed.

Lemma status_outcome_failed mr (cl cl' : Cluster W) :
  stored cl = Some mr ->
  status_outcome mr (stored cl) (stored cl') [MachinePhaseFailed] ->
  pass_outcome mr (stored cl').
Proof.
  intros Hst [->|(st & -> & [Hf|[]])]; [rewrite Hst; apply outcome_unchanged|].
  apply outcome_failed. symmetry. exact Hf.
Qed.

Lemma Reconcile_outcome (cl : Cluster W) mr :
  stored cl = Some mr ->
  pass_outcome mr (stored (snd (fst (Reconcile H K cl)))).
Proof.
  intros Hst. destruct cl as [w st]. cbn [stored] in Hst. subst st.
  unfold Reconcile, Get. unfold bind at 1. cbn [world stored].
  destruct (store_get H w) as [w0 [e|]].
  { destruct (IsNotFound e); unfold ret; cbn [fst snd stored]; apply outcome_unchanged. }
  set (cl0 := {| world := w0; stored := Some mr |}).
  assert (Hst0 : stored cl0 = Some mr) by reflexivity.
  unfold bind at 1.
  pose proof (getProviderConfig_keeps mr cl0) as Hk.
  destruct (getProviderConfig H mr cl0) as [[[pc|e] cl1] t1]; destruct Hk as [Hk _];
    rewrite <- Hk in Hst0.
  2:{ pose proof (updateStatusError_outcome mr "ProviderConfigError" (Error e) cl1 Hst0) as Ho.
      destruct (updateStatusError H mr _ _ cl1) as [[r cl2] t2]. cbn [fst snd] in *.
      exact (status_outcome_failed mr cl1 cl2 Hst0 Ho). }
  destruct (negb (String.eqb (pc_Provider pc) _));
    [unfold ret; cbn [fst snd stored]; rewrite Hst0; apply outcome_unchanged|].
  unfold bind at 1.
  pose proof (createHarvesterClient_keeps pc cl1) as Hk2.
  destruct (createHarvesterClient H pc cl1) as [[[hc|e] cl2] t2]; destruct Hk2 as [Hk2 _];
    rewrite <- Hk2 in Hst0.
  2:{ pose proof (updateStatusError_outcome mr "HarvesterClientError" (Error e) cl2 Hst0) as Ho.
      destruct (updateStatusError H mr _ _ cl2) as [[r cl3] t3]. cbn [fst snd] in *.
      exact (status_outcome_failed mr cl2 cl3 Hst0 Ho). }
  destruct (negb (metav1.IsZero _)) eqn:Hdel.
  { pose proof (reconcileDelete_outcome mr hc cl2 Hst0 Hdel) as Ho.
    destruct (reconcileDelete H mr hc cl2) as [[r cl3] t3]. exact Ho. }
  destruct (negb (controllerutil.ContainsFinalizer mr finalizerName)) eqn:Hguard.
  { apply negb_true_iff in Hguard.
    unfold Update, bind, ret. handlers H; rewrite ?Hst0; cbn [world stored fst snd].
    - apply outcome_unchanged.
    - replace (settle _) with (Some (controllerutil.AddFinalizer mr finalizerName)).
      + apply outcome_guarded; assumption.
      + unfold settle. apply negb_false_iff in Hdel.
        unfold controllerutil.AddFinalizer. rewrite Hguard. cbn.
        destruct (metav1.DeletionTimestamp (ObjectMeta mr)); [discriminate|].
        destruct mr as [[] ? ?]; reflexivity. }
  apply negb_false_iff in Hguard.
  destruct (dispatch_outcome mr hc cl2 Hst0) as [Ho|(st & Ho & Hstep & Hnd)].
  - destruct (dispatch H K mr hc cl2) as [[r cl3] t3]. cbn [fst snd] in *.
    rewrite Ho, Hst0. apply outcome_unchanged.
  - destruct (dispatch H K mr hc cl2) as [[r cl3] t3]. cbn [fst snd] in *.
    rewrite Ho. apply outcome_dispatched; assumption.
Qed.

End Outcomes.

(** ** The moves of the phase *)

Section PhaseMoves.

Import butlerv1alpha1 controller Views Reach.

Lemma settle_Some x y : settle x = Some y -> y = x.
Proof.
  unfold settle. destruct (metav1.DeletionTimestamp _); [|congruence].
  destruct (metav1.Finalizers _); congruence.
Qed.

Lemma pass_outcome_phase mr o mr' :
  pass_outcome mr o -> o = Some mr' ->
  phase_step (Phase (Status mr)) (Phase (Status mr')).
Proof.
  intros Ho Heq. destruct Ho as [|st Hf|st _ Hd|st _ Hd| |st _ _ Hstep _].
  - injection Heq as <-. apply step_stay.
  - injection Heq as <-. cbn. rewrite Hf. apply step_fail.
  - injection Heq as <-. cbn. rewrite Hd. apply step_delete.
  - apply settle_Some in Heq. subst mr'. cbn. rewrite Hd. apply step_delete.
  - injection Heq as <-. unfold controllerutil.AddFinalizer.
    destruct (controllerutil.ContainsFinalizer mr finalizerName); apply step_stay.
  - injection Heq as <-. exact Hstep.
Qed.

Lemma phase_step_facts p p' :
  phase_step p p' ->
  (forall i j, rank p = Some i -> rank p' = Some j -> (j < i)%nat ->
               p = MachinePhaseCreating /\ p' = MachinePhasePending)
  /\ (p = MachinePhaseRunning ->
      p' = MachinePhaseRunning \/ p' = MachinePhaseFailed \/ p' = MachinePhaseDeleting)
  /\ (p = MachinePhaseFailed -> p' = MachinePhaseFailed \/ p' = MachinePhaseDeleting).
Proof.
  intros Hstep. destruct Hstep as [p|p|p|p Hr| | |p [Hr Hf]].
  - split; [|split]; [intros i j Hi Hj Hlt; rewrite Hi in Hj; injection Hj as <-; lia|auto|auto].
  - split; [|split]; [intros i j Hi Hj; discriminate Hj|auto|auto].
  - split; [|split]; [intros i j Hi Hj; discriminate Hj|auto|auto].
  - split; [|split].
    + intros i j Hi Hj Hlt. rewrite Hr in Hi. injection Hi as <-. lia.
    + intros ->. discriminate Hr.
    + intros ->. discriminate Hr.
  - split; [|split]; [intros i j [= <-] [= <-] Hlt; lia|discriminate|discriminate].
  - split; [|split]; [auto|discriminate|discriminate].
  - split; [|split].
    + intros i j Hi. rewrite Hr in Hi. discriminate Hi.
    + intros ->. discriminate Hr.
    + intros ->. contradiction Hf. reflexivity.
Qed.

(** C7, as amended.  One pass moves the phase only along [phase_step]: it
    stays, fails, turns to Deleting, goes from Pending to Creating or from
    Creating to Running, falls back from Creating to Pending, or is reset
    from a phase the switch does not name to Pending.  So the only move
    backward on the path Pending, Creating, Running is the one from
    Creating to Pending; a Running record stays Running, fails or is
    deleted, and a Failed record stays Failed or is deleted. *)
Theorem phase_moves_of_a_pass {W : Type} (H : Handlers W) (K : ApiConstants)
    (cl : Cluster W) (mr mr' : MachineRequest) :
  stored cl = Some mr ->
  stored (snd (fst (Reconcile H K cl))) = Some mr' ->
  let p := Phase (Status mr) in
  let p' := Phase (Status mr') in
  phase_step p p'
  /\ (forall i j, rank p = Some i -> rank p' = Some j -> (j < i)%nat ->
                  p = MachinePhaseCreating /\ p' = MachinePhasePending)
  /\ (p = MachinePhaseRunning ->
      p' = MachinePhaseRunning \/ p' = MachinePhaseFailed \/ p' = MachinePhaseDeleting)
  /\ (p = MachinePhaseFailed -> p' = MachinePhaseFailed \/ p' = MachinePhaseDeleting).
Proof.
  intros Hst Hafter p p'.
  assert (Hstep : phase_step p p')
    by exact (pass_outcome_phase mr _ mr' (Reconcile_outcome H K cl mr Hst) Hafter).
  split; [exact Hstep|]. apply phase_step_facts, Hstep.
Qed.

(** A Creating record whose machine has vanished: the pass writes
    Pending, so the claim as worded, that no pass moves the phase backward
    on the forward path, fails. *)
Lemma creating_falls_back_to_pending :
  (exists mr',
      stored (snd (fst (Reconcile (Worlds.scripted Samples.vanished_script) Samples.constants
                          (Samples.cluster_with Samples.creating_request)))) = Some mr'
      /\ Phase (Status mr') = MachinePhasePending)
  /\ ~ Claims.forward_path_is_monotonic.
Proof.
  assert (Hrun : exists mr',
      stored (snd (fst (Reconcile (Worlds.scripted Samples.vanished_script) Samples.constants
                          (Samples.cluster_with Samples.creating_request)))) = Some mr'
      /\ Phase (Status mr') = MachinePhasePending)
    by (eexists; split; vm_compute; reflexivity).
  split; [exact Hrun|].
  intros Hclaim. destruct Hrun as (mr' & Hafter & Hp).
  pose proof (Hclaim unit (Worlds.scripted Samples.vanished_script) Samples.constants
                (Samples.cluster_with Samples.creating_request)
                Samples.creating_request mr' 1%nat 0%nat eq_refl Hafter eq_refl) as Hle.
  rewrite Hp in Hle. specialize (Hle eq_refl). lia.
Qed.

(** The theorem on that record: the move is the one from Creating to
    Pending. *)
Lemma phase_moves_of_a_pass_witness :
  exists mr',
    stored (snd (fst (Reconcile (Worlds.scripted Samples.vanished_script) Samples.constants
                        (Samples.cluster_with Samples.creating_request)))) = Some mr'
    /\ phase_step MachinePhaseCreating (Phase (Status mr')).
Proof.
  eexists. split; [vm_compute; reflexivity|].
  apply (phase_moves_of_a_pass (Worlds.scripted Samples.vanished_script) Samples.constants
           (Samples.cluster_with Samples.creating_request) Samples.creating_request _
           eq_refl).
  vm_compute. reflexivity.
Defined.

End PhaseMoves.

(** ** The guard token *)

Section Guard.

Context {W : Type} (H : Handlers W) (K : butlerv1alpha1.ApiConstants).

Import butlerv1alpha1 controller Views Reach Trace.

Lemma ContainsFinalizer_AddFinalizer mr f :
  controllerutil.ContainsFinalizer (controllerutil.AddFinalizer mr f) f = true.
Proof.
  unfold controllerutil.AddFinalizer.
  destruct (controllerutil.ContainsFinalizer mr f) eqn:E; [exact E|].
  unfold controllerutil.ContainsFinalizer, with_Finalizers. cbn.
  rewrite existsb_app. cbn. rewrite String.eqb_refl. apply orb_true_iff. right. reflexivity.
Qed.

Lemma settle_AddFinalizer mr f :
  is_deleting mr = false ->
  settle (with_Status (controllerutil.AddFinalizer mr f) (Status mr))
  = Some (controllerutil.AddFinalizer mr f).
Proof.
  intros Hdel. unfold is_deleting in Hdel. apply negb_false_iff in Hdel.
  unfold settle, controllerutil.AddFinalizer.
  destruct (controllerutil.ContainsFinalizer mr f); cbn;
    (destruct (metav1.DeletionTimestamp (ObjectMeta mr)); [discriminate|]);
    destruct mr as [[] ? ?]; reflexivity.
Qed.

Lemma updateStatusError_quiet mr reason message (cl : Cluster W) :
  Forall quiet (snd (updateStatusError H mr reason message cl)).
Proof.
  unfold updateStatusError, StatusUpdate, Event, bind, ret.
  handlers H; destruct (stored _); cbn; repeat constructor.
Qed.

Lemma getProviderConfig_quiet mr (cl : Cluster W) :
  Forall quiet (snd (getProviderConfig H mr cl)).
Proof.
  unfold getProviderConfig, bind, ret, external. handlers H; repeat constructor.
Qed.

Lemma createHarvesterClient_quiet pc (cl : Cluster W) :
  Forall quiet (snd (createHarvesterClient H pc cl)).
Proof.
  unfold createHarvesterClient, bind, ret, external.
  destruct (pc_Harvester pc); [|constructor].
  handlers H; [|repeat constructor].
  destruct (corev1.Data _ !! _); repeat constructor.
Qed.

Lemma reconcileDelete_no_create mr hc (cl : Cluster W) :
  Forall (fun call => Trace.is_create call = false) (snd (reconcileDelete H mr hc cl)).
Proof.
  unfold reconcileDelete, harvester.DeleteVM, StatusUpdate, Update, Event, bind, ret, external.
  destruct (negb _); crunch H; cbn; repeat constructor.
Qed.


Lemma quiet_no_create calls :
  Forall quiet calls -> Forall (fun call => Trace.is_create call = false) calls.
Proof. intros HF. eapply Forall_impl; [exact HF|]. intros call [Hc _]. exact Hc. Qed.

Lemma quiet_no_metadata_write calls m :
  Forall quiet calls -> ~ In (UpdateMachineRequest m) calls.
Proof.
  intros Hq Hin. rewrite Forall_forall in Hq. apply list_elem_of_In in Hin.
  destruct (Hq _ Hin) as [_ Hm]. discriminate Hm.
Qed.

Ltac absurd_write Hin :=
  exfalso;
  match goal with
  | Hq : Forall quiet ?t |- _ => exact (quiet_no_metadata_write t _ Hq Hin)
  end.

(** A pass over a record without the guard token creates nothing. *)
Lemma Reconcile_creates_nothing_without_guard (cl : Cluster W) :
  has_guard (stored cl) = false ->
  Forall (fun call => Trace.is_create call = false) (snd (Reconcile H K cl)).
Proof.
  intros Hguard. destruct cl as [w [mr|]]; cbn [has_guard stored] in Hguard.
  2:{ unfold Reconcile, Get, bind. cbn [world stored].
      destruct (store_get H w) as [w0 [e|]]; [destruct (IsNotFound e)|]; cbn;
        repeat constructor. }
  unfold Reconcile, Get. unfold bind at 1. cbn [world stored].
  destruct (store_get H w) as [w0 [e|]].
  { destruct (IsNotFound e); cbn; repeat constructor. }
  set (cl0 := {| world := w0; stored := Some mr |}).
  unfold bind at 1.
  pose proof (getProviderConfig_quiet mr cl0) as Hq1.
  destruct (getProviderConfig H mr cl0) as [[[pc|e] cl1] t1]; cbn [snd] in Hq1.
  2:{ pose proof (updateStatusError_quiet mr "ProviderConfigError" (Error e) cl1) as Hq.
      destruct (updateStatusError H mr _ _ cl1) as [[r cl2] t2]. cbn [snd] in *.
      constructor; [reflexivity|]. apply Forall_app. split; apply quiet_no_create; assumption. }
  destruct (negb (String.eqb (pc_Provider pc) _)).
  { cbn. constructor; [reflexivity|]. rewrite app_nil_r. apply quiet_no_create, Hq1. }
  unfold bind at 1.
  pose proof (createHarvesterClient_quiet pc cl1) as Hq2.
  destruct (createHarvesterClient H pc cl1) as [[[hc|e] cl2] t2]; cbn [snd] in Hq2.
  2:{ pose proof (updateStatusError_quiet mr "HarvesterClientError" (Error e) cl2) as Hq.
      destruct (updateStatusError H mr _ _ cl2) as [[r cl3] t3]. cbn [snd] in *.
      constructor; [reflexivity|].
      repeat (apply Forall_app; split); apply quiet_no_create; assumption. }
  destruct (negb (metav1.IsZero _)).
  { pose proof (reconcileDelete_no_create mr hc cl2) as Hq.
    destruct (reconcileDelete H mr hc cl2) as [[r cl3] t3]. cbn [snd] in *.
    constructor; [reflexivity|].
    repeat (apply Forall_app; split);
      first [assumption | apply quiet_no_create; assumption]. }
  rewrite Hguard. cbn [negb].
  unfold Update, bind, ret. crunch H; cbn [snd].
  all: constructor; [reflexivity|].
  all: repeat (apply Forall_app; split); try (apply quiet_no_create; assumption).
  all: repeat constructor.
Qed.

(** The pass that adds the guard token: the write of the token is the
    last call of the pass. *)
Lemma Reconcile_guard_write (cl : Cluster W) mr m :
  stored cl = Some mr ->
  is_deleting mr = false ->
  controllerutil.ContainsFinalizer mr finalizerName = false ->
  let '(result, cl', calls) := Reconcile H K cl in
  In (UpdateMachineRequest m) calls ->
  m = controllerutil.AddFinalizer mr finalizerName
  /\ (exists before, calls = before ++ [UpdateMachineRequest m] /\ Forall quiet before)
  /\ ((result = (Result_Requeue, None)
       /\ stored cl' = Some (controllerutil.AddFinalizer mr finalizerName))
      \/ (exists e, result = (Result_zero, Some e) /\ stored cl' = Some mr)).
Proof.
  intros Hst Hdel Hguard. destruct cl as [w st]. cbn [stored] in Hst. subst st.
  unfold Reconcile, Get. unfold bind at 1. cbn [world stored].
  destruct (store_get H w) as [w0 [e|]].
  { destruct (IsNotFound e); cbn; intros [Hin|[]]; discriminate Hin. }
  set (cl0 := {| world := w0; stored := Some mr |}).
  assert (Hst0 : stored cl0 = Some mr) by reflexivity.
  unfold bind at 1.
  pose proof (getProviderConfig_quiet mr cl0) as Hq1.
  pose proof (getProviderConfig_keeps H mr cl0) as Hk1.
  destruct (getProviderConfig H mr cl0) as [[[pc|e] cl1] t1]; cbn [snd] in Hq1;
    destruct Hk1 as [Hk1 _]; rewrite <- Hk1 in Hst0.
  2:{ pose proof (updateStatusError_quiet mr "ProviderConfigError" (Error e) cl1) as Hq.
      destruct (updateStatusError H mr _ _ cl1) as [[r cl2] t2]. cbn [snd app] in *.
      intros [Hin|Hin]; [discriminate Hin|]. exfalso.
      apply in_app_or in Hin as [Hin|Hin]; absurd_write Hin. }
  destruct (negb (String.eqb (pc_Provider pc) _)).
  { cbn. rewrite app_nil_r. intros [Hin|Hin]; [discriminate Hin|]. exfalso.
    absurd_write Hin. }
  unfold bind at 1.
  pose proof (createHarvesterClient_quiet pc cl1) as Hq2.
  pose proof (createHarvesterClient_keeps H pc cl1) as Hk2.
  destruct (createHarvesterClient H pc cl1) as [[[hc|e] cl2] t2]; cbn [snd] in Hq2;
    destruct Hk2 as [Hk2 _]; rewrite <- Hk2 in Hst0.
  2:{ pose proof (updateStatusError_quiet mr "HarvesterClientError" (Error e) cl2) as Hq.
      destruct (updateStatusError H mr _ _ cl2) as [[r cl3] t3]. cbn [snd app] in *.
      intros [Hin|Hin]; [discriminate Hin|]. exfalso.
      apply in_app_or in Hin as [Hin|Hin]; [|apply in_app_or in Hin as [Hin|Hin]];
        absurd_write Hin. }
  unfold is_deleting in Hdel. rewrite Hdel, Hguard. cbn [negb].
  assert (Hbefore : Forall quiet (GetMachineRequest :: t1 ++ t2)).
  { constructor; [split; reflexivity|]. apply Forall_app. split; assumption. }
  assert (Hwrite : forall tail,
            In (UpdateMachineRequest m)
               (GetMachineRequest
                :: t1 ++ t2
                   ++ [UpdateMachineRequest (controllerutil.AddFinalizer mr finalizerName)]
                   ++ tail) ->
            tail = [] ->
            m = controllerutil.AddFinalizer mr finalizerName).
  { intros tail Hin ->. destruct Hin as [Hin|Hin]; [discriminate Hin|].
    apply in_app_or in Hin as [Hin|Hin]; [absurd_write Hin|].
    apply in_app_or in Hin as [Hin|Hin]; [absurd_write Hin|].
    destruct Hin as [Hin|[]]. injection Hin as <-. reflexivity. }
  unfold Update, bind, ret. destruct (store_update H (world cl2)) as [w3 [e|]].
  - cbn [fst snd app]. rewrite Hst0. intros Hin.
    assert (Hm := Hwrite [] Hin eq_refl). subst m. split; [reflexivity|split].
    + exists (GetMachineRequest :: t1 ++ t2). split; [|exact Hbefore].
      cbn [app]. rewrite <- app_assoc. reflexivity.
    + right. eexists. split; reflexivity.
  - rewrite Hst0. cbn [fst snd app world stored]. intros Hin.
    assert (Hm := Hwrite [] Hin eq_refl). subst m. split; [reflexivity|split].
    + exists (GetMachineRequest :: t1 ++ t2). split; [|exact Hbefore].
      cbn [app]. rewrite <- app_assoc. reflexivity.
    + left. split; [reflexivity|]. apply settle_AddFinalizer. exact Hdel.
Qed.

Lemma Reconcile_gone (cl : Cluster W) :
  stored cl = None -> stored (snd (fst (Reconcile H K cl))) = None.
Proof.
  intros Hst. unfold Reconcile, Get, bind. rewrite Hst.
  destruct (store_get H (world cl)) as [w0 [e|]]; [destruct (IsNotFound e)|]; reflexivity.
Qed.

Lemma Reconcile_keeps_guard (cl : Cluster W) :
  guarded_when_provisioned (stored cl) ->
  guarded_when_provisioned (stored (snd (fst (Reconcile H K cl)))).
Proof.
  intros Hinv. destruct (stored cl) as [mr|] eqn:Hst.
  2:{ rewrite (Reconcile_gone cl Hst). intros mr' [=]. }
  pose proof (Reconcile_outcome H K cl mr Hst) as Ho.
  destruct Ho as [|st Hf|st _ Hd|st _ Hd|Hdel Hg|st _ Hg _ _]; intros mr' Heq Hph.
  - exact (Hinv mr' Heq Hph).
  - injection Heq as <-. cbn in Hph. rewrite Hf in Hph. destruct Hph; discriminate.
  - injection Heq as <-. cbn in Hph. rewrite Hd in Hph. destruct Hph; discriminate.
  - apply settle_Some in Heq. subst mr'. cbn in Hph. rewrite Hd in Hph.
    destruct Hph; discriminate.
  - injection Heq as <-. apply ContainsFinalizer_AddFinalizer.
  - injection Heq as <-. exact Hg.
Qed.

Lemma reachable_guarded (cl : Cluster W) :
  reachable H K cl -> guarded_when_provisioned (stored cl).
Proof.
  induction 1 as [w mr (Hp & _ & _)|cl _ IH|cl mr t _ IH Hst|cl w _ IH].
  - intros mr' [= <-] Hph. rewrite Hp in Hph. destruct Hph; discriminate.
  - apply Reconcile_keeps_guard, IH.
  - intros mr' Heq Hph. cbn [stored] in Heq. apply settle_Some in Heq. subst mr'.
    apply (IH mr Hst Hph).
  - exact IH.
Qed.

End Guard.

Section GuardClaim.

Import butlerv1alpha1 controller Views Reach Trace.

(** C3, as amended.  Every reachable record in phase Creating or Running
    carries the guard token; a pass that finds the token absent issues no
    create call, for the disk or for the machine; and when such a pass
    writes the token, the written record is the one read plus the token,
    nothing is called after the write, and the pass either asks for an
    immediate re-run with the token persisted, or returns the error of
    the refused write with the record as it was. *)
Theorem guard_token_precedes_creation {W : Type} (H : Handlers W) (K : ApiConstants) :
  (forall (cl : Cluster W) (mr : MachineRequest),
      reachable H K cl ->
      stored cl = Some mr ->
      Phase (Status mr) = MachinePhaseCreating \/ Phase (Status mr) = MachinePhaseRunning ->
      controllerutil.ContainsFinalizer mr finalizerName = true)
  /\ (forall cl : Cluster W,
        has_guard (stored cl) = false ->
        Forall (fun call => is_create call = false) (snd (Reconcile H K cl)))
  /\ (forall (cl : Cluster W) (mr m : MachineRequest),
        stored cl = Some mr ->
        is_deleting mr = false ->
        controllerutil.ContainsFinalizer mr finalizerName = false ->
        let '(result, cl', calls) := Reconcile H K cl in
        In (UpdateMachineRequest m) calls ->
        m = controllerutil.AddFinalizer mr finalizerName
        /\ (exists before, calls = before ++ [UpdateMachineRequest m] /\ Forall quiet before)
        /\ ((result = (Result_Requeue, None)
             /\ stored cl' = Some (controllerutil.AddFinalizer mr finalizerName))
            \/ (exists e, result = (Result_zero, Some e) /\ stored cl' = Some mr))).
Proof.
  split; [|split].
  - intros cl mr Hreach Hst Hph. exact (reachable_guarded H K cl Hreach mr Hst Hph).
  - apply Reconcile_creates_nothing_without_guard.
  - intros cl mr m. apply Reconcile_guard_write.
Qed.

(** A record whose provider configuration cannot be read is marked
    Failed before the guard token is attached, so the claim as worded,
    that every reachable record outside Pending carries the token,
    fails. *)
Lemma failed_without_guard :
  (let cl := snd (fst (Reconcile (Worlds.scripted Samples.missing_provider_script)
                         Samples.constants (Samples.cluster_with Samples.fresh_request))) in
   reachable (Worlds.scripted Samples.missing_provider_script) Samples.constants cl
   /\ exists mr, stored cl = Some mr
                 /\ Phase (Status mr) = MachinePhaseFailed
                 /\ controllerutil.ContainsFinalizer mr finalizerName = false)
  /\ ~ Claims.guard_outside_pending.
Proof.
  assert (Hrun :
    let cl := snd (fst (Reconcile (Worlds.scripted Samples.missing_provider_script)
                          Samples.constants (Samples.cluster_with Samples.fresh_request))) in
    reachable (Worlds.scripted Samples.missing_provider_script) Samples.constants cl
    /\ exists mr, stored cl = Some mr
                  /\ Phase (Status mr) = MachinePhaseFailed
                  /\ controllerutil.ContainsFinalizer mr finalizerName = false).
  { split.
    - apply reach_pass. apply (reach_created _ _ tt Samples.fresh_request).
      repeat split; reflexivity.
    - eexists. repeat split; vm_compute; reflexivity. }
  split; [exact Hrun|].
  intros Hclaim. destruct Hrun as [Hreach (mr & Hst & Hph & Hguard)].
  pose proof (Hclaim unit _ _ _ mr Hreach Hst) as Hg. rewrite Hph in Hg.
  rewrite Hg in Hguard; [discriminate Hguard|discriminate].
Qed.

(** The theorem on the worker example: after the pass that attaches the
    token and the pass that creates the machine, the record is Creating
    and carries the token. *)
Lemma guard_token_precedes_creation_witness :
  let H := Worlds.scripted Samples.reporting_script in
  let cl := snd (fst (Reconcile H Samples.constants
              (snd (fst (Reconcile H Samples.constants
                           (Samples.cluster_with Samples.fresh_request)))))) in
  exists mr, stored cl = Some mr
             /\ Phase (Status mr) = MachinePhaseCreating
             /\ controllerutil.ContainsFinalizer mr finalizerName = true.
Proof.
  intros H cl.
  assert (Hrun : exists mr, stored cl = Some mr /\ Phase (Status mr) = MachinePhaseCreating)
    by (eexists; split; vm_compute; reflexivity).
  destruct Hrun as (mr & Hst & Hph). exists mr. split; [exact Hst|split; [exact Hph|]].
  apply (proj1 (guard_token_precedes_creation H Samples.constants) cl mr).
  - apply reach_pass, reach_pass.
    apply (reach_created _ _ tt Samples.fresh_request). repeat split; reflexivity.
  - exact Hst.
  - left. exact Hph.
Defined.

End GuardClaim.

(** ** Deletion *)

Section Deletion.

Context {W : Type} (H : Handlers W).

Import butlerv1alpha1 controller Views Reach Trace.

Lemma ContainsFinalizer_RemoveFinalizer mr f :
  controllerutil.ContainsFinalizer (controllerutil.RemoveFinalizer mr f) f = false.
Proof.
  unfold controllerutil.ContainsFinalizer, controllerutil.RemoveFinalizer, with_Finalizers.
  cbn [ObjectMeta metav1.Finalizers].
  induction (metav1.Finalizers (ObjectMeta mr)) as [|g l IH]; [reflexivity|].
  rewrite filter_cons. destruct (decide (g <> f)) as [Hne|Heq]; [|exact IH].
  cbn [existsb]. rewrite IH, orb_false_r. apply String.eqb_neq. congruence.
Qed.

Lemma ContainsFinalizer_with_Status mr st f :
  controllerutil.ContainsFinalizer (with_Status mr st) f
  = controllerutil.ContainsFinalizer mr f.
Proof. reflexivity. Qed.

Lemma has_guard_settle mr :
  controllerutil.ContainsFinalizer mr finalizerName = false ->
  has_guard (settle mr) = false.
Proof.
  intros Hg. unfold settle.
  destruct (metav1.DeletionTimestamp _); [|exact Hg].
  destruct (metav1.Finalizers _) eqn:E; [reflexivity|exact Hg].
Qed.

(** C1, as amended.  [DeleteVM] deletes the machine first.  When that
    delete succeeds the disk delete follows and its answer is ignored, so
    that an absent disk is success, and no error is returned.  When the
    machine delete fails with an error other than NotFound, that error is
    returned after the one call; [reconcileDelete] then asks for the short
    delay (or returns the error of a refused status write), writes no
    metadata, calls no disk delete and leaves the guard token as it was.
    When the machine delete answers NotFound and the record store accepts
    the writes, [reconcileDelete] counts the machine as deleted: it writes
    the metadata, returns no error, and the guard token is gone from the
    store. *)
Theorem DeleteVM_machine_first_disk_after_success :
  (forall (c : harvester.Client) (name : string) (cl : Cluster W),
      let ns := harvester.namespace c in
      let pvcName := name +:+ "-rootdisk" in
      match vm_delete H ns name (world cl) with
      | (w1, None) =>
          harvester.DeleteVM H c name cl =
            (None,
             {| world := fst (pvc_delete H ns pvcName w1); stored := stored cl |},
             [DeleteVirtualMachine ns name; DeletePVC ns pvcName])
      | (w1, Some e) =>
          IsNotFound e = false ->
          harvester.DeleteVM H c name cl =
            (Some e, {| world := w1; stored := stored cl |}, [DeleteVirtualMachine ns name])
      end)
  /\ (forall (mr : MachineRequest) (hc : harvester.Client) (cl : Cluster W) (e : error),
        stored cl = Some mr ->
        (forall w, snd (vm_delete H (harvester.namespace hc) (MachineName (Spec mr)) w)
                   = Some e) ->
        IsNotFound e = false ->
        let '(result, cl', calls) := reconcileDelete H mr hc cl in
        (result = (Result_RequeueAfter requeueShort, None)
         \/ exists e', result = (Result_zero, Some e'))
        /\ Forall (fun call => is_metadata_write call = false) calls
        /\ Forall (fun call => is_disk_delete call = false) calls
        /\ has_guard (stored cl') = has_guard (stored cl))
  /\ (forall (mr : MachineRequest) (hc : harvester.Client) (cl : Cluster W) (e : error),
        stored cl = Some mr ->
        (forall w, snd (vm_delete H (harvester.namespace hc) (MachineName (Spec mr)) w)
                   = Some e) ->
        IsNotFound e = true ->
        (forall w, snd (store_status_update H w) = None) ->
        (forall w, snd (store_update H w) = None) ->
        let '(result, cl', calls) := reconcileDelete H mr hc cl in
        result = (Result_zero, None)
        /\ has_guard (stored cl') = false
        /\ Exists (fun call => is_metadata_write call = true) calls).
Proof.
  split; [|split].
  - intros c name cl ns pvcName.
    unfold harvester.DeleteVM, bind, ret, external. fold ns. fold pvcName.
    destruct (vm_delete H ns name (world cl)) as [w1 [e|]]; [reflexivity|].
    cbn [world stored]. destruct (pvc_delete H ns pvcName w1). reflexivity.
  - intros mr hc cl e Hst Hdel Hnf.
    unfold reconcileDelete, harvester.DeleteVM, bind, ret, external, StatusUpdate.
    destruct (negb _); handlers H; rewrite ?Hst; cbn [Spec with_Status MachineName].
    all: try (split; [eauto|split; [repeat constructor|split;
                [repeat constructor|rewrite ?Hst; reflexivity]]]).
    all: handlers H.
    all: try match goal with E : vm_delete H _ _ ?w = _ |- _ =>
        pose proof (Hdel w) as Hd; rewrite E in Hd; cbn in Hd; try discriminate;
        injection Hd as -> end.
    all: rewrite ?Hnf; cbn [negb].
    all: try (split; [eauto|split; [repeat constructor|split;
                [repeat constructor|rewrite ?Hst; reflexivity]]]).
  - intros mr hc cl e Hst Hdel Hnf Hstatus Hupdate.
    unfold reconcileDelete, harvester.DeleteVM, bind, ret, external, StatusUpdate, Update, Event.
    destruct (negb _); handlers H; rewrite ?Hst; cbn [Spec with_Status MachineName].
    all: repeat match goal with
         | E : store_status_update H ?w = (_, Some _) |- _ =>
             pose proof (Hstatus w) as Hs; rewrite E in Hs; discriminate Hs
         | E : store_update H ?w = (_, Some _) |- _ =>
             pose proof (Hupdate w) as Hs; rewrite E in Hs; discriminate Hs
         | E : vm_delete H _ _ ?w = (_, None) |- _ =>
             pose proof (Hdel w) as Hs; rewrite E in Hs; discriminate Hs
         | E : vm_delete H _ _ ?w = (_, Some ?e') |- _ =>
             pose proof (Hdel w) as Hs; rewrite E in Hs; cbn in Hs; injection Hs as ->;
             clear E
         end.
    all: handlers H.
    all: repeat match goal with
         | E : store_status_update H ?w = (_, Some _) |- _ =>
             pose proof (Hstatus w) as Hs; rewrite E in Hs; discriminate Hs
         | E : store_update H ?w = (_, Some _) |- _ =>
             pose proof (Hupdate w) as Hs; rewrite E in Hs; discriminate Hs
         | E : vm_delete H _ _ ?w = (_, None) |- _ =>
             pose proof (Hdel w) as Hs; rewrite E in Hs; discriminate Hs
         | E : vm_delete H _ _ ?w = (_, Some ?e') |- _ =>
             pose proof (Hdel w) as Hs; rewrite E in Hs; cbn in Hs; injection Hs as ->;
             clear E
         end.
    all: rewrite ?Hnf; cbn [negb]; handlers H.
    all: repeat match goal with
         | E : store_update H ?w = (_, Some _) |- _ =>
             pose proof (Hupdate w) as Hs; rewrite E in Hs; discriminate Hs
         end.
    all: split; [reflexivity|split;
           [|repeat first [apply Exists_cons_hd; reflexivity | apply Exists_cons_tl]]].
    all: apply has_guard_settle; rewrite ContainsFinalizer_with_Status;
      apply ContainsFinalizer_RemoveFinalizer.
Qed.

End Deletion.

Section DeletionExamples.

Import butlerv1alpha1 controller Views Reach Trace.

(** A machine delete answered Unavailable: the adapter returns the error
    and does not touch the disk, so the claim as worded, that the disk
    delete follows whatever the machine delete answers, fails. *)
Lemma disk_delete_skipped_after_failed_machine_delete :
  harvester.DeleteVM (Worlds.scripted Samples.unavailable_delete_script)
    Samples.client "alpha-cp-0" Samples.empty_cluster
  = (Some Samples.unavailable, Samples.empty_cluster,
     [DeleteVirtualMachine "default" "alpha-cp-0"])
  /\ ~ Claims.disk_delete_is_unconditional.
Proof.
  split; [reflexivity|].
  intros Hclaim.
  destruct (Hclaim unit (Worlds.scripted Samples.unavailable_delete_script)
              Samples.client "alpha-cp-0" Samples.empty_cluster) as [Hcalls _].
  discriminate Hcalls.
Qed.

(** The theorem on that environment: the error comes back after the one
    call, and the pass over a record under deletion asks for the short
    delay and keeps the guard token. *)
Lemma DeleteVM_machine_first_disk_after_success_witness :
  harvester.DeleteVM (Worlds.scripted Samples.unavailable_delete_script)
    Samples.client "alpha-cp-0" Samples.empty_cluster
  = (Some Samples.unavailable, Samples.empty_cluster,
     [DeleteVirtualMachine "default" "alpha-cp-0"])
  /\ (let '(result, cl', calls) :=
        reconcileDelete (Worlds.scripted Samples.unavailable_delete_script)
          Samples.deleted_request Samples.client
          (Samples.cluster_with Samples.deleted_request) in
      (result = (Result_RequeueAfter requeueShort, None)
       \/ exists e', result = (Result_zero, Some e'))
      /\ Forall (fun call => is_metadata_write call = false) calls
      /\ Forall (fun call => is_disk_delete call = false) calls
      /\ has_guard (stored cl') = true).
Proof.
  split.
  - exact (proj1 (DeleteVM_machine_first_disk_after_success
                    (Worlds.scripted Samples.unavailable_delete_script))
             Samples.client "alpha-cp-0" Samples.empty_cluster eq_refl).
  - exact (proj1 (proj2 (DeleteVM_machine_first_disk_after_success
                           (Worlds.scripted Samples.unavailable_delete_script)))
             Samples.deleted_request Samples.client
             (Samples.cluster_with Samples.deleted_request) Samples.unavailable
             eq_refl (fun _ => eq_refl) eq_refl).
Defined.

(** When the machine is already gone, the pass removes the guard token
    and the disk delete has not been called. *)
Lemma reconcileDelete_machine_already_gone :
  let '(result, cl', calls) :=
    reconcileDelete (Worlds.scripted Samples.absent_delete_script)
      Samples.deleted_request Samples.client
      (Samples.cluster_with Samples.deleted_request) in
  result = (Result_zero, None)
  /\ stored cl' = None
  /\ Forall (fun call => is_disk_delete call = false) calls.
Proof. vm_compute. repeat split; repeat constructor. Qed.

End DeletionExamples.

(** ** Errors of the platform *)

Section Errors.

Context {W : Type} (H : Handlers W) (K : butlerv1alpha1.ApiConstants).

Import butlerv1alpha1 controller Views Reach Trace.

Lemma updateStatusError_accepted mr old reason message (cl : Cluster W) :
  stored cl = Some old ->
  (forall w, snd (store_status_update H w) = None) ->
  let '(result, cl', calls) := updateStatusError H mr reason message cl in
  result = (Result_zero, None)
  /\ exists st,
       stored cl' = Some (with_Status old st)
       /\ Phase st = MachinePhaseFailed
       /\ FailureReason st = reason
       /\ FailureMessage st = message
       /\ meta.IsStatusConditionFalse (Conditions st) ConditionTypeReady = true.
Proof.
  intros Hst Hacc. unfold updateStatusError, StatusUpdate, Event, bind, ret.
  handlers H; rewrite ?Hst; cbn [world stored].
  - match goal with E : store_status_update H ?w = (_, Some _) |- _ =>
      pose proof (Hacc w) as Hs; rewrite E in Hs; discriminate Hs end.
  - split; [reflexivity|]. eexists. split; [reflexivity|].
    cbn [Status with_Status Phase FailureReason FailureMessage Conditions set_Conditions].
    repeat split.
    destruct condition_set0 as (c' & Hfind & Hstatus & _).
    unfold meta.IsStatusConditionFalse. cbn [metav1.Type_ condition] in Hfind.
    rewrite Hfind, Hstatus. reflexivity.
Qed.

(** C2, as amended.  An error of the status read other than NotFound,
    a transient one included, leaves the record as it is: in the Creating
    phase the pass ends after the reads and asks for the short delay, in
    the Running phase it asks for the long delay, and nothing is written.
    The create call of the Pending phase is not classified: every error
    of [CreateVM] other than AlreadyExists, whatever its class, is
    recorded once the status write is accepted, with phase Failed, the
    provider-error reason, the error's message and the Ready condition
    False, and the pass schedules no retry. *)
Theorem transient_errors_retry_reads_but_fail_creates :
  (forall (mr : MachineRequest) (hc : harvester.Client) (cl cl1 : Cluster W)
          (status : harvester.VMStatus) (e : error) (reads : list Call),
      harvester.GetVMStatus H hc (MachineName (Spec mr)) cl = ((status, Some e), cl1, reads) ->
      IsNotFound e = false ->
      reconcileCreating H K mr hc cl = ((Result_RequeueAfter requeueShort, None), cl1, reads)
      /\ reconcileRunning H mr hc cl = ((Result_RequeueAfter requeueLong, None), cl1, reads)
      /\ stored cl1 = stored cl
      /\ Forall (fun call => is_record_write call = false) reads)
  /\ (forall (mr : MachineRequest) (hc : harvester.Client) (cl cl1 : Cluster W)
             (e : error) (calls : list Call),
        stored cl = Some mr ->
        harvester.CreateVM H hc (options_of mr) cl = (Err e, cl1, calls) ->
        IsAlreadyExists e = false ->
        (forall w, snd (store_status_update H w) = None) ->
        let '(result, cl', _) := reconcilePending H K mr hc cl in
        result = (Result_zero, None)
        /\ exists st,
             stored cl' = Some (with_Status mr st)
             /\ Phase st = MachinePhaseFailed
             /\ FailureReason st = ReasonProviderError K
             /\ FailureMessage st = Error e
             /\ meta.IsStatusConditionFalse (Conditions st) ConditionTypeReady = true).
Proof.
  split.
  - intros mr hc cl cl1 status e reads Hget Hnf.
    pose proof (GetVMStatus_reads H hc (MachineName (Spec mr)) cl) as Hr.
    rewrite Hget in Hr. destruct Hr as [Hkeep Hreads].
    unfold reconcileCreating, reconcileRunning, bind, ret. rewrite Hget, Hnf, app_nil_r.
    repeat split; [exact Hkeep|].
    destruct Hreads as [-> | ->]; repeat constructor.
  - intros mr hc cl cl1 e calls Hst Hcreate Hae Hacc.
    rewrite (reconcilePending_options H K). unfold bind at 1. rewrite Hcreate, Hae.
    pose proof (CreateVM_keeps H hc (options_of mr) cl) as Hk. rewrite Hcreate in Hk.
    destruct Hk as [Hk _]. rewrite <- Hk in Hst.
    unfold Event at 1, bind at 1.
    pose proof (updateStatusError_accepted mr mr (ReasonProviderError K) (Error e) cl1 Hst Hacc)
      as Hu.
    destruct (updateStatusError H mr _ _ cl1) as [[result cl2] t2]. exact Hu.
Qed.

End Errors.

Section ErrorExamples.

Import butlerv1alpha1 controller Views Reach Trace.

(** A disk create answered Unavailable while the record is Pending: the
    pass marks the record Failed and schedules no retry, so the claim as
    worded, that a transient error keeps the phase and only asks for the
    short delay, fails. *)
Lemma unavailable_create_marks_failed :
  (let '(result, cl', _) :=
     reconcilePending (Worlds.scripted Samples.unavailable_create_script) Samples.constants
       Samples.pending_request Samples.client
       (Samples.cluster_with Samples.pending_request) in
   result = (Result_zero, None)
   /\ phase_of (stored cl') = Some MachinePhaseFailed)
  /\ ~ Claims.transient_create_error_keeps_phase.
Proof.
  split; [vm_compute; split; reflexivity|].
  intros Hclaim.
  pose proof (Hclaim unit (Worlds.scripted Samples.unavailable_create_script)
                Samples.constants Samples.pending_request Samples.client
                (Samples.cluster_with Samples.pending_request)
                (Wrap "failed to create PVC: " Samples.unavailable)
                eq_refl eq_refl eq_refl) as Hx.
  vm_compute in Hx. destruct Hx as [Hphase _]. discriminate Hphase.
Qed.

(** The theorem on a Creating record whose status read is refused (one
    read, the short delay, the record untouched) and on a Pending record
    whose disk create is refused (the record is marked Failed). *)
Lemma transient_errors_retry_reads_but_fail_creates_witness :
  reconcileCreating (Worlds.scripted Samples.unavailable_read_script) Samples.constants
    Samples.creating_request Samples.client (Samples.cluster_with Samples.creating_request)
  = ((Result_RequeueAfter requeueShort, None),
     Samples.cluster_with Samples.creating_request,
     [GetVirtualMachine "default" "alpha-cp-0"])
  /\ (let '(result, cl', _) :=
        reconcilePending (Worlds.scripted Samples.unavailable_create_script)
          Samples.constants Samples.pending_request Samples.client
          (Samples.cluster_with Samples.pending_request) in
      result = (Result_zero, None)
      /\ exists st,
           stored cl' = Some (with_Status Samples.pending_request st)
           /\ Phase st = MachinePhaseFailed
           /\ FailureReason st = "ProviderError"
           /\ FailureMessage st
              = "failed to create PVC: the server is currently unable to handle the request"
           /\ meta.IsStatusConditionFalse (Conditions st) ConditionTypeReady = true).
Proof.
  split.
  - apply (proj1 (transient_errors_retry_reads_but_fail_creates
                    (Worlds.scripted Samples.unavailable_read_script) Samples.constants)
             Samples.creating_request Samples.client
             (Samples.cluster_with Samples.creating_request)
             (Samples.cluster_with Samples.creating_request)
             harvester.VMStatus_zero Samples.unavailable
             [GetVirtualMachine "default" "alpha-cp-0"]).
    + reflexivity.
    + reflexivity.
  - exact (proj2 (transient_errors_retry_reads_but_fail_creates
                    (Worlds.scripted Samples.unavailable_create_script) Samples.constants)
             Samples.pending_request Samples.client
             (Samples.cluster_with Samples.pending_request)
             (Samples.cluster_with Samples.pending_request)
             (Wrap "failed to create PVC: " Samples.unavailable)
             [CreatePVC (harvester.imagePVC Samples.client "alpha-cp-0-rootdisk"
                           "default/img1" 100)]
             eq_refl eq_refl eq_refl (fun _ => eq_refl)).
Defined.

End ErrorExamples.

(** ** Redelivery of the create *)

Section Redelivery.

Import butlerv1alpha1 controller Views Reach Trace.

Lemma updatePhase_accepted {W} (H : Handlers W) mr old phase (cl : Cluster W) w :
  stored cl = Some old ->
  store_status_update H (fst (clock H (world cl))) = (w, None) ->
  let written :=
    with_Status mr (set_LastUpdated (Some (snd (clock H (world cl))))
                      (set_Phase phase (Status mr))) in
  updatePhase H mr phase cl =
    ((Result_Requeue, None),
     {| world := w; stored := Some (with_Status old (Status written)) |},
     [UpdateStatus written]).
Proof.
  intros Hst Hacc. unfold updatePhase, StatusUpdate, bind, ret.
  rewrite Now_spec. cbn [world stored]. rewrite Hacc, Hst. reflexivity.
Qed.

Lemma buildVM_name c opts pvcName networkName :
  fst (NestedString (harvester.buildVM c opts pvcName networkName) ["metadata"; "name"])
  = harvester.Name opts.
Proof. reflexivity. Qed.

(** [CreateVM] on the platform when neither the disk nor the machine is
    there: both are created. *)
Lemma platform_CreateVM_fresh pc secret hc opts (p : Worlds.Platform) st :
  let image :=
    if String.eqb (harvester.ImageName opts) ""
    then hpc_ImageName (harvester.config hc) else harvester.ImageName opts in
  let ns := harvester.namespace hc in
  let disk := (ns, harvester.Name opts +:+ "-rootdisk") in
  let machine := (ns, harvester.Name opts) in
  image <> "" ->
  disk ∉ Worlds.pvcs p ->
  Worlds.vms p !! machine = None ->
  exists uid created calls,
    harvester.CreateVM (Worlds.platform pc secret) hc opts {| world := p; stored := st |}
    = (Ok uid,
       {| world :=
            {| Worlds.pvcs := {[disk]} ∪ Worlds.pvcs p;
               Worlds.vms := <[machine := created]> (Worlds.vms p);
               Worlds.vmis := Worlds.vmis p;
               Worlds.ticks := Worlds.ticks p |};
          stored := st |},
       calls)
    /\ Forall (fun call => is_warning call = false) calls.
Proof.
  intros image ns disk machine Himage Hdisk Hmachine.
  unfold harvester.CreateVM, harvester.createImagePVC, bind, ret, external.
  fold image. apply String.eqb_neq in Himage. rewrite Himage.
  cbn [world stored Worlds.platform pvc_create vm_create].
  unfold Worlds.platform_pvc_create.
  cbn [harvester.imagePVC corev1.pvc_Namespace corev1.pvc_Name].
  fold ns. fold disk. rewrite (bool_decide_eq_false_2 _ Hdisk).
  cbn [world stored]. unfold Worlds.platform_vm_create.
  rewrite buildVM_name. fold machine. cbn [Worlds.vms]. rewrite Hmachine.
  eexists _, _, _. split; [reflexivity|]. repeat constructor.
Qed.

(** [CreateVM] on the platform when the disk is there: the disk create
    answers AlreadyExists, and nothing else is called. *)
Lemma platform_CreateVM_again pc secret hc opts (p : Worlds.Platform) st :
  let image :=
    if String.eqb (harvester.ImageName opts) ""
    then hpc_ImageName (harvester.config hc) else harvester.ImageName opts in
  let ns := harvester.namespace hc in
  let disk := (ns, harvester.Name opts +:+ "-rootdisk") in
  image <> "" ->
  disk ∈ Worlds.pvcs p ->
  exists e pvc,
    harvester.CreateVM (Worlds.platform pc secret) hc opts {| world := p; stored := st |}
    = (Err e, {| world := p; stored := st |}, [CreatePVC pvc])
    /\ IsAlreadyExists e = true.
Proof.
  intros image ns disk Himage Hdisk.
  unfold harvester.CreateVM, harvester.createImagePVC, bind, ret, external.
  fold image. apply String.eqb_neq in Himage. rewrite Himage.
  cbn [world stored Worlds.platform pvc_create vm_create].
  unfold Worlds.platform_pvc_create.
  cbn [harvester.imagePVC corev1.pvc_Namespace corev1.pvc_Name].
  fold ns. fold disk. rewrite (bool_decide_eq_true_2 _ Hdisk).
  eexists _, _. split; reflexivity.
Qed.


Lemma platform_Now pc secret (p : Worlds.Platform) st :
  Now (Worlds.platform pc secret) {| world := p; stored := st |}
  = (Worlds.ticks p, {| world := Worlds.at_ticks p (Worlds.ticks p + 1); stored := st |}, []).
Proof. reflexivity. Qed.

Lemma platform_setCondition pc secret mr c (p : Worlds.Platform) st :
  exists conditions' t,
    setCondition (Worlds.platform pc secret) mr c {| world := p; stored := st |}
    = (with_Status mr (set_Conditions conditions' (Status mr)),
       {| world := Worlds.at_ticks p t; stored := st |}, []).
Proof.
  destruct p as [disks machines instances now].
  unfold setCondition, meta.SetStatusCondition, bind, ret.
  destruct (meta.FindStatusCondition _ _) as [existing|].
  - destruct (bool_decide _).
    + eexists. exists now. reflexivity.
    + destruct (metav1.LastTransitionTime c).
      * eexists. exists now. reflexivity.
      * rewrite platform_Now. eexists _, _. reflexivity.
  - destruct (metav1.LastTransitionTime c).
    + eexists. exists now. reflexivity.
    + rewrite platform_Now. eexists _, _. reflexivity.
Qed.

(** C5.  When [CreateVM] answers an error that is AlreadyExists and the
    status write is accepted, [reconcilePending] writes the record with
    phase Creating, leaves the failure reason, the failure message and the
    conditions as they were, returns no error and asks for a re-run: it
    advances as after a successful create.  On a platform that holds
    neither the disk nor the machine, running the create sequence of the
    same record twice returns no error either time, leaves the record in
    Creating both times, records no warning, and leaves exactly the one
    disk and the one machine added to the platform: the second run issues
    the disk create alone, which answers AlreadyExists. *)
Theorem redelivered_create_advances_to_creating :
  (forall W (H : Handlers W) (K : ApiConstants) (mr : MachineRequest) (hc : harvester.Client)
          (cl cl1 : Cluster W) (e : error) (calls : list Call) (w : W),
      stored cl = Some mr ->
      harvester.CreateVM H hc (options_of mr) cl = (Err e, cl1, calls) ->
      IsAlreadyExists e = true ->
      store_status_update H (fst (clock H (world cl1))) = (w, None) ->
      let written :=
        with_Status mr (set_LastUpdated (Some (snd (clock H (world cl1))))
                          (set_Phase MachinePhaseCreating (Status mr))) in
      reconcilePending H K mr hc cl =
        ((Result_Requeue, None), {| world := w; stored := Some written |},
         calls ++ [UpdateStatus written])
      /\ Phase (Status written) = MachinePhaseCreating
      /\ FailureReason (Status written) = FailureReason (Status mr)
      /\ FailureMessage (Status written) = FailureMessage (Status mr)
      /\ Conditions (Status written) = Conditions (Status mr))
  /\ (forall (pc : ProviderConfig) (secret : corev1.Secret) (K : ApiConstants)
             (mr : MachineRequest) (hc : harvester.Client) (p : Worlds.Platform),
        let image :=
          if String.eqb (Image (Spec mr)) ""
          then hpc_ImageName (harvester.config hc) else Image (Spec mr) in
        let ns := harvester.namespace hc in
        let disk := (ns, MachineName (Spec mr) +:+ "-rootdisk") in
        let machine := (ns, MachineName (Spec mr)) in
        image <> "" ->
        disk ∉ Worlds.pvcs p ->
        Worlds.vms p !! machine = None ->
        let '(r1, cl1, t1) :=
          reconcilePending (Worlds.platform pc secret) K mr hc
            {| world := p; stored := Some mr |} in
        let '(r2, cl2, t2) := reconcilePending (Worlds.platform pc secret) K mr hc cl1 in
        r1 = (Result_RequeueAfter requeueShort, None)
        /\ r2 = (Result_Requeue, None)
        /\ phase_of (stored cl1) = Some MachinePhaseCreating
        /\ phase_of (stored cl2) = Some MachinePhaseCreating
        /\ Worlds.pvcs (world cl2) = {[disk]} ∪ Worlds.pvcs p
        /\ dom (Worlds.vms (world cl2)) = {[machine]} ∪ dom (Worlds.vms p)
        /\ Forall (fun call => is_warning call = false) (t1 ++ t2)
        /\ exists pvc written, t2 = [CreatePVC pvc; UpdateStatus written]).
Proof.
  split.
  - intros W H K mr hc cl cl1 e calls w Hst Hcreate Hae Hacc written.
    pose proof (CreateVM_keeps H hc (options_of mr) cl) as Hk. rewrite Hcreate in Hk.
    destruct Hk as [Hk _]. rewrite <- Hk in Hst.
    split; [|repeat split].
    rewrite (reconcilePending_options H K). unfold bind at 1. rewrite Hcreate, Hae.
    rewrite (updatePhase_accepted H mr mr MachinePhaseCreating cl1 w Hst Hacc). reflexivity.
  - intros pc secret K mr hc p image ns disk machine Himage Hdisk Hmachine.
    destruct (platform_CreateVM_fresh pc secret hc (options_of mr) p (Some mr)
                Himage Hdisk Hmachine) as (uid & created & calls & Hfresh & Hquiet).
    rewrite (reconcilePending_options (Worlds.platform pc secret) K). unfold bind at 1.
    rewrite Hfresh. unfold bind at 1. rewrite platform_Now. unfold bind at 1.
    match goal with |- context [setCondition _ ?m ?c {| world := ?p1; stored := ?st1 |}] =>
      destruct (platform_setCondition pc secret m c p1 st1) as (cs & t & ->) end.
    unfold StatusUpdate, Event, bind, ret.
    cbn [world stored Worlds.platform store_status_update fst snd].
    match goal with |- context [harvester.CreateVM _ hc (options_of mr)
                                  {| world := ?p1; stored := ?st1 |}] =>
      destruct (platform_CreateVM_again pc secret hc (options_of mr) p1 st1 Himage)
        as (e & pvc & Hagain & Hae);
      [cbn [Worlds.pvcs Worlds.at_ticks]; fold ns; fold disk; set_solver|]
    end.
    rewrite Hagain, Hae. unfold updatePhase, StatusUpdate, bind, ret.
    rewrite platform_Now. cbn [world stored Worlds.platform store_status_update fst snd].
    repeat split.
    + cbn [Worlds.vms Worlds.at_ticks]. fold ns. fold machine. apply dom_insert_L.
    + apply Forall_app. split; [|repeat constructor].
      rewrite !app_nil_r. apply Forall_app. split; [exact Hquiet|repeat constructor].
    + eexists _, _. reflexivity.
Qed.

End Redelivery.

(** The theorem on the worker example and an empty platform. *)
Lemma redelivered_create_advances_to_creating_witness :
  let '(r1, cl1, t1) :=
    controller.reconcilePending (Worlds.platform Samples.provider_config Samples.secret)
      Samples.constants Samples.pending_request Samples.client
      {| world := Samples.empty_platform; stored := Some Samples.pending_request |} in
  let '(r2, cl2, t2) :=
    controller.reconcilePending (Worlds.platform Samples.provider_config Samples.secret)
      Samples.constants Samples.pending_request Samples.client cl1 in
  r1 = (controller.Result_RequeueAfter controller.requeueShort, None)
  /\ r2 = (controller.Result_Requeue, None)
  /\ Views.phase_of (stored cl1) = Some butlerv1alpha1.MachinePhaseCreating
  /\ Views.phase_of (stored cl2) = Some butlerv1alpha1.MachinePhaseCreating
  /\ Worlds.pvcs (world cl2) = {[("default", "alpha-cp-0-rootdisk")]} ∪ ∅
  /\ dom (Worlds.vms (world cl2)) = {[("default", "alpha-cp-0")]} ∪ dom (∅ : gmap (string * string) JVal)
  /\ Forall (fun call => Trace.is_warning call = false) (t1 ++ t2)
  /\ exists pvc written, t2 = [CreatePVC pvc; UpdateStatus written].
Proof.
  apply (proj2 redelivered_create_advances_to_creating
           Samples.provider_config Samples.secret Samples.constants
           Samples.pending_request Samples.client Samples.empty_platform).
  - discriminate.
  - apply not_elem_of_empty.
  - apply lookup_empty.
Defined.

(** ** The scenarios of the specification *)

Section Scenarios.

Import butlerv1alpha1 controller Views.

Example b64_Man : EncodeToString "Man" = "TWFu".
Proof. reflexivity. Qed.

Example b64_hello : EncodeToString "hello" = "aGVsbG8=".
Proof. reflexivity. Qed.

Example b64_cloud_config : EncodeToString "#cloud-config" = "I2Nsb3VkLWNvbmZpZw==".
Proof. reflexivity. Qed.

Example parseName_reference : harvester.parseName "default/image-prn78" = "image-prn78".
Proof. reflexivity. Qed.

Example parseName_plain : harvester.parseName "image-prn78" = "image-prn78".
Proof. reflexivity. Qed.

Example imagePVC_worker :
  harvester.imagePVC Samples.client "alpha-cp-0-rootdisk" "default/img1" 100
  = {| corev1.pvc_Name := "alpha-cp-0-rootdisk";
       corev1.pvc_Namespace := "default";
       corev1.pvc_Annotations := [("harvesterhci.io/imageId", "default/img1")];
       corev1.pvc_Labels := [("butler.butlerlabs.dev/managed-by", "butler-provider-harvester")];
       corev1.pvc_AccessModes := ["ReadWriteMany"];
       corev1.pvc_VolumeMode := "Block";
       corev1.pvc_StorageClassName := "longhorn-img1";
       corev1.pvc_StorageRequest := "100Gi" |}.
Proof. vm_compute. reflexivity. Qed.

(** The first scenario of the specification: one pass over the record
    alpha-cp-0 on an empty platform. *)
Example scenario_first_pass :
  let '(result, cl', _) :=
    Reconcile (Worlds.platform Samples.provider_config Samples.secret) Samples.constants
      {| world := Samples.empty_platform; stored := Some Samples.pending_request |} in
  result = (Result_RequeueAfter requeueShort, None)
  /\ phase_of (stored cl') = Some MachinePhaseCreating
  /\ elements (Worlds.pvcs (world cl')) = [("default", "alpha-cp-0-rootdisk")]
  /\ (exists vm, Worlds.vms (world cl') !! ("default", "alpha-cp-0") = Some vm
                 /\ volumes_of vm = Some (JArr [rootdisk_volume "alpha-cp-0-rootdisk"])).
Proof.
  vm_compute. repeat split. eexists. split; reflexivity.
Qed.

(** The second scenario: the instance reports 10.0.0.9. *)
Example scenario_second_pass :
  let report :=
    Samples.script (Ok Samples.provider_config) None (Ok Samples.vm_object) None
      (Ok Samples.vm_object)
      (Ok (AddressPolicy.instance_with [("10.0.0.9", "aa:bb:cc")])) in
  let '(result, cl', _) :=
    Reconcile (Worlds.scripted report) Samples.constants
      (Samples.cluster_with Samples.creating_request) in
  result = (Result_zero, None)
  /\ exists mr, stored cl' = Some mr
                /\ Phase (Status mr) = MachinePhaseRunning
                /\ IPAddress (Status mr) = "10.0.0.9"
                /\ MACAddress (Status mr) = "aa:bb:cc"
                /\ meta.IsStatusConditionTrue (Conditions (Status mr)) ConditionTypeReady = true.
Proof.
  vm_compute. split; [reflexivity|]. eexists. repeat split.
Qed.

(** An instance that reports no usable address: the record stays in
    Creating and no failure is recorded. *)
Example scenario_no_address :
  let report :=
    Samples.script (Ok Samples.provider_config) None (Ok Samples.vm_object) None
      (Ok Samples.vm_object)
      (Ok (AddressPolicy.instance_with [("169.254.1.5", "aa:bb:aa"); ("fe80::1", "aa:bb:bb")])) in
  let '(result, cl', _) :=
    Reconcile (Worlds.scripted report) Samples.constants
      (Samples.cluster_with Samples.creating_request) in
  result = (Result_RequeueAfter requeueShort, None)
  /\ exists mr, stored cl' = Some mr
                /\ Phase (Status mr) = MachinePhaseCreating
                /\ FailureReason (Status mr) = "".
Proof.
  vm_compute. split; [reflexivity|]. eexists. repeat split.
Qed.

(** A record whose phase the switch does not name is reset to Pending. *)
Example scenario_unknown_phase :
  let '(result, cl', _) :=
    Reconcile (Worlds.scripted Samples.reporting_script) Samples.constants
      (Samples.cluster_with
         (Samples.request [finalizerName] None (Samples.status_in "Provisioned" "" "" []))) in
  result = (Result_Requeue, None)
  /\ phase_of (stored cl') = Some MachinePhasePending.
Proof. vm_compute. split; reflexivity. Qed.

(** Deleting a record that never got resources: the deletes answer
    NotFound, the guard token goes and the record with it. *)
Example scenario_delete_pending :
  let '(result, cl', calls) :=
    Reconcile (Worlds.platform Samples.provider_config Samples.secret) Samples.constants
      {| world := Samples.empty_platform;
         stored := Some (Samples.request [finalizerName] (Some 950)
                           (Samples.status_in "" "" "" [])) |} in
  result = (Result_zero, None) /\ stored cl' = None.
Proof. vm_compute. split; reflexivity. Qed.

End Scenarios.

(** * Further properties of the adapter and of the reconciler *)

(** ** [parseName] *)

Section ParseName.

Lemma Contains_slash_cons c rest :
  Contains (String c rest) "/" = Ascii.eqb c "/"%char || Contains rest "/".
Proof.
  cbn [Contains]. unfold String.prefix.
  destruct (ascii_dec "/"%char c) as [<-|Hne].
  - destruct rest; reflexivity.
  - replace (Ascii.eqb c "/"%char) with false; [reflexivity|].
    symmetry. apply Ascii.eqb_neq. congruence.
Qed.

Lemma after_slash_none ref :
  Contains ref "/" = false <-> harvester.after_slash ref = None.
Proof.
  induction ref as [|c rest IH].
  - split; reflexivity.
  - rewrite Contains_slash_cons. cbn [harvester.after_slash].
    destruct (Ascii.eqb c "/"%char); cbn [orb]; [split; discriminate|exact IH].
Qed.

Lemma after_slash_app ns rest :
  Contains ns "/" = false ->
  harvester.after_slash (ns +:+ String "/"%char rest) = Some rest.
Proof.
  induction ns as [|c ns IH]; intros Hns.
  - reflexivity.
  - rewrite Contains_slash_cons in Hns. apply orb_false_iff in Hns as [Hc Hns].
    change (String c ns +:+ String "/"%char rest) with (String c (ns +:+ String "/"%char rest)).
    cbn [harvester.after_slash]. rewrite Hc. exact (IH Hns).
Qed.

Lemma after_slash_split ref name :
  harvester.after_slash ref = Some name ->
  exists ns, ref = ns +:+ String "/"%char name /\ Contains ns "/" = false.
Proof.
  revert name. induction ref as [|c rest IH]; intros name; cbn [harvester.after_slash].
  - discriminate.
  - destruct (Ascii.eqb_spec c "/"%char) as [->|Hne].
    + intros [= ->]. exists "". split; reflexivity.
    + intros Hrest. destruct (IH _ Hrest) as (ns & -> & Hns).
      exists (String c ns). split; [reflexivity|].
      rewrite Contains_slash_cons, Hns. apply Ascii.eqb_neq in Hne. rewrite Hne. reflexivity.
Qed.

(** X1.  [parseName] splits a reference at its first slash: of a
    reference made of a namespace without a slash, a slash and a name it
    returns the name, whatever slashes the name holds; a reference
    without a slash is returned as it is; and in every case the result
    is the reference itself or what follows its first slash. *)
Theorem parseName_splits_at_the_first_slash :
  (forall ns name : string,
      Contains ns "/" = false -> harvester.parseName (ns +:+ "/" +:+ name) = name)
  /\ (forall ref : string, Contains ref "/" = false -> harvester.parseName ref = ref)
  /\ (forall ref : string,
        harvester.parseName ref = ref
        \/ exists ns, ref = ns +:+ "/" +:+ harvester.parseName ref
                      /\ Contains ns "/" = false).
Proof.
  split; [|split].
  - intros ns name Hns. unfold harvester.parseName.
    change ("/" +:+ name) with (String "/"%char name). rewrite (after_slash_app ns name Hns).
    reflexivity.
  - intros ref Href. unfold harvester.parseName.
    apply after_slash_none in Href. rewrite Href. reflexivity.
  - intros ref. unfold harvester.parseName.
    destruct (harvester.after_slash ref) as [name|] eqn:Hs; [right|left; reflexivity].
    apply after_slash_split in Hs. exact Hs.
Qed.

Lemma parseName_splits_at_the_first_slash_witness :
  harvester.parseName ("default" +:+ "/" +:+ "image/prn78") = "image/prn78"
  /\ harvester.parseName "image-prn78" = "image-prn78".
Proof.
  split.
  - apply (proj1 parseName_splits_at_the_first_slash "default" "image/prn78"). reflexivity.
  - apply (proj1 (proj2 parseName_splits_at_the_first_slash) "image-prn78"). reflexivity.
Defined.

End ParseName.

(** ** The interface scan and the labels *)

Section AdapterObjects.

Import butlerv1alpha1 Views Probe AddressPolicy.

(** X2.  The loop of [GetVMStatus] over the reported interfaces takes
    the address and the hardware address from the same entry, the first
    one that is a map with a non-empty address that [isUsableIP]
    accepts; without such an entry both stay as they were.  The loop
    never touches the existence, readiness and phase fields. *)
Theorem scan_interfaces_takes_address_and_mac_of_one_entry
    (interfaces : list JVal) (status : harvester.VMStatus) :
  let scanned := harvester.scan_interfaces interfaces status in
  harvester.Exists scanned = harvester.Exists status
  /\ harvester.Ready scanned = harvester.Ready status
  /\ harvester.Phase scanned = harvester.Phase status
  /\ match List.find usable_entry interfaces with
     | Some entry =>
         harvester.IPAddress scanned = entry_addr entry
         /\ harvester.MACAddress scanned = entry_mac entry
     | None =>
         harvester.IPAddress scanned = harvester.IPAddress status
         /\ harvester.MACAddress scanned = harvester.MACAddress status
     end.
Proof.
  cbv zeta. induction interfaces as [|i interfaces IH]; [repeat split|].
  cbn [harvester.scan_interfaces List.find].
  destruct i as [| | | | |obj]; try exact IH.
  unfold usable_entry at 1.
  fold (entry_addr (JObj obj)). fold (entry_mac (JObj obj)).
  destruct (negb _ && _); [repeat split|exact IH].
Qed.

Lemma assoc_assoc_set key key' v fields :
  assoc key (assoc_set key' v fields)
  = if String.eqb key' key then Some v else assoc key fields.
Proof.
  induction fields as [|[k w] fields IH]; cbn [assoc assoc_set].
  - destruct (String.eqb key' key); reflexivity.
  - destruct (String.eqb_spec k key') as [->|Hne]; cbn [assoc].
    + destruct (String.eqb key' key); reflexivity.
    + rewrite IH. destruct (String.eqb_spec key' key) as [->|]; [|reflexivity].
      apply String.eqb_neq in Hne. rewrite Hne. reflexivity.
Qed.

Lemma fold_labels_absent labels init key :
  ~ In key (map fst labels) ->
  assoc key (fold_left (fun acc kv => assoc_set (fst kv) (JStr (snd kv)) acc) labels init)
  = assoc key init.
Proof.
  revert init. induction labels as [|[k v] labels IH]; intros init Hnot; [reflexivity|].
  cbn [fold_left fst snd]. rewrite IH.
  - rewrite assoc_assoc_set. destruct (String.eqb_spec k key) as [->|]; [|reflexivity].
    contradiction Hnot. left. reflexivity.
  - intros Hin. apply Hnot. right. exact Hin.
Qed.

Lemma fold_labels_present labels init key v :
  In (key, v) labels -> List.NoDup (map fst labels) ->
  assoc key (fold_left (fun acc kv => assoc_set (fst kv) (JStr (snd kv)) acc) labels init)
  = Some (JStr v).
Proof.
  revert init. induction labels as [|[k w] labels IH]; intros init Hin Hnd; [destruct Hin|].
  cbn [map fst] in Hnd. inversion Hnd as [|? ? Hfresh Hnd']; subst.
  cbn [fold_left fst snd]. destruct Hin as [[= -> ->]|Hin].
  - rewrite fold_labels_absent by exact Hfresh.
    rewrite assoc_assoc_set, String.eqb_refl. reflexivity.
  - apply IH; assumption.
Qed.

Lemma label_of_buildVM c opts pvcName networkName key :
  label_of (harvester.buildVM c opts pvcName networkName) key
  = assoc key (harvester.buildVM_labels opts)
  /\ template_label_of (harvester.buildVM c opts pvcName networkName) key
     = assoc key (harvester.buildVM_labels opts).
Proof.
  unfold label_of, template_label_of. cbn [NestedField harvester.buildVM assoc String.eqb Ascii.eqb Bool.eqb].
  split; destruct (assoc key _); reflexivity.
Qed.

(** X3.  The labels of the machine that [buildVM] builds: the instance
    template carries the same labels as the machine; every label of the
    request is there with the request's value (the keys of a Go map are
    distinct, and then the order of the iteration does not matter), also
    when the request sets the managed-by key; without that key in the
    request the managed-by label names this provider; and no other label
    is set. *)
Theorem buildVM_labels_of_the_request_win
    (c : harvester.Client) (opts : harvester.VMCreateOptions) (pvcName networkName : string) :
  let vm := harvester.buildVM c opts pvcName networkName in
  let managed := "butler.butlerlabs.dev/managed-by" in
  (forall key, template_label_of vm key = label_of vm key)
  /\ (forall key value,
        In (key, value) (harvester.Labels opts) ->
        List.NoDup (map fst (harvester.Labels opts)) ->
        label_of vm key = Some (JStr value))
  /\ (~ In managed (map fst (harvester.Labels opts)) ->
      label_of vm managed = Some (JStr "butler-provider-harvester"))
  /\ (forall key,
        ~ In key (map fst (harvester.Labels opts)) -> key <> managed ->
        label_of vm key = None).
Proof.
  cbv zeta. split; [|split; [|split]].
  - intros key. destruct (label_of_buildVM c opts pvcName networkName key) as [-> ->].
    reflexivity.
  - intros key value Hin Hnd.
    rewrite (proj1 (label_of_buildVM c opts pvcName networkName key)).
    apply fold_labels_present; assumption.
  - intros Hnot. rewrite (proj1 (label_of_buildVM c opts pvcName networkName _)).
    unfold harvester.buildVM_labels. rewrite fold_labels_absent by exact Hnot. reflexivity.
  - intros key Hnot Hne. rewrite (proj1 (label_of_buildVM c opts pvcName networkName _)).
    unfold harvester.buildVM_labels. rewrite fold_labels_absent by exact Hnot.
    cbn [assoc harvester.managed_by_label fst snd].
    apply String.eqb_neq in Hne. rewrite String.eqb_sym, Hne. reflexivity.
Qed.

End AdapterObjects.

(** ** Disks, client construction and the status read *)

Section AdapterEdges.

Import butlerv1alpha1 Views Probe AddressPolicy.

(** X4.  In the machine that [buildVM] builds the disks and the
    volumes carry the same names in the same order, no name twice, so
    that every disk has its volume; the root disk comes first and is the
    only disk with a boot order. *)
Theorem buildVM_every_disk_has_its_volume
    (c : harvester.Client) (opts : harvester.VMCreateOptions) (pvcName networkName : string) :
  let vm := harvester.buildVM c opts pvcName networkName in
  names_of (disks_of vm) = names_of (volumes_of vm)
  /\ List.NoDup (names_of (disks_of vm))
  /\ (exists others, names_of (disks_of vm) = "rootdisk" :: others)
  /\ (exists others,
        disks_of vm = Some (JArr (rootdisk_disk :: others))
        /\ Forall (fun disk => NestedField disk ["bootOrder"] = None) others).
Proof.
  cbv zeta. rewrite buildVM_volumes_of, buildVM_disks_of.
  unfold harvester.buildVM_volumes, harvester.buildVM_disks, harvester.cloudInitVolume.
  destruct (negb (String.eqb (harvester.UserData opts) "")); cbn [app names_of map].
  - split; [reflexivity|]. split.
    + repeat constructor; cbn; intuition discriminate.
    + split; eexists; [reflexivity|]. split; [reflexivity|]. repeat constructor.
  - split; [reflexivity|]. split.
    + repeat constructor; cbn; intuition discriminate.
    + split; eexists; [reflexivity|]. split; [reflexivity|]. constructor.
Qed.

(** X5.  [NewClient] returns a client only when the REST
    configuration, the dynamic client and the clientset were all built;
    the client keeps the configuration it was given and its namespace is
    the configured one, or default when none is configured, never empty.
    Otherwise the error wraps the error of the first constructor that
    failed, and the later constructors are not the cause. *)
Theorem NewClient_needs_all_three_handles_and_defaults_the_namespace
    {W : Type} (H : Handlers W) (kubeconfigData : string) (cfg : HarvesterProviderConfig) :
  match harvester.NewClient H kubeconfigData cfg with
  | Ok client =>
      RESTConfigFromKubeConfig H kubeconfigData = None
      /\ dynamic_NewForConfig H kubeconfigData = None
      /\ kubernetes_NewForConfig H kubeconfigData = None
      /\ harvester.config client = cfg
      /\ harvester.namespace client <> ""
      /\ harvester.namespace client
         = (if String.eqb (hpc_Namespace cfg) "" then "default" else hpc_Namespace cfg)
  | Err e =>
      exists cause,
        root_cause e = root_cause cause
        /\ ((RESTConfigFromKubeConfig H kubeconfigData = Some cause
             /\ e = Wrap "failed to create REST config: " cause)
            \/ (RESTConfigFromKubeConfig H kubeconfigData = None
                /\ dynamic_NewForConfig H kubeconfigData = Some cause
                /\ e = Wrap "failed to create dynamic client: " cause)
            \/ (RESTConfigFromKubeConfig H kubeconfigData = None
                /\ dynamic_NewForConfig H kubeconfigData = None
                /\ kubernetes_NewForConfig H kubeconfigData = Some cause
                /\ e = Wrap "failed to create clientset: " cause))
  end.
Proof.
  unfold harvester.NewClient.
  destruct (RESTConfigFromKubeConfig H kubeconfigData) as [e1|].
  { exists e1. split; [reflexivity|]. left. split; reflexivity. }
  destruct (dynamic_NewForConfig H kubeconfigData) as [e2|].
  { exists e2. split; [reflexivity|]. right; left. repeat split. }
  destruct (kubernetes_NewForConfig H kubeconfigData) as [e3|].
  { exists e3. split; [reflexivity|]. right; right. repeat split. }
  cbn [harvester.config harvester.namespace]. repeat split.
  destruct (String.eqb_spec (hpc_Namespace cfg) ""); [discriminate|assumption].
Qed.

Lemma scan_interfaces_result (interfaces : list JVal) (status : harvester.VMStatus) :
  let scanned := harvester.scan_interfaces interfaces status in
  harvester.Exists scanned = harvester.Exists status
  /\ harvester.Ready scanned = harvester.Ready status
  /\ harvester.Phase scanned = harvester.Phase status
  /\ ((harvester.IPAddress scanned = harvester.IPAddress status
       /\ harvester.MACAddress scanned = harvester.MACAddress status)
      \/ (harvester.IPAddress scanned <> ""
          /\ harvester.isUsableIP (harvester.IPAddress scanned) = true)).
Proof.
  cbv zeta. induction interfaces as [|i interfaces IH].
  - split; [|split; [|split]]; try reflexivity. left. split; reflexivity.
  - cbn [harvester.scan_interfaces]. destruct i as [| | | | |obj]; try exact IH.
    destruct (negb _ && _) eqn:E; [|exact IH].
    apply andb_true_iff in E as [Hne Hus].
    split; [|split; [|split]]; try reflexivity. right.
    cbn [harvester.IPAddress]. split; [|exact Hus].
    apply negb_true_iff, String.eqb_neq in Hne. exact Hne.
Qed.

(** X6.  [GetVMStatus] never touches the record store.  When the
    machine cannot be read, the error of that read is returned as it is,
    with the zero status, and the instance is not read.  When the machine
    is read, no error is returned whatever the read of the instance
    answers: the status says the machine exists, is ready only when the
    machine reports a ready flag that is true, and carries the printable
    status; when the instance cannot be read both addresses are empty,
    and otherwise either both are empty or the address is a non-empty one
    that [isUsableIP] accepts. *)
Theorem GetVMStatus_missing_machine_is_an_error_missing_instance_is_not
    {W : Type} (H : Handlers W) (c : harvester.Client) (name : string) (cl : Cluster W) :
  let ns := harvester.namespace c in
  let '((status, err), cl', calls) := harvester.GetVMStatus H c name cl in
  stored cl' = stored cl
  /\ match vm_get H ns name (world cl) with
     | (w1, Err e) =>
         err = Some e /\ status = harvester.VMStatus_zero
         /\ world cl' = w1 /\ calls = [GetVirtualMachine ns name]
     | (w1, Ok vm) =>
         err = None
         /\ harvester.Exists status = true
         /\ harvester.Ready status
            = (snd (NestedBool vm ["status"; "ready"]) && fst (NestedBool vm ["status"; "ready"]))
         /\ harvester.Phase status = fst (NestedString vm ["status"; "printableStatus"])
         /\ calls = [GetVirtualMachine ns name; GetVirtualMachineInstance ns name]
         /\ match vmi_get H ns name w1 with
            | (w2, Err _) =>
                world cl' = w2
                /\ harvester.IPAddress status = "" /\ harvester.MACAddress status = ""
            | (w2, Ok vmi) =>
                world cl' = w2
                /\ ((harvester.IPAddress status = "" /\ harvester.MACAddress status = "")
                    \/ (harvester.IPAddress status <> ""
                        /\ harvester.isUsableIP (harvester.IPAddress status) = true))
            end
     end.
Proof.
  cbv zeta.
  unfold harvester.GetVMStatus, harvester.GetVM, harvester.GetVMI, bind, ret, external.
  destruct (vm_get H _ _ _) as [w1 [vm|e]]; [|repeat split].
  destruct (NestedBool vm _) as [ready found]. cbn [world stored fst snd].
  destruct (vmi_get H _ _ _) as [w2 [vmi|e]].
  - destruct (NestedSlice vmi _) as [interfaces found'].
    destruct (found' && _).
    + match goal with |- context [harvester.scan_interfaces ?i ?s] =>
        destruct (scan_interfaces_result i s) as (He & Hr & Hp & Ha) end.
      cbn [harvester.Exists harvester.Ready harvester.Phase harvester.IPAddress
           harvester.MACAddress] in *.
      split; [reflexivity|]. split; [reflexivity|]. split; [exact He|].
      split; [rewrite Hr; destruct found; reflexivity|]. split; [exact Hp|].
      split; [reflexivity|]. split; [reflexivity|].
      destruct Ha as [[-> ->]|Ha]; [left; split; reflexivity|right; exact Ha].
    + cbn. repeat split; try (destruct found; reflexivity). left. split; reflexivity.
  - cbn. repeat split; destruct found; reflexivity.
Qed.

End AdapterEdges.

(** ** What a pass calls *)

Section Passes.

Context {W : Type} (H : Handlers W) (K : butlerv1alpha1.ApiConstants).

Import butlerv1alpha1 controller Views Reach Trace Probe.

(** X7.  A pass that finds no record, or whose read of the record is
    refused, issues that one read and nothing else and leaves the store
    as it is.  It asks for no re-run; it returns the error of the read
    unless that error is NotFound, and no error when the record is
    absent. *)
Theorem Reconcile_without_a_readable_record (cl : Cluster W) :
  stored cl = None \/ snd (store_get H (world cl)) <> None ->
  Reconcile H K cl =
    ((Result_zero,
      match snd (store_get H (world cl)) with
      | Some e => if IsNotFound e then None else Some e
      | None => None
      end),
     {| world := fst (store_get H (world cl)); stored := stored cl |},
     [GetMachineRequest]).
Proof.
  intros Hcase. unfold Reconcile, Get, bind, ret.
  destruct (store_get H (world cl)) as [w [e|]]; cbn [fst snd].
  - destruct (IsNotFound e); reflexivity.
  - destruct Hcase as [Hst|Hne]; [|contradiction Hne; reflexivity].
    rewrite Hst. reflexivity.
Qed.

(** X8.  When the provider configuration, read in the namespace of
    the reference or else in the namespace of the record, names another
    provider than Harvester, the pass ends after the two reads: it
    writes nothing, reads no secret, calls no platform, returns no error
    and asks for no re-run, also when the record is being deleted. *)
Theorem Reconcile_leaves_other_providers_alone
    (cl : Cluster W) (mr : MachineRequest) (w0 w1 : W) (pc : ProviderConfig) :
  let ns :=
    if String.eqb (ref_Namespace (ProviderRef (Spec mr))) ""
    then metav1.Namespace (ObjectMeta mr) else ref_Namespace (ProviderRef (Spec mr)) in
  let name := ref_Name (ProviderRef (Spec mr)) in
  stored cl = Some mr ->
  store_get H (world cl) = (w0, None) ->
  provider_config_get H ns name w0 = (w1, Ok pc) ->
  pc_Provider pc <> ProviderTypeHarvester K ->
  Reconcile H K cl =
    ((Result_zero, None), {| world := w1; stored := Some mr |},
     [GetMachineRequest; GetProviderConfig ns name]).
Proof.
  intros ns name Hst Hget Hpc Hne.
  unfold Reconcile, Get, getProviderConfig, bind, ret, external.
  rewrite Hget, Hst. cbn [world stored]. fold ns. fold name. rewrite Hpc.
  apply String.eqb_neq in Hne. rewrite Hne. reflexivity.
Qed.

Ltac listed := repeat first [apply List.Forall_nil | apply List.Forall_cons; [reflexivity|]].

Lemma updateStatusError_bookkeeping mr reason message (cl : Cluster W) :
  Forall (fun call => is_bookkeeping call = true) (snd (updateStatusError H mr reason message cl)).
Proof.
  unfold updateStatusError, StatusUpdate, Event, bind, ret.
  handlers H; destruct (stored _); cbn; listed.
Qed.

Lemma updatePhase_bookkeeping mr phase (cl : Cluster W) :
  Forall (fun call => is_bookkeeping call = true) (snd (updatePhase H mr phase cl)).
Proof.
  unfold updatePhase, StatusUpdate, bind, ret.
  handlers H; destruct (stored _); cbn; listed.
Qed.

Lemma getProviderConfig_bookkeeping mr (cl : Cluster W) :
  Forall (fun call => is_bookkeeping call = true) (snd (getProviderConfig H mr cl)).
Proof. unfold getProviderConfig, bind, ret, external. handlers H; listed. Qed.

Lemma createHarvesterClient_bookkeeping pc (cl : Cluster W) :
  Forall (fun call => is_bookkeeping call = true) (snd (createHarvesterClient H pc cl)).
Proof.
  unfold createHarvesterClient, bind, ret, external.
  destruct (pc_Harvester pc); [|constructor].
  handlers H; [|listed]. destruct (corev1.Data _ !! _); listed.
Qed.

Lemma reconcilePending_calls mr hc (cl : Cluster W) :
  Forall (fun call => is_bookkeeping call || is_create call || is_disk_delete call = true)
    (snd (reconcilePending H K mr hc cl)).
Proof.
  unfold reconcilePending, harvester.CreateVM, harvester.createImagePVC, updatePhase,
    updateStatusError, StatusUpdate, Event, bind, ret, external.
  destruct (String.eqb _ ""); crunch H; cbn; listed.
Qed.

Lemma reconcileCreating_calls mr hc (cl : Cluster W) :
  Forall (fun call => is_bookkeeping call || is_machine_read call = true)
    (snd (reconcileCreating H K mr hc cl)).
Proof.
  unfold reconcileCreating. unfold bind at 1.
  pose proof (GetVMStatus_reads H hc (MachineName (Spec mr)) cl) as Hr.
  destruct (harvester.GetVMStatus H hc _ cl) as [[[status err] cl1] reads].
  destruct Hr as [_ Hreads].
  assert (Hread : Forall (fun call => is_bookkeeping call || is_machine_read call = true) reads)
    by (destruct Hreads as [-> | ->]; listed).
  unfold updatePhase, StatusUpdate, Event, bind, ret.
  destruct err as [e|]; [|destruct (negb _)]; crunch H; cbn [fst snd];
    (apply Forall_app; split; [exact Hread|]); cbn; listed.
Qed.

Lemma reconcileRunning_calls mr hc (cl : Cluster W) :
  Forall (fun call => is_bookkeeping call || is_machine_read call = true)
    (snd (reconcileRunning H mr hc cl)).
Proof.
  unfold reconcileRunning. unfold bind at 1.
  pose proof (GetVMStatus_reads H hc (MachineName (Spec mr)) cl) as Hr.
  destruct (harvester.GetVMStatus H hc _ cl) as [[[status err] cl1] reads].
  destruct Hr as [_ Hreads].
  assert (Hread : Forall (fun call => is_bookkeeping call || is_machine_read call = true) reads)
    by (destruct Hreads as [-> | ->]; listed).
  unfold StatusUpdate, Event, bind, ret.
  destruct err as [e|]; [|destruct (_ && _)]; crunch H; cbn [fst snd];
    (apply Forall_app; split; [exact Hread|]); cbn; listed.
Qed.

Lemma reconcileDelete_calls mr hc (cl : Cluster W) :
  Forall (fun call => is_bookkeeping call || is_metadata_write call
                      || is_machine_delete call || is_disk_delete call = true)
    (snd (reconcileDelete H mr hc cl)).
Proof.
  unfold reconcileDelete, harvester.DeleteVM, StatusUpdate, Update, Event, bind, ret, external.
  destruct (negb _); crunch H; cbn; listed.
Qed.

Lemma dispatch_calls mr hc (cl : Cluster W) :
  Forall (fun call =>
            is_bookkeeping call = true
            \/ (rank (Phase (Status mr)) = Some 0%nat
                /\ is_create call || is_disk_delete call = true)
            \/ ((Phase (Status mr) = MachinePhaseCreating
                 \/ Phase (Status mr) = MachinePhaseRunning)
                /\ is_machine_read call = true))
    (snd (dispatch H K mr hc cl)).
Proof.
  unfold dispatch.
  destruct (rank_cases (Phase (Status mr))) as [[Hr Hp]|[[Hr Hp]|[[Hr Hp]|[[Hr Hp]|Hu]]]].
  - rewrite Hp. eapply Forall_impl; [apply reconcilePending_calls|].
    intros call Hc. cbv beta in Hc.
    destruct (is_bookkeeping call); [left; reflexivity|right; left].
    split; [exact Hr|exact Hc].
  - rewrite Hp. cbn. eapply Forall_impl; [apply reconcileCreating_calls|].
    intros call Hc. cbv beta in Hc.
    destruct (is_bookkeeping call); [left; reflexivity|right; right].
    split; [left; reflexivity|exact Hc].
  - rewrite Hp. cbn. eapply Forall_impl; [apply reconcileRunning_calls|].
    intros call Hc. cbv beta in Hc.
    destruct (is_bookkeeping call); [left; reflexivity|right; right].
    split; [right; reflexivity|exact Hc].
  - rewrite Hp. cbn. constructor.
  - destruct Hu as [Hr Hf]. pose proof Hr as Hr'. unfold rank in Hr'.
    destruct (String.eqb _ "" || _); [discriminate|].
    destruct (String.eqb _ MachinePhaseCreating); [discriminate|].
    destruct (String.eqb _ MachinePhaseRunning); [discriminate|].
    destruct (String.eqb_spec (Phase (Status mr)) MachinePhaseFailed); [contradiction|].
    eapply Forall_impl; [apply updatePhase_bookkeeping|]. intros call Hc. left. exact Hc.
Qed.

(** The calls of a pass, by the state of the record it runs over. *)
Lemma Reconcile_calls (cl : Cluster W) (mr : MachineRequest) :
  stored cl = Some mr ->
  Forall (fun call =>
            is_bookkeeping call = true
            \/ (is_deleting mr = true
                /\ is_metadata_write call || is_machine_delete call || is_disk_delete call
                   = true)
            \/ (is_deleting mr = false
                /\ controllerutil.ContainsFinalizer mr finalizerName = false
                /\ is_metadata_write call = true)
            \/ (is_deleting mr = false
                /\ controllerutil.ContainsFinalizer mr finalizerName = true
                /\ ((rank (Phase (Status mr)) = Some 0%nat
                     /\ is_create call || is_disk_delete call = true)
                    \/ ((Phase (Status mr) = MachinePhaseCreating
                         \/ Phase (Status mr) = MachinePhaseRunning)
                        /\ is_machine_read call = true))))
    (snd (Reconcile H K cl)).
Proof.
  intros Hst. destruct cl as [w st]. cbn [stored] in Hst. subst st.
  match goal with |- Forall ?Q _ => set (P := Q) end.
  assert (Hbook : forall call, is_bookkeeping call = true -> P call)
    by (intros call Hc; left; exact Hc).
  unfold Reconcile, Get. unfold bind at 1. cbn [world stored].
  destruct (store_get H w) as [w0 [e|]].
  { destruct (IsNotFound e); cbn;
      (apply List.Forall_cons; [apply Hbook; reflexivity|apply List.Forall_nil]). }
  set (cl0 := {| world := w0; stored := Some mr |}).
  unfold bind at 1.
  pose proof (getProviderConfig_bookkeeping mr cl0) as Hq1.
  destruct (getProviderConfig H mr cl0) as [[[pc|e] cl1] t1]; cbn [snd] in Hq1.
  2:{ pose proof (updateStatusError_bookkeeping mr "ProviderConfigError" (Error e) cl1) as Hq.
      destruct (updateStatusError H mr _ _ cl1) as [[r cl2] t2]. cbn [snd] in *.
      apply List.Forall_cons; [apply Hbook; reflexivity|].
      apply Forall_app_2; (eapply Forall_impl; [eassumption|exact Hbook]). }
  destruct (negb (String.eqb (pc_Provider pc) _)).
  { cbn. apply List.Forall_cons; [apply Hbook; reflexivity|]. rewrite app_nil_r.
    eapply Forall_impl; [exact Hq1|exact Hbook]. }
  unfold bind at 1.
  pose proof (createHarvesterClient_bookkeeping pc cl1) as Hq2.
  destruct (createHarvesterClient H pc cl1) as [[[hc|e] cl2] t2]; cbn [snd] in Hq2.
  2:{ pose proof (updateStatusError_bookkeeping mr "HarvesterClientError" (Error e) cl2) as Hq.
      destruct (updateStatusError H mr _ _ cl2) as [[r cl3] t3]. cbn [snd] in *.
      apply List.Forall_cons; [apply Hbook; reflexivity|].
      repeat apply Forall_app_2; (eapply Forall_impl; [eassumption|exact Hbook]). }
  assert (Hpre : forall t3, Forall P t3 -> Forall P (GetMachineRequest :: t1 ++ t2 ++ t3)).
  { intros t3 HF. apply List.Forall_cons; [apply Hbook; reflexivity|].
    repeat apply Forall_app_2; try exact HF; (eapply Forall_impl; [eassumption|exact Hbook]). }
  destruct (negb (metav1.IsZero _)) eqn:Hdel.
  { pose proof (reconcileDelete_calls mr hc cl2) as Hq.
    destruct (reconcileDelete H mr hc cl2) as [[r cl3] t3]. cbn [snd] in *.
    apply Hpre. eapply Forall_impl; [exact Hq|]. intros call Hc. cbv beta in Hc.
    destruct (is_bookkeeping call) eqn:Hb; [apply Hbook, Hb|right; left].
    split; [exact Hdel|exact Hc]. }
  destruct (negb (controllerutil.ContainsFinalizer mr finalizerName)) eqn:Hguard.
  { apply negb_true_iff in Hguard.
    assert (Hw : forall m, P (UpdateMachineRequest m)).
    { intros m. right; right; left. split; [exact Hdel|split; [exact Hguard|reflexivity]]. }
    unfold Update, bind, ret.
    destruct (store_update H (world cl2)) as [w3 [e|]]; [|destruct (stored cl2)];
      cbn [snd]; apply Hpre; rewrite ?app_nil_r;
      (apply List.Forall_cons; [apply Hw|apply List.Forall_nil]). }
  apply negb_false_iff in Hguard.
  pose proof (dispatch_calls mr hc cl2) as Hq.
  destruct (dispatch H K mr hc cl2) as [[r cl3] t3]. cbn [snd] in *.
  apply Hpre. eapply Forall_impl; [exact Hq|]. intros call [Hc|Hc]; [apply Hbook, Hc|].
  right; right; right. split; [exact Hdel|split; [exact Hguard|exact Hc]].
Qed.

(** X9.  What a pass calls fits the record it runs over.  A disk or a
    machine is created only for a record that is not being deleted,
    carries the guard token and is in the Pending phase or has no phase;
    the machine or its instance is read only for such a record in the
    Creating or Running phase; a machine is deleted only for a record
    that is being deleted; a disk is deleted only then or in the Pending
    phase; and metadata is written only for a record that is being
    deleted or lacks the guard token. *)
Theorem Reconcile_calls_fit_the_state_of_the_record
    (cl : Cluster W) (mr : MachineRequest) (call : Call) :
  stored cl = Some mr ->
  In call (snd (Reconcile H K cl)) ->
  (is_create call = true ->
     is_deleting mr = false
     /\ controllerutil.ContainsFinalizer mr finalizerName = true
     /\ (Phase (Status mr) = "" \/ Phase (Status mr) = MachinePhasePending))
  /\ (is_machine_read call = true ->
        is_deleting mr = false
        /\ controllerutil.ContainsFinalizer mr finalizerName = true
        /\ (Phase (Status mr) = MachinePhaseCreating
            \/ Phase (Status mr) = MachinePhaseRunning))
  /\ (is_machine_delete call = true -> is_deleting mr = true)
  /\ (is_disk_delete call = true ->
        is_deleting mr = true
        \/ (controllerutil.ContainsFinalizer mr finalizerName = true
            /\ (Phase (Status mr) = "" \/ Phase (Status mr) = MachinePhasePending)))
  /\ (is_metadata_write call = true ->
        is_deleting mr = true \/ controllerutil.ContainsFinalizer mr finalizerName = false).
Proof.
  intros Hst Hin. pose proof (Reconcile_calls cl mr Hst) as HF.
  rewrite Forall_forall in HF. apply list_elem_of_In in Hin. specialize (HF call Hin).
  assert (Hpending : rank (Phase (Status mr)) = Some 0%nat ->
                     Phase (Status mr) = "" \/ Phase (Status mr) = MachinePhasePending).
  { unfold rank. destruct (String.eqb_spec (Phase (Status mr)) ""); [left; assumption|].
    destruct (String.eqb_spec (Phase (Status mr)) MachinePhasePending);
      [right; assumption|]. cbn.
    destruct (String.eqb _ MachinePhaseCreating); [discriminate|].
    destruct (String.eqb _ MachinePhaseRunning); discriminate. }
  destruct HF as [Hb|[[Hdel Hc]|[(Hdel & Hg & Hc)|(Hdel & Hg & [[Hr Hc]|[Hp Hc]])]]];
    destruct call; try discriminate; cbn;
    (split; [|split; [|split; [|split]]]); try discriminate; intros _; auto.
Qed.

End Passes.

(** ** What a pass answers *)

Section Answers.

Context {W : Type} (H : Handlers W) (K : butlerv1alpha1.ApiConstants).

Import butlerv1alpha1 controller Views Reach Trace Probe.

Lemma store_fault_last (call : Call) (w : W) (e : error) (after : Cluster W) :
  store_answer H call w = Some (world after, Some e) ->
  store_fault H (Result_zero, Some e) after [call].
Proof. intros Ha. exists e, [], call, w. split; [reflexivity|split; [reflexivity|exact Ha]]. Qed.

Lemma store_fault_app result (after : Cluster W) (before calls : list Call) :
  store_fault H result after calls -> store_fault H result after (before ++ calls).
Proof.
  intros (e & before' & call & w & Hr & -> & Ha). exists e, (before ++ before'), call, w.
  split; [exact Hr|]. split; [apply app_assoc|exact Ha].
Qed.

Lemma store_fault_cons result (after : Cluster W) (call : Call) (calls : list Call) :
  store_fault H result after calls -> store_fault H result after (call :: calls).
Proof. apply (store_fault_app result after [call] calls). Qed.

Ltac fault_tail Ha :=
  repeat first [apply store_fault_app | apply store_fault_cons]; exact Ha.

(** The refused call is the last one of the trace of the goal, and its
    answer is among the hypotheses. *)
Ltac refused :=
  rewrite ?app_nil_r;
  repeat match goal with
         | |- store_fault _ _ _ (_ ++ _) => apply store_fault_app
         | |- store_fault _ _ _ (_ :: ?rest) =>
             lazymatch rest with
             | [] => fail
             | _ => apply store_fault_cons
             end
         end;
  eapply store_fault_last; cbn [store_answer world]; apply f_equal; eassumption.

Ltac answered :=
  first [ left; reflexivity
        | right; left; reflexivity
        | right; right; left; reflexivity
        | right; right; right; left; reflexivity
        | repeat right; refused ].

Ltac known cl Hst := destruct cl as [? ?]; cbn [stored] in Hst; subst.

Lemma updateStatusError_answer mr old reason message (cl : Cluster W) :
  stored cl = Some old ->
  let '(result, cl', calls) := updateStatusError H mr reason message cl in
  result = (Result_zero, None) \/ store_fault H result cl' calls.
Proof.
  intros Hst. known cl Hst. unfold updateStatusError, StatusUpdate, Event, bind, ret.
  crunch H; cbn [app]; answered.
Qed.

Lemma updatePhase_answer mr old phase (cl : Cluster W) :
  stored cl = Some old ->
  let '(result, cl', calls) := updatePhase H mr phase cl in
  result = (Result_Requeue, None) \/ store_fault H result cl' calls.
Proof.
  intros Hst. known cl Hst. unfold updatePhase, StatusUpdate, bind, ret.
  crunch H; cbn [app]; answered.
Qed.

Lemma reconcilePending_answer mr old hc (cl : Cluster W) :
  stored cl = Some old ->
  let '(result, cl', calls) := reconcilePending H K mr hc cl in
  result = (Result_zero, None)
  \/ result = (Result_Requeue, None)
  \/ result = (Result_RequeueAfter requeueShort, None)
  \/ store_fault H result cl' calls.
Proof.
  intros Hst. known cl Hst.
  unfold reconcilePending, harvester.CreateVM, harvester.createImagePVC, updatePhase,
    updateStatusError, StatusUpdate, Event, bind, ret, external.
  destruct (String.eqb _ ""); crunch H; cbn [app]; answered.
Qed.

Lemma reconcileCreating_answer mr old hc (cl : Cluster W) :
  stored cl = Some old ->
  let '(result, cl', calls) := reconcileCreating H K mr hc cl in
  result = (Result_zero, None)
  \/ result = (Result_Requeue, None)
  \/ result = (Result_RequeueAfter requeueShort, None)
  \/ store_fault H result cl' calls.
Proof.
  intros Hst. unfold reconcileCreating. unfold bind at 1.
  pose proof (GetVMStatus_reads H hc (MachineName (Spec mr)) cl) as Hr.
  destruct (harvester.GetVMStatus H hc _ cl) as [[[status err] cl1] reads].
  destruct Hr as [Hr _]. rewrite <- Hr in Hst. clear Hr. known cl1 Hst.
  unfold updatePhase, StatusUpdate, Event, bind, ret.
  destruct err as [e|]; [|destruct (negb _)]; crunch H; cbn [app]; answered.
Qed.

Lemma reconcileRunning_answer mr old hc (cl : Cluster W) :
  stored cl = Some old ->
  let '(result, cl', calls) := reconcileRunning H mr hc cl in
  result = (Result_zero, None)
  \/ result = (Result_RequeueAfter requeueLong, None)
  \/ store_fault H result cl' calls.
Proof.
  intros Hst. unfold reconcileRunning. unfold bind at 1.
  pose proof (GetVMStatus_reads H hc (MachineName (Spec mr)) cl) as Hr.
  destruct (harvester.GetVMStatus H hc _ cl) as [[[status err] cl1] reads].
  destruct Hr as [Hr _]. rewrite <- Hr in Hst. clear Hr. known cl1 Hst.
  unfold StatusUpdate, Event, bind, ret.
  destruct err as [e|]; [|destruct (_ && _)]; crunch H; cbn [app]; answered.
Qed.

Lemma reconcileDelete_answer mr old hc (cl : Cluster W) :
  stored cl = Some old ->
  let '(result, cl', calls) := reconcileDelete H mr hc cl in
  result = (Result_zero, None)
  \/ result = (Result_RequeueAfter requeueShort, None)
  \/ store_fault H result cl' calls.
Proof.
  intros Hst. known cl Hst.
  unfold reconcileDelete, harvester.DeleteVM, StatusUpdate, Update, Event, bind, ret, external.
  destruct (negb _); crunch H; cbn [app]; answered.
Qed.

Lemma dispatch_answer mr old hc (cl : Cluster W) :
  stored cl = Some old ->
  let '(result, cl', calls) := dispatch H K mr hc cl in
  result = (Result_zero, None)
  \/ result = (Result_Requeue, None)
  \/ result = (Result_RequeueAfter requeueShort, None)
  \/ (result = (Result_RequeueAfter requeueLong, None)
      /\ Phase (Status mr) = MachinePhaseRunning)
  \/ store_fault H result cl' calls.
Proof.
  intros Hst. unfold dispatch.
  destruct (rank_cases (Phase (Status mr))) as [[Hr Hp]|[[Hr Hp]|[[Hr Hp]|[[Hr Hp]|Hu]]]].
  - rewrite Hp. pose proof (reconcilePending_answer mr old hc cl Hst) as Ha.
    destruct (reconcilePending H K mr hc cl) as [[result cl'] calls].
    destruct Ha as [Ha|[Ha|[Ha|Ha]]]; auto 6.
  - rewrite Hp. cbn. pose proof (reconcileCreating_answer mr old hc cl Hst) as Ha.
    destruct (reconcileCreating H K mr hc cl) as [[result cl'] calls].
    destruct Ha as [Ha|[Ha|[Ha|Ha]]]; auto 6.
  - rewrite Hp. cbn. pose proof (reconcileRunning_answer mr old hc cl Hst) as Ha.
    destruct (reconcileRunning H mr hc cl) as [[result cl'] calls].
    destruct Ha as [Ha|[Ha|Ha]]; auto 6.
  - rewrite Hp. cbn. left. reflexivity.
  - destruct Hu as [Hr Hf]. pose proof Hr as Hr'. unfold rank in Hr'.
    destruct (String.eqb _ "" || _); [discriminate|].
    destruct (String.eqb _ MachinePhaseCreating); [discriminate|].
    destruct (String.eqb _ MachinePhaseRunning); [discriminate|].
    destruct (String.eqb_spec (Phase (Status mr)) MachinePhaseFailed); [contradiction|].
    pose proof (updatePhase_answer mr old MachinePhasePending cl Hst) as Ha.
    destruct (updatePhase H mr MachinePhasePending cl) as [[result cl'] calls].
    destruct Ha as [Ha|Ha]; auto 6.
Qed.

(** The answers of a pass. *)
Lemma Reconcile_answer (cl : Cluster W) :
  let '(result, cl', calls) := Reconcile H K cl in
  result = (Result_zero, None)
  \/ result = (Result_Requeue, None)
  \/ result = (Result_RequeueAfter requeueShort, None)
  \/ (result = (Result_RequeueAfter requeueLong, None)
      /\ exists mr, stored cl = Some mr
                    /\ Phase (Status mr) = MachinePhaseRunning
                    /\ is_deleting mr = false
                    /\ controllerutil.ContainsFinalizer mr finalizerName = true)
  \/ store_fault H result cl' calls.
Proof.
  unfold Reconcile, Get. unfold bind at 1.
  destruct (store_get H (world cl)) as [w0 [e|]] eqn:get_answer.
  { destruct (IsNotFound e) eqn:Hnf; cbn; [left; reflexivity|].
    repeat right. refused. }
  destruct (stored cl) as [mr|] eqn:Hst; [|left; reflexivity].
  set (cl0 := {| world := w0; stored := Some mr |}).
  assert (Hst0 : stored cl0 = Some mr) by reflexivity.
  unfold bind at 1.
  pose proof (getProviderConfig_keeps H mr cl0) as Hk.
  destruct (getProviderConfig H mr cl0) as [[[pc|e] cl1] t1]; destruct Hk as [Hk _];
    rewrite <- Hk in Hst0.
  2:{ pose proof (updateStatusError_answer mr mr "ProviderConfigError" (Error e) cl1 Hst0)
        as Ha.
      destruct (updateStatusError H mr _ _ cl1) as [[r cl2] t2].
      destruct Ha as [Ha|Ha]; [left; exact Ha|repeat right]. fault_tail Ha. }
  destruct (negb (String.eqb (pc_Provider pc) _)); [left; reflexivity|].
  unfold bind at 1.
  pose proof (createHarvesterClient_keeps H pc cl1) as Hk2.
  destruct (createHarvesterClient H pc cl1) as [[[hc|e] cl2] t2]; destruct Hk2 as [Hk2 _];
    rewrite <- Hk2 in Hst0.
  2:{ pose proof (updateStatusError_answer mr mr "HarvesterClientError" (Error e) cl2 Hst0)
        as Ha.
      destruct (updateStatusError H mr _ _ cl2) as [[r cl3] t3].
      destruct Ha as [Ha|Ha]; [left; exact Ha|repeat right]. fault_tail Ha. }
  destruct (negb (metav1.IsZero _)) eqn:Hdel.
  { pose proof (reconcileDelete_answer mr mr hc cl2 Hst0) as Ha.
    destruct (reconcileDelete H mr hc cl2) as [[r cl3] t3].
    destruct Ha as [Ha|[Ha|Ha]]; [left; exact Ha|right; right; left; exact Ha|repeat right].
    fault_tail Ha. }
  destruct (negb (controllerutil.ContainsFinalizer mr finalizerName)) eqn:Hguard.
  { clear Hk Hk2. known cl2 Hst0. unfold Update, bind, ret. crunch H; cbn [app];
      first [ right; left; reflexivity | repeat right; refused ]. }
  apply negb_false_iff in Hguard.
  pose proof (dispatch_answer mr mr hc cl2 Hst0) as Ha.
  destruct (dispatch H K mr hc cl2) as [[r cl3] t3].
  destruct Ha as [Ha|[Ha|[Ha|[[Ha Hp]|Ha]]]]; auto 6.
  - right; right; right; left. split; [exact Ha|]. exists mr. auto.
  - repeat right. fault_tail Ha.
Qed.

(** X10.  [Reconcile] returns an error only when the record store
    refused a call: the result is then the zero result, the refused call
    is the last call of the pass, the error returned is the one that the
    store answered to that call, and the world is left as that answer
    left it, so that no error of the platform, of the provider
    configuration or of the secret is ever returned.  Without an error
    the result is the zero result, an immediate re-run, the short delay
    or the long delay, and the long delay is asked only for a record in
    the Running phase that is not being deleted. *)
Theorem Reconcile_returns_only_refusals_of_the_record_store (cl : Cluster W) :
  let '(result, cl', calls) := Reconcile H K cl in
  match snd result with
  | Some e =>
      fst result = Result_zero
      /\ exists before call w,
           calls = before ++ [call]
           /\ store_answer H call w = Some (world cl', Some e)
  | None =>
      In (fst result)
         [Result_zero; Result_Requeue; Result_RequeueAfter requeueShort;
          Result_RequeueAfter requeueLong]
      /\ (fst result = Result_RequeueAfter requeueLong ->
          exists mr, stored cl = Some mr
                     /\ Phase (Status mr) = MachinePhaseRunning
                     /\ is_deleting mr = false)
  end.
Proof.
  pose proof (Reconcile_answer cl) as Ha.
  destruct (Reconcile H K cl) as [[result cl'] calls].
  destruct Ha as [->|[->|[->|[[-> Hp]|(e & before & call & w & -> & -> & He)]]]];
    cbn [fst snd].
  - split; [left; reflexivity|discriminate].
  - split; [right; left; reflexivity|discriminate].
  - split; [right; right; left; reflexivity|discriminate].
  - split; [right; right; right; left; reflexivity|]. intros _.
    destruct Hp as (mr & Hst & Hph & Hdel & _). exists mr. auto.
  - split; [reflexivity|]. exists before, call, w. split; [reflexivity|exact He].
Qed.

End Answers.

(** ** What a pass leaves alone *)

Section Frame.

Context {W : Type} (H : Handlers W) (K : butlerv1alpha1.ApiConstants).

Import butlerv1alpha1 controller Views Reach Trace Probe.

Lemma filter_other_twice (f : string) (l : list string) :
  filter (fun g => g <> f) (filter (fun g => g <> f) l) = filter (fun g => g <> f) l.
Proof.
  induction l as [|g l IH]; [reflexivity|].
  destruct (decide (g <> f)) as [Hne|Heq].
  - rewrite !filter_cons_True by exact Hne. rewrite IH. reflexivity.
  - rewrite filter_cons_False by exact Heq. exact IH.
Qed.

Lemma foreign_finalizers_AddFinalizer mr :
  foreign_finalizers (controllerutil.AddFinalizer mr finalizerName) = foreign_finalizers mr.
Proof.
  unfold controllerutil.AddFinalizer, foreign_finalizers.
  destruct (controllerutil.ContainsFinalizer mr finalizerName); [reflexivity|].
  destruct mr as [[name ns gen del fins] spec status]. cbn.
  rewrite filter_app, filter_cons_False, filter_nil, app_nil_r; [reflexivity|].
  intros Hne. apply Hne. reflexivity.
Qed.

(** X11.  A pass changes the status of the record and its own
    finalizer at most: name, namespace, generation, deletion timestamp
    and spec of the stored record are as before, and so are the
    finalizers of other controllers, in their order.  The record is gone
    after the pass only when it was being deleted and carried no
    finalizer of another controller. *)
Theorem Reconcile_touches_only_the_status_and_its_own_token
    (cl : Cluster W) (mr : MachineRequest) :
  stored cl = Some mr ->
  match stored (snd (fst (Reconcile H K cl))) with
  | Some mr' =>
      identity_of mr' = identity_of mr
      /\ foreign_finalizers mr' = foreign_finalizers mr
  | None =>
      is_deleting mr = true /\ foreign_finalizers mr = []
  end.
Proof.
  intros Hst. pose proof (Reconcile_outcome H K cl mr Hst) as Ho.
  destruct Ho as [|st Hf|st _ Hd|st Hdel Hd|Hdel Hg|st _ Hg _ _].
  - split; reflexivity.
  - destruct mr as [[] ? ?]. split; reflexivity.
  - destruct mr as [[] ? ?]. split; reflexivity.
  - unfold settle.
    destruct mr as [[name ns gen del fins] spec status].
    unfold is_deleting in Hdel. cbn in Hdel |- *.
    destruct del as [t|]; [|discriminate Hdel].
    destruct (filter _ fins) as [|g rest] eqn:Hfilter.
    + split; reflexivity.
    + split; [reflexivity|]. unfold foreign_finalizers.
      cbn [ObjectMeta metav1.Finalizers with_Status]. rewrite <- Hfilter.
      apply filter_other_twice.
  - split; [|apply foreign_finalizers_AddFinalizer].
    unfold controllerutil.AddFinalizer. rewrite Hg. destruct mr as [[] ? ?]. reflexivity.
  - destruct mr as [[] ? ?]. split; reflexivity.
Qed.

End Frame.

(** The theorem on the deleted record of the worker example. *)
Lemma Reconcile_touches_only_the_status_and_its_own_token_witness :
  match stored (snd (fst (controller.Reconcile (Worlds.scripted Samples.reporting_script)
                            Samples.constants
                            (Samples.cluster_with Samples.deleted_request)))) with
  | Some mr' =>
      Probe.identity_of mr' = Probe.identity_of Samples.deleted_request
      /\ Probe.foreign_finalizers mr' = Probe.foreign_finalizers Samples.deleted_request
  | None =>
      Views.is_deleting Samples.deleted_request = true
      /\ Probe.foreign_finalizers Samples.deleted_request = []
  end.
Proof.
  apply (Reconcile_touches_only_the_status_and_its_own_token
           (Worlds.scripted Samples.reporting_script) Samples.constants
           (Samples.cluster_with Samples.deleted_request) Samples.deleted_request).
  reflexivity.
Defined.

(** ** The transitions *)

Section Transitions.

Context {W : Type} (H : Handlers W) (K : butlerv1alpha1.ApiConstants).

Import butlerv1alpha1 controller Views Reach Trace Probe.

Lemma FindStatusCondition_store_other conditions c' type :
  type <> metav1.Type_ c' ->
  meta.FindStatusCondition (meta.store_condition conditions c') type
  = meta.FindStatusCondition conditions type.
Proof.
  intros Hne.
  induction conditions as [|d conditions IH]; cbn [meta.FindStatusCondition meta.store_condition];
    [reflexivity|].
  destruct (String.eqb_spec (metav1.Type_ d) (metav1.Type_ c')) as [Heq|Hd];
    cbn [meta.FindStatusCondition].
  - destruct (String.eqb_spec (metav1.Type_ c') type) as [E|_]; [congruence|].
    destruct (String.eqb_spec (metav1.Type_ d) type) as [E|_]; [congruence|reflexivity].
  - rewrite IH. reflexivity.
Qed.

Lemma FindStatusCondition_app_other conditions c type :
  type <> metav1.Type_ c ->
  meta.FindStatusCondition (conditions ++ [c]) type = meta.FindStatusCondition conditions type.
Proof.
  intros Hne.
  induction conditions as [|d conditions IH]; cbn [meta.FindStatusCondition app].
  - destruct (String.eqb_spec (metav1.Type_ c) type) as [E|_]; [congruence|reflexivity].
  - rewrite IH. reflexivity.
Qed.

(** [SetStatusCondition] leaves the conditions of the other types as
    they are. *)
Lemma SetStatusCondition_others conditions c (cl : Cluster W) type :
  type <> metav1.Type_ c ->
  meta.FindStatusCondition (fst (fst (meta.SetStatusCondition H conditions c cl))) type
  = meta.FindStatusCondition conditions type.
Proof.
  intros Hne. unfold meta.SetStatusCondition, bind, ret.
  destruct (meta.FindStatusCondition conditions _) as [existing|] eqn:Hfind.
  - pose proof (FindStatusCondition_type _ _ _ Hfind) as Htype.
    destruct (bool_decide (metav1.Status existing = metav1.Status c)).
    + cbn [fst]. apply FindStatusCondition_store_other. cbn [metav1.Type_]. congruence.
    + destruct (metav1.LastTransitionTime c); [|rewrite Now_spec]; cbn [fst];
        apply FindStatusCondition_store_other; cbn [metav1.Type_ meta.with_transition];
        congruence.
  - destruct (metav1.LastTransitionTime c); [|rewrite Now_spec]; cbn [fst];
      apply FindStatusCondition_app_other; exact Hne.
Qed.

(** [setCondition]: the condition of the type is set, the others and the
    rest of the record are left as they are, and nothing is called. *)
Lemma setCondition_full mr c (cl : Cluster W) :
  exists conditions' w,
    setCondition H mr c cl
    = (with_Status mr (set_Conditions conditions' (Status mr)),
       {| world := w; stored := stored cl |}, [])
    /\ (exists c', meta.FindStatusCondition conditions' (metav1.Type_ c) = Some c'
                   /\ metav1.Status c' = metav1.Status c
                   /\ metav1.Reason c' = metav1.Reason c
                   /\ metav1.Message c' = metav1.Message c)
    /\ (forall type, type <> metav1.Type_ c ->
          meta.FindStatusCondition conditions' type
          = meta.FindStatusCondition (Conditions (Status mr)) type).
Proof.
  unfold setCondition, bind, ret.
  pose proof (SetStatusCondition_others (Conditions (Status mr)) c cl) as Ho.
  destruct (SetStatusCondition_spec H (Conditions (Status mr)) c cl) as (cs & w & E & Hc).
  rewrite E in Ho |- *. cbn [fst] in Ho.
  eexists _, _. split; [reflexivity|]. split; [exact Hc|exact Ho].
Qed.

Ltac set_condition :=
  match goal with
  | |- context [setCondition H ?mr ?c ?cl] =>
      let cs := fresh "conditions" in let w := fresh "w" in let e := fresh "set_answer" in
      let f := fresh "condition_set" in let o := fresh "others" in
      destruct (setCondition_full mr c cl) as (cs & w & e & f & o); rewrite e; clear e
  end.

Ltac accept Hacc :=
  match goal with
  | |- context [store_status_update H ?w] =>
      let e := fresh "status_answer" in
      pose proof (Hacc w) as e; destruct (store_status_update H w) as [? [?|]];
      cbn [snd] in e; [discriminate e|clear e]
  end.

(** X12.  In the Creating phase, when the status read reports an
    address and the status write is accepted, the record is written once
    with phase Running, the reported address and hardware address, the
    Ready condition True and the Progressing condition False, both with
    the running reason; provider identifier, failure fields and observed
    generation stay as they were, a Ready event is recorded, and the
    pass asks for no re-run. *)
Theorem reconcileCreating_with_an_address_turns_running
    (mr : MachineRequest) (hc : harvester.Client) (cl cl1 : Cluster W)
    (status : harvester.VMStatus) (reads : list Call) :
  stored cl = Some mr ->
  harvester.GetVMStatus H hc (MachineName (Spec mr)) cl = ((status, None), cl1, reads) ->
  harvester.IPAddress status <> "" ->
  (forall w, snd (store_status_update H w) = None) ->
  let '(result, cl', calls) := reconcileCreating H K mr hc cl in
  result = (Result_zero, None)
  /\ exists st,
       stored cl' = Some (with_Status mr st)
       /\ calls = reads ++ [UpdateStatus (with_Status mr st);
                            RecordEvent corev1.EventTypeNormal "Ready"
                              ("VM is running with IP " +:+ harvester.IPAddress status)]
       /\ Phase st = MachinePhaseRunning
       /\ IPAddress st = harvester.IPAddress status
       /\ MACAddress st = harvester.MACAddress status
       /\ ProviderID st = ProviderID (Status mr)
       /\ FailureReason st = FailureReason (Status mr)
       /\ FailureMessage st = FailureMessage (Status mr)
       /\ ObservedGeneration st = ObservedGeneration (Status mr)
       /\ condition_of (with_Status mr st) ConditionTypeReady
          = Some (metav1.ConditionTrue, ReasonRunning K)
       /\ condition_of (with_Status mr st) ConditionTypeProgressing
          = Some (metav1.ConditionFalse, ReasonRunning K).
Proof.
  intros Hst Hget Hip Hacc.
  pose proof (GetVMStatus_reads H hc (MachineName (Spec mr)) cl) as Hr.
  rewrite Hget in Hr. destruct Hr as [Hkeep _]. rewrite <- Hkeep in Hst.
  unfold reconcileCreating. unfold bind at 1. rewrite Hget.
  apply String.eqb_neq in Hip. rewrite Hip. cbn [negb].
  unfold bind at 1. rewrite Now_spec. unfold bind at 1. set_condition.
  unfold bind at 1. set_condition.
  unfold StatusUpdate, Event, bind, ret. cbn [world stored]. accept Hacc.
  rewrite Hst. cbn [fst snd world stored app].
  split; [reflexivity|]. eexists. split; [reflexivity|].
  split; [rewrite ?app_nil_r; reflexivity|].
  cbn [Status with_Status Phase IPAddress MACAddress ProviderID FailureReason FailureMessage
       ObservedGeneration set_Conditions set_Phase set_IPAddress set_MACAddress
       set_LastUpdated].
  repeat (split; [reflexivity|]).
  unfold condition_of.
  cbn [Status with_Status Conditions set_Conditions].
  destruct condition_set as (c1 & Hf1 & Hs1 & Hr1 & _).
  destruct condition_set0 as (c2 & Hf2 & Hs2 & Hr2 & _).
  cbn [metav1.Type_ metav1.Status metav1.Reason condition] in *.
  split.
  - rewrite others0 by discriminate.
    cbn [Status with_Status Conditions set_Conditions]. rewrite Hf1, Hs1, Hr1. reflexivity.
  - rewrite Hf2, Hs2, Hr2. reflexivity.
Qed.

(** X13.  In the Creating phase, when the status read reports no
    address and the status write is accepted, the pass writes the
    conditions only: Progressing becomes True with the waiting reason,
    the conditions of other types and every other status field,
    the phase included, stay as they were, no event is recorded, and the
    pass asks for the short delay. *)
Theorem reconcileCreating_without_an_address_waits
    (mr : MachineRequest) (hc : harvester.Client) (cl cl1 : Cluster W)
    (status : harvester.VMStatus) (reads : list Call) :
  stored cl = Some mr ->
  harvester.GetVMStatus H hc (MachineName (Spec mr)) cl = ((status, None), cl1, reads) ->
  harvester.IPAddress status = "" ->
  (forall w, snd (store_status_update H w) = None) ->
  let '(result, cl', calls) := reconcileCreating H K mr hc cl in
  result = (Result_RequeueAfter requeueShort, None)
  /\ exists conditions,
       let written := with_Status mr (set_Conditions conditions (Status mr)) in
       stored cl' = Some written
       /\ calls = reads ++ [UpdateStatus written]
       /\ condition_of written ConditionTypeProgressing
          = Some (metav1.ConditionTrue, ReasonWaitingForIP K)
       /\ (forall type, type <> ConditionTypeProgressing ->
             meta.FindStatusCondition conditions type
             = meta.FindStatusCondition (Conditions (Status mr)) type).
Proof.
  intros Hst Hget Hip Hacc.
  pose proof (GetVMStatus_reads H hc (MachineName (Spec mr)) cl) as Hr.
  rewrite Hget in Hr. destruct Hr as [Hkeep _]. rewrite <- Hkeep in Hst.
  unfold reconcileCreating. unfold bind at 1. rewrite Hget, Hip.
  cbn [String.eqb negb].
  unfold bind at 1. set_condition.
  unfold StatusUpdate, bind, ret. cbn [world stored]. accept Hacc.
  rewrite Hst. cbn [fst snd world stored app].
  split; [reflexivity|]. exists conditions. cbv zeta.
  split; [destruct mr; reflexivity|]. split; [rewrite ?app_nil_r; reflexivity|].
  destruct condition_set as (c1 & Hf1 & Hs1 & Hr1 & _).
  cbn [metav1.Type_ metav1.Status metav1.Reason condition] in *.
  split; [|exact others].
  unfold condition_of. cbn [Status with_Status Conditions set_Conditions].
  rewrite Hf1, Hs1, Hr1. reflexivity.
Qed.

(** X14.  In the Pending phase, when [CreateVM] succeeds and the status
    write is accepted, the record is written once with phase Creating,
    the identifier that the create returned, empty failure fields and
    the generation of the record as observed generation; the addresses
    stay as they were, Progressing becomes True with the creating reason,
    the conditions of other types are untouched, a Created event is
    recorded, and the pass asks for the short delay. *)
Theorem reconcilePending_records_the_created_machine
    (mr : MachineRequest) (hc : harvester.Client) (cl cl1 : Cluster W)
    (uid : string) (creates : list Call) :
  stored cl = Some mr ->
  harvester.CreateVM H hc (options_of mr) cl = (Ok uid, cl1, creates) ->
  (forall w, snd (store_status_update H w) = None) ->
  let '(result, cl', calls) := reconcilePending H K mr hc cl in
  result = (Result_RequeueAfter requeueShort, None)
  /\ exists st,
       stored cl' = Some (with_Status mr st)
       /\ calls = creates ++ [UpdateStatus (with_Status mr st);
                              RecordEvent corev1.EventTypeNormal "Created"
                                "VM creation initiated"]
       /\ Phase st = MachinePhaseCreating
       /\ ProviderID st = uid
       /\ FailureReason st = ""
       /\ FailureMessage st = ""
       /\ ObservedGeneration st = metav1.Generation (ObjectMeta mr)
       /\ IPAddress st = IPAddress (Status mr)
       /\ MACAddress st = MACAddress (Status mr)
       /\ condition_of (with_Status mr st) ConditionTypeProgressing
          = Some (metav1.ConditionTrue, ReasonCreating K)
       /\ (forall type, type <> ConditionTypeProgressing ->
             meta.FindStatusCondition (Conditions st) type
             = meta.FindStatusCondition (Conditions (Status mr)) type).
Proof.
  intros Hst Hcreate Hacc.
  pose proof (CreateVM_keeps H hc (options_of mr) cl) as Hk. rewrite Hcreate in Hk.
  destruct Hk as [Hk _]. rewrite <- Hk in Hst.
  rewrite (reconcilePending_options H K). unfold bind at 1. rewrite Hcreate.
  unfold bind at 1. rewrite Now_spec. unfold bind at 1. set_condition.
  unfold StatusUpdate, Event, bind, ret. cbn [world stored]. accept Hacc.
  rewrite Hst. cbn [fst snd world stored app].
  split; [reflexivity|]. eexists. split; [reflexivity|].
  split; [rewrite ?app_nil_r; reflexivity|].
  cbn [Status with_Status Phase IPAddress MACAddress ProviderID FailureReason FailureMessage
       ObservedGeneration Conditions set_Conditions set_Phase set_ProviderID
       set_FailureReason set_FailureMessage set_ObservedGeneration set_LastUpdated].
  repeat (split; [reflexivity|]).
  destruct condition_set as (c1 & Hf1 & Hs1 & Hr1 & _).
  cbn [metav1.Type_ metav1.Status metav1.Reason condition] in *.
  split; [|exact others].
  unfold condition_of. cbn [Status with_Status Conditions set_Conditions].
  rewrite Hf1, Hs1, Hr1. reflexivity.
Qed.

Lemma settle_keeps_phase (mr : MachineRequest) (phase : MachinePhase) :
  Phase (Status mr) = phase ->
  settle mr = None \/ phase_of (settle mr) = Some phase.
Proof.
  intros Hp. unfold settle. destruct (metav1.DeletionTimestamp _); [|right; cbn; congruence].
  destruct (metav1.Finalizers _); [left; reflexivity|right; cbn; congruence].
Qed.

(** X15.  [reconcileDelete] marks the record before it deletes: unless
    the record is in the Deleting phase already, the first call is the
    status write that sets that phase.  When this write is refused its
    error is returned and nothing is deleted.  Otherwise the machine
    delete follows at once, nothing is created or read afterwards, and
    the record is then in the Deleting phase or gone. *)
Theorem reconcileDelete_marks_the_record_before_it_deletes
    (mr : MachineRequest) (hc : harvester.Client) (cl : Cluster W) :
  stored cl = Some mr ->
  let marked :=
    with_Status mr
      (set_LastUpdated (Some (snd (clock H (world cl))))
         (set_Phase MachinePhaseDeleting (Status mr))) in
  let mark :=
    if String.eqb (Phase (Status mr)) MachinePhaseDeleting then []
    else [UpdateStatus marked] in
  let '(result, cl', calls) := reconcileDelete H mr hc cl in
  (exists e,
      snd (store_status_update H (fst (clock H (world cl)))) = Some e
      /\ Phase (Status mr) <> MachinePhaseDeleting
      /\ result = (Result_zero, Some e)
      /\ calls = mark
      /\ stored cl' = Some mr)
  \/ (exists rest,
        calls = mark ++ DeleteVirtualMachine (harvester.namespace hc) (MachineName (Spec mr))
                        :: rest
        /\ Forall (fun call => is_create call = false /\ is_machine_read call = false) rest
        /\ (stored cl' = None \/ phase_of (stored cl') = Some MachinePhaseDeleting)).
Proof.
  intros Hst. destruct cl as [w0 st]. cbn [stored] in Hst. subst st. cbv zeta.
  unfold reconcileDelete. unfold bind at 1.
  destruct (String.eqb_spec (Phase (Status mr)) MachinePhaseDeleting) as [Hph|Hph];
    cbn [negb].
  - unfold ret at 1. unfold harvester.DeleteVM, Update, Event, bind, ret, external.
    crunch H; cbn [app fst snd world stored]; right; eexists; (split; [reflexivity|]);
      (split; [repeat first [apply List.Forall_nil
                            | apply List.Forall_cons; [split; reflexivity|]]|]).
    all: cbn [stored];
      first [ right; cbn [phase_of]; rewrite Hph; reflexivity
            | apply settle_keeps_phase; exact Hph ].
  - unfold bind at 1. rewrite Now_spec. unfold StatusUpdate. cbn [world stored].
    destruct (store_status_update H _) as [w [e|]].
    + left. exists e. cbn. repeat split. exact Hph.
    + unfold harvester.DeleteVM, Update, Event, bind, ret, external.
      crunch H; cbn [app fst snd world stored]; right; eexists; (split; [reflexivity|]);
      (split; [repeat first [apply List.Forall_nil
                            | apply List.Forall_cons; [split; reflexivity|]]|]);
      cbn [stored]; first [ right; reflexivity | apply settle_keeps_phase; reflexivity ].
Qed.

(** X16.  A record in a phase that the switch of [Reconcile] does not
    name is written with phase Pending and a new time stamp, nothing
    else of it changes, no platform is called, and an immediate re-run is
    asked.  Deleting is such a phase: the switch is reached only for
    records that are not being deleted. *)
Theorem dispatch_resets_a_phase_it_does_not_know
    (mr : MachineRequest) (hc : harvester.Client) (cl : Cluster W) (w : W) :
  stored cl = Some mr ->
  unknown (Phase (Status mr)) ->
  store_status_update H (fst (clock H (world cl))) = (w, None) ->
  let written :=
    with_Status mr
      (set_LastUpdated (Some (snd (clock H (world cl))))
         (set_Phase MachinePhasePending (Status mr))) in
  dispatch H K mr hc cl =
    ((Result_Requeue, None), {| world := w; stored := Some written |}, [UpdateStatus written])
  /\ unknown MachinePhaseDeleting.
Proof.
  intros Hst [Hr Hf] Hacc written. split; [|split; [reflexivity|discriminate]].
  unfold dispatch. unfold rank in Hr.
  destruct (String.eqb _ "" || _); [discriminate|].
  destruct (String.eqb _ MachinePhaseCreating); [discriminate|].
  destruct (String.eqb _ MachinePhaseRunning); [discriminate|].
  destruct (String.eqb_spec (Phase (Status mr)) MachinePhaseFailed); [contradiction|].
  rewrite (updatePhase_accepted H mr mr MachinePhasePending cl w Hst Hacc).
  destruct mr; reflexivity.
Qed.

End Transitions.

(** ** Credentials, and runs on the platform *)

Section Credentials.

Context {W : Type} (H : Handlers W) (K : butlerv1alpha1.ApiConstants).

Import butlerv1alpha1 controller Views Reach Trace Probe.

(** X17.  [createHarvesterClient] never touches the record store.  It
    returns a client only when the provider configuration has a
    Harvester section, the secret was read in the namespace of the
    credentials reference or else of the provider configuration, the
    secret holds the key of the reference or else the key kubeconfig,
    and [NewClient] accepted that value; the client keeps the Harvester
    section.  Without a Harvester section it fails without any call,
    with an error that is no API status; in every other failure the
    read of the secret is its only call. *)
Theorem createHarvesterClient_needs_section_secret_and_key
    (pc : ProviderConfig) (cl : Cluster W) :
  let ns :=
    if String.eqb (cred_Namespace (pc_CredentialsRef pc)) ""
    then pc_Namespace pc else cred_Namespace (pc_CredentialsRef pc) in
  let name := cred_Name (pc_CredentialsRef pc) in
  let key :=
    if String.eqb (cred_Key (pc_CredentialsRef pc)) ""
    then "kubeconfig" else cred_Key (pc_CredentialsRef pc) in
  let '(result, cl', calls) := createHarvesterClient H pc cl in
  stored cl' = stored cl
  /\ match result with
     | Ok hc =>
         exists hcfg secret kubeconfig,
           pc_Harvester pc = Some hcfg
           /\ secret_get H ns name (world cl) = (world cl', Ok secret)
           /\ corev1.Data secret !! key = Some kubeconfig
           /\ calls = [GetSecret ns name]
           /\ harvester.NewClient H kubeconfig hcfg = Ok hc
           /\ harvester.config hc = hcfg
     | Err e =>
         (pc_Harvester pc = None /\ calls = [] /\ world cl' = world cl
          /\ ReasonForError e = StatusReasonUnknown)
         \/ (pc_Harvester pc <> None /\ calls = [GetSecret ns name])
     end.
Proof.
  cbv zeta. unfold createHarvesterClient, bind, ret, external.
  destruct (pc_Harvester pc) as [hcfg|]; [|split; [reflexivity|left; repeat split]].
  destruct (secret_get H _ _ _) as [w1 [secret|e]] eqn:Hsecret;
    [|split; [reflexivity|right; split; [discriminate|reflexivity]]].
  destruct (corev1.Data secret !! _) as [kubeconfig|] eqn:Hkey;
    [|split; [reflexivity|right; split; [discriminate|reflexivity]]].
  cbn [fst snd world stored app]. split; [reflexivity|].
  destruct (harvester.NewClient H kubeconfig hcfg) as [hc|e] eqn:Hnew;
    [|right; split; [discriminate|reflexivity]].
  exists hcfg, secret, kubeconfig. repeat split; try assumption.
  unfold harvester.NewClient in Hnew.
  destruct (RESTConfigFromKubeConfig H kubeconfig); [discriminate|].
  destruct (dynamic_NewForConfig H kubeconfig); [discriminate|].
  destruct (kubernetes_NewForConfig H kubeconfig); [discriminate|].
  injection Hnew as <-. reflexivity.
Qed.

End Credentials.

Section PlatformRuns.

Import butlerv1alpha1 controller Views Reach Trace Probe.

Lemma created_disk_removed (disk : string * string) (disks : gset (string * string)) :
  disk ∉ disks -> ({[disk]} ∪ disks) ∖ {[disk]} = disks.
Proof.
  intros Hdisk. apply set_eq. intros x.
  rewrite elem_of_difference, elem_of_union, !elem_of_singleton.
  split; [|intros Hx; split; [right; exact Hx|intros ->; contradiction]].
  intros [[->|Hx] Hne]; [contradiction Hne; reflexivity|exact Hx].
Qed.

(** X18.  On a platform that holds neither the disk nor the machine,
    [CreateVM] adds both and returns the identifier of the machine, and
    [DeleteVM] of the same name then succeeds and leaves the disks and
    the machines of the platform as they were before the create: the
    delete names the disk that the create made. *)
Theorem platform_DeleteVM_undoes_CreateVM
    (pc : ProviderConfig) (secret : corev1.Secret) (hc : harvester.Client)
    (opts : harvester.VMCreateOptions) (p : Worlds.Platform) (st : option MachineRequest) :
  let image :=
    if String.eqb (harvester.ImageName opts) ""
    then hpc_ImageName (harvester.config hc) else harvester.ImageName opts in
  let ns := harvester.namespace hc in
  let disk := (ns, harvester.Name opts +:+ "-rootdisk") in
  let machine := (ns, harvester.Name opts) in
  image <> "" ->
  disk ∉ Worlds.pvcs p ->
  Worlds.vms p !! machine = None ->
  let '(created, cl1, _) :=
    harvester.CreateVM (Worlds.platform pc secret) hc opts {| world := p; stored := st |} in
  let '(deleted, cl2, _) :=
    harvester.DeleteVM (Worlds.platform pc secret) hc (harvester.Name opts) cl1 in
  created = Ok ("uid-" +:+ harvester.Name opts)
  /\ disk ∈ Worlds.pvcs (world cl1)
  /\ machine ∈ dom (Worlds.vms (world cl1))
  /\ deleted = None
  /\ Worlds.pvcs (world cl2) = Worlds.pvcs p
  /\ Worlds.vms (world cl2) = Worlds.vms p
  /\ stored cl2 = st.
Proof.
  intros image ns disk machine Himage Hdisk Hmachine.
  unfold harvester.CreateVM, harvester.createImagePVC, bind, ret, external.
  fold image. apply String.eqb_neq in Himage. rewrite Himage.
  cbn [world stored Worlds.platform pvc_create vm_create].
  unfold Worlds.platform_pvc_create.
  cbn [harvester.imagePVC corev1.pvc_Namespace corev1.pvc_Name].
  fold ns. fold disk. rewrite (bool_decide_eq_false_2 _ Hdisk).
  cbn [world stored]. unfold Worlds.platform_vm_create.
  rewrite buildVM_name. fold machine. cbn [Worlds.vms]. rewrite Hmachine.
  unfold harvester.DeleteVM, bind, ret, external.
  cbn [world stored Worlds.platform vm_delete pvc_delete fst snd].
  unfold Worlds.platform_vm_delete. cbn [Worlds.vms]. fold ns. fold machine.
  rewrite lookup_insert_eq. cbn [world stored].
  unfold Worlds.platform_pvc_delete. cbn [Worlds.pvcs]. fold disk.
  rewrite bool_decide_eq_true_2 by set_solver.
  cbn [world stored fst snd Worlds.pvcs Worlds.vms].
  split; [reflexivity|]. split; [apply elem_of_union_l, elem_of_singleton; reflexivity|].
  split; [apply elem_of_dom; rewrite lookup_insert_eq; eexists; reflexivity|].
  split; [reflexivity|].
  split; [apply created_disk_removed, Hdisk|].
  split; [|reflexivity].
  apply delete_insert_id. exact Hmachine.
Qed.

(** X19.  On a platform where the name of the machine is taken and the
    disk is absent, [CreateVM] creates the disk, fails to create the
    machine, deletes the disk again and leaves the platform exactly as it
    was; the error it returns counts as AlreadyExists. *)
Theorem platform_CreateVM_rolls_back_on_a_taken_name
    (pc : ProviderConfig) (secret : corev1.Secret) (hc : harvester.Client)
    (opts : harvester.VMCreateOptions) (p : Worlds.Platform) (st : option MachineRequest)
    (other : JVal) :
  let image :=
    if String.eqb (harvester.ImageName opts) ""
    then hpc_ImageName (harvester.config hc) else harvester.ImageName opts in
  let ns := harvester.namespace hc in
  let disk := (ns, harvester.Name opts +:+ "-rootdisk") in
  let machine := (ns, harvester.Name opts) in
  image <> "" ->
  disk ∉ Worlds.pvcs p ->
  Worlds.vms p !! machine = Some other ->
  exists e pvc vm,
    harvester.CreateVM (Worlds.platform pc secret) hc opts {| world := p; stored := st |}
    = (Err e, {| world := p; stored := st |},
       [CreatePVC pvc; CreateVirtualMachine ns vm; DeletePVC ns (snd disk)])
    /\ IsAlreadyExists e = true.
Proof.
  intros image ns disk machine Himage Hdisk Hmachine.
  unfold harvester.CreateVM, harvester.createImagePVC, bind, ret, external.
  fold image. apply String.eqb_neq in Himage. rewrite Himage.
  cbn [world stored Worlds.platform pvc_create vm_create pvc_delete].
  unfold Worlds.platform_pvc_create.
  cbn [harvester.imagePVC corev1.pvc_Namespace corev1.pvc_Name].
  fold ns. fold disk. rewrite (bool_decide_eq_false_2 _ Hdisk).
  cbn [world stored]. unfold Worlds.platform_vm_create.
  rewrite buildVM_name. fold machine. cbn [Worlds.vms]. rewrite Hmachine.
  cbn [world stored]. unfold Worlds.platform_pvc_delete. cbn [Worlds.pvcs]. fold disk.
  rewrite bool_decide_eq_true_2 by (apply elem_of_union_l, elem_of_singleton; reflexivity).
  cbn [app snd Worlds.vms Worlds.vmis Worlds.ticks].
  rewrite (created_disk_removed disk (Worlds.pvcs p) Hdisk).
  eexists _, _, _. split; [destruct p; reflexivity|reflexivity].
Qed.

(** X20.  On a platform that holds neither the disk nor the machine,
    for a record whose only finalizer is the guard token: the create
    sequence of the Pending phase leaves the record in Creating with the
    disk and the machine on the platform; when the owner then asks for
    deletion, [reconcileDelete] returns no error, the record is gone,
    the disks and machines of the platform are as they were before the
    create, and no warning was recorded on the way. *)
Theorem platform_delete_after_create_leaves_nothing
    (pc : ProviderConfig) (secret : corev1.Secret) (K : ApiConstants)
    (mr : MachineRequest) (hc : harvester.Client) (p : Worlds.Platform) (t : metav1.Time) :
  let image :=
    if String.eqb (Image (Spec mr)) ""
    then hpc_ImageName (harvester.config hc) else Image (Spec mr) in
  let ns := harvester.namespace hc in
  let disk := (ns, MachineName (Spec mr) +:+ "-rootdisk") in
  let machine := (ns, MachineName (Spec mr)) in
  image <> "" ->
  disk ∉ Worlds.pvcs p ->
  Worlds.vms p !! machine = None ->
  metav1.Finalizers (ObjectMeta mr) = [finalizerName] ->
  let '(r1, cl1, t1) :=
    reconcilePending (Worlds.platform pc secret) K mr hc {| world := p; stored := Some mr |} in
  exists provisioned,
    stored cl1 = Some provisioned
    /\ Phase (Status provisioned) = MachinePhaseCreating
    /\ disk ∈ Worlds.pvcs (world cl1)
    /\ machine ∈ dom (Worlds.vms (world cl1))
    /\ let doomed := with_DeletionTimestamp provisioned (Some t) in
       let '(r2, cl2, t2) :=
         reconcileDelete (Worlds.platform pc secret) doomed hc
           {| world := world cl1; stored := Some doomed |} in
       r2 = (Result_zero, None)
       /\ stored cl2 = None
       /\ Worlds.pvcs (world cl2) = Worlds.pvcs p
       /\ Worlds.vms (world cl2) = Worlds.vms p
       /\ Forall (fun call => is_warning call = false) (t1 ++ t2).
Proof.
  intros image ns disk machine Himage Hdisk Hmachine Hfin.
  destruct (platform_CreateVM_fresh pc secret hc (options_of mr) p (Some mr)
              Himage Hdisk Hmachine) as (uid & created & calls & Hfresh & Hquiet).
  rewrite (reconcilePending_options (Worlds.platform pc secret) K). unfold bind at 1.
  rewrite Hfresh. unfold bind at 1. rewrite platform_Now. unfold bind at 1.
  match goal with |- context [setCondition _ ?m ?c {| world := ?p1; stored := ?st1 |}] =>
    destruct (platform_setCondition pc secret m c p1 st1) as (cs & t' & ->) end.
  unfold StatusUpdate, Event, bind, ret.
  cbn [world stored Worlds.platform store_status_update fst snd].
  eexists. split; [reflexivity|]. split; [reflexivity|].
  cbn [Worlds.pvcs Worlds.vms Worlds.at_ticks options_of harvester.Name]. fold ns disk machine.
  split; [apply elem_of_union_l, elem_of_singleton; reflexivity|].
  split; [apply elem_of_dom; rewrite lookup_insert_eq; eexists; reflexivity|].
  cbv zeta. unfold reconcileDelete. unfold bind at 1.
  cbn [Status with_Status with_DeletionTimestamp Phase set_Conditions set_Phase
       set_LastUpdated set_ObservedGeneration set_FailureMessage set_FailureReason
       set_ProviderID].
  change (negb (String.eqb MachinePhaseCreating MachinePhaseDeleting)) with true. cbv iota.
  unfold bind at 1. rewrite platform_Now.
  unfold StatusUpdate, harvester.DeleteVM, Update, Event, bind, ret, external.
  cbn [world stored Worlds.platform store_status_update store_update vm_delete pvc_delete
       fst snd Spec with_Status with_DeletionTimestamp].
  unfold Worlds.platform_vm_delete. cbn [Worlds.vms Worlds.at_ticks]. fold ns machine.
  rewrite lookup_insert_eq. cbn [world stored fst snd].
  unfold Worlds.platform_pvc_delete. cbn [Worlds.pvcs]. fold disk.
  rewrite bool_decide_eq_true_2 by (apply elem_of_union_l, elem_of_singleton; reflexivity).
  cbn [world stored fst snd IsNotFound negb Worlds.pvcs Worlds.vms].
  split; [reflexivity|]. split.
  { unfold settle, controllerutil.RemoveFinalizer.
    cbn [ObjectMeta with_Status with_Finalizers with_DeletionTimestamp
         metav1.DeletionTimestamp metav1.Finalizers].
    rewrite Hfin. rewrite filter_cons_False by (intros Hne; apply Hne; reflexivity).
    reflexivity. }
  split; [apply created_disk_removed, Hdisk|].
  split; [apply delete_insert_id, Hmachine|].
  rewrite !app_nil_r. apply Forall_app_2; [apply Forall_app_2; [exact Hquiet|]|];
    repeat first [apply List.Forall_nil | apply List.Forall_cons; [reflexivity|]].
Qed.

End PlatformRuns.

(** ** The theorems on the worker example *)

Section ExtraExamples.

Import butlerv1alpha1 controller Views Reach Trace Probe.

(** The worker example with a role label and a label that overrides the
    one of the adapter. *)
Lemma buildVM_labels_of_the_request_win_witness :
  let labelled :=
    {| harvester.Name := "alpha-cp-0"; harvester.CPU := 4; harvester.MemoryMB := 16384;
       harvester.DiskGB := 100; harvester.ImageName := "default/img1";
       harvester.NetworkName := ""; harvester.UserData := ""; harvester.NetworkData := "";
       harvester.Labels := [("role", "worker")] |} in
  let vm := harvester.buildVM Samples.client labelled "alpha-cp-0-rootdisk" "default/vlan40" in
  label_of vm "role" = Some (JStr "worker")
  /\ label_of vm "butler.butlerlabs.dev/managed-by" = Some (JStr "butler-provider-harvester")
  /\ label_of vm "zone" = None
  /\ template_label_of vm "role" = Some (JStr "worker").
Proof.
  cbv zeta.
  destruct (buildVM_labels_of_the_request_win Samples.client
              {| harvester.Name := "alpha-cp-0"; harvester.CPU := 4;
                 harvester.MemoryMB := 16384; harvester.DiskGB := 100;
                 harvester.ImageName := "default/img1"; harvester.NetworkName := "";
                 harvester.UserData := ""; harvester.NetworkData := "";
                 harvester.Labels := [("role", "worker")] |}
              "alpha-cp-0-rootdisk" "default/vlan40") as (Htemplate & Hrequest & Hmanaged & Habsent).
  assert (Hrole : label_of
                    (harvester.buildVM Samples.client
                       {| harvester.Name := "alpha-cp-0"; harvester.CPU := 4;
                          harvester.MemoryMB := 16384; harvester.DiskGB := 100;
                          harvester.ImageName := "default/img1"; harvester.NetworkName := "";
                          harvester.UserData := ""; harvester.NetworkData := "";
                          harvester.Labels := [("role", "worker")] |}
                       "alpha-cp-0-rootdisk" "default/vlan40") "role"
                  = Some (JStr "worker")).
  { apply Hrequest; [left; reflexivity|].
    apply List.NoDup_cons; [intros []|apply List.NoDup_nil]. }
  split; [exact Hrole|]. split.
  - apply Hmanaged. intros [Heq|[]]. discriminate Heq.
  - split.
    + apply Habsent; [intros [Heq|[]]; discriminate Heq|discriminate].
    + rewrite Htemplate. exact Hrole.
Defined.

Lemma Reconcile_without_a_readable_record_witness :
  Reconcile (Worlds.scripted Samples.reporting_script) Samples.constants Samples.empty_cluster
  = ((Result_zero, None), Samples.empty_cluster, [GetMachineRequest]).
Proof.
  exact (Reconcile_without_a_readable_record (Worlds.scripted Samples.reporting_script)
           Samples.constants Samples.empty_cluster (or_introl eq_refl)).
Defined.

(** A record whose provider configuration names another provider. *)
Lemma Reconcile_leaves_other_providers_alone_witness :
  let other :=
    {| pc_Name := "nutanix-prod"; pc_Namespace := "butler-system"; pc_Provider := "nutanix";
       pc_CredentialsRef := {| cred_Name := "nutanix"; cred_Namespace := ""; cred_Key := "" |};
       pc_Harvester := None |} in
  let script := Samples.script (Ok other) None (Ok Samples.vm_object) None
                  (Ok Samples.vm_object) (Ok Samples.vm_object) in
  Reconcile (Worlds.scripted script) Samples.constants
    (Samples.cluster_with Samples.deleted_request)
  = ((Result_zero, None), Samples.cluster_with Samples.deleted_request,
     [GetMachineRequest; GetProviderConfig "butler-system" "harvester-prod"]).
Proof.
  cbv zeta.
  apply (Reconcile_leaves_other_providers_alone
           (Worlds.scripted
              (Samples.script
                 (Ok {| pc_Name := "nutanix-prod"; pc_Namespace := "butler-system";
                        pc_Provider := "nutanix";
                        pc_CredentialsRef :=
                          {| cred_Name := "nutanix"; cred_Namespace := ""; cred_Key := "" |};
                        pc_Harvester := None |})
                 None (Ok Samples.vm_object) None (Ok Samples.vm_object)
                 (Ok Samples.vm_object)))
           Samples.constants (Samples.cluster_with Samples.deleted_request)
           Samples.deleted_request tt tt
           {| pc_Name := "nutanix-prod"; pc_Namespace := "butler-system";
              pc_Provider := "nutanix";
              pc_CredentialsRef :=
                {| cred_Name := "nutanix"; cred_Namespace := ""; cred_Key := "" |};
              pc_Harvester := None |}).
  - reflexivity.
  - reflexivity.
  - reflexivity.
  - discriminate.
Defined.

(** The read of the machine in a pass over the Creating record of the
    worker example. *)
Lemma Reconcile_calls_fit_the_state_of_the_record_witness :
  is_deleting Samples.creating_request = false
  /\ controllerutil.ContainsFinalizer Samples.creating_request finalizerName = true
  /\ (Phase (Status Samples.creating_request) = MachinePhaseCreating
      \/ Phase (Status Samples.creating_request) = MachinePhaseRunning).
Proof.
  apply (proj1 (proj2 (Reconcile_calls_fit_the_state_of_the_record
                         (Worlds.scripted Samples.reporting_script) Samples.constants
                         (Samples.cluster_with Samples.creating_request)
                         Samples.creating_request
                         (GetVirtualMachine "default" "alpha-cp-0")
                         eq_refl
                         (or_intror (or_intror (or_intror (or_introl eq_refl))))))).
  reflexivity.
Defined.

(** The Creating record of the worker example once the instance reports
    10.0.0.7. *)
Lemma reconcileCreating_with_an_address_turns_running_witness :
  let '(result, cl', _) :=
    reconcileCreating (Worlds.scripted Samples.reporting_script) Samples.constants
      Samples.creating_request Samples.client
      (Samples.cluster_with Samples.creating_request) in
  result = (Result_zero, None)
  /\ exists st,
       stored cl' = Some (with_Status Samples.creating_request st)
       /\ Phase st = MachinePhaseRunning
       /\ IPAddress st = "10.0.0.7"
       /\ MACAddress st = "aa:bb:cc"
       /\ condition_of (with_Status Samples.creating_request st) ConditionTypeReady
          = Some (metav1.ConditionTrue, "Running").
Proof.
  pose proof (reconcileCreating_with_an_address_turns_running
                (Worlds.scripted Samples.reporting_script) Samples.constants
                Samples.creating_request Samples.client
                (Samples.cluster_with Samples.creating_request)
                (Samples.cluster_with Samples.creating_request)
                {| harvester.Exists := true; harvester.Ready := true;
                   harvester.Phase := "Running"; harvester.IPAddress := "10.0.0.7";
                   harvester.MACAddress := "aa:bb:cc" |}
                [GetVirtualMachine "default" "alpha-cp-0";
                 GetVirtualMachineInstance "default" "alpha-cp-0"]
                eq_refl eq_refl ltac:(discriminate) (fun _ => eq_refl)) as Hw.
  destruct (reconcileCreating _ _ _ _ _) as [[result cl'] calls].
  destruct Hw as (Hr & st & Hs & _ & Hp & Hip & Hmac & _ & _ & _ & _ & Hready & _).
  split; [exact Hr|]. exists st. repeat split; assumption.
Defined.

(** The Creating record of the worker example while the instance
    reports a link-local and an IPv6 address only. *)
Lemma reconcileCreating_without_an_address_waits_witness :
  let report :=
    Samples.script (Ok Samples.provider_config) None (Ok Samples.vm_object) None
      (Ok Samples.vm_object)
      (Ok (AddressPolicy.instance_with [("169.254.1.5", "aa:bb:aa"); ("fe80::1", "aa:bb:bb")])) in
  let '(result, cl', _) :=
    reconcileCreating (Worlds.scripted report) Samples.constants
      Samples.creating_request Samples.client
      (Samples.cluster_with Samples.creating_request) in
  result = (Result_RequeueAfter requeueShort, None)
  /\ exists conditions,
       let written :=
         with_Status Samples.creating_request
           (set_Conditions conditions (Status Samples.creating_request)) in
       stored cl' = Some written
       /\ condition_of written ConditionTypeProgressing
          = Some (metav1.ConditionTrue, "WaitingForIP").
Proof.
  cbv zeta.
  pose proof (reconcileCreating_without_an_address_waits
                (Worlds.scripted
                   (Samples.script (Ok Samples.provider_config) None (Ok Samples.vm_object)
                      None (Ok Samples.vm_object)
                      (Ok (AddressPolicy.instance_with
                             [("169.254.1.5", "aa:bb:aa"); ("fe80::1", "aa:bb:bb")]))))
                Samples.constants
                Samples.creating_request Samples.client
                (Samples.cluster_with Samples.creating_request)
                (Samples.cluster_with Samples.creating_request)
                {| harvester.Exists := true; harvester.Ready := true;
                   harvester.Phase := "Running"; harvester.IPAddress := "";
                   harvester.MACAddress := "" |}
                [GetVirtualMachine "default" "alpha-cp-0";
                 GetVirtualMachineInstance "default" "alpha-cp-0"]
                eq_refl eq_refl eq_refl (fun _ => eq_refl)) as Hw.
  destruct (reconcileCreating _ _ _ _ _) as [[result cl'] calls].
  destruct Hw as (Hr & conditions & Hs & _ & Hp & _).
  split; [exact Hr|]. exists conditions. split; assumption.
Defined.

(** The Pending record of the worker example when both creates
    succeed. *)
Lemma reconcilePending_records_the_created_machine_witness :
  let '(result, cl', _) :=
    reconcilePending (Worlds.scripted Samples.reporting_script) Samples.constants
      Samples.pending_request Samples.client
      (Samples.cluster_with Samples.pending_request) in
  result = (Result_RequeueAfter requeueShort, None)
  /\ exists st,
       stored cl' = Some (with_Status Samples.pending_request st)
       /\ Phase st = MachinePhaseCreating
       /\ ProviderID st = "uid-alpha-cp-0"
       /\ ObservedGeneration st = 1.
Proof.
  pose proof (reconcilePending_records_the_created_machine
                (Worlds.scripted Samples.reporting_script) Samples.constants
                Samples.pending_request Samples.client
                (Samples.cluster_with Samples.pending_request)
                (Samples.cluster_with Samples.pending_request)
                "uid-alpha-cp-0"
                [CreatePVC (harvester.imagePVC Samples.client "alpha-cp-0-rootdisk"
                              "default/img1" 100);
                 CreateVirtualMachine "default"
                   (harvester.buildVM Samples.client (options_of Samples.pending_request)
                      "alpha-cp-0-rootdisk" "default/vlan40")]
                eq_refl eq_refl (fun _ => eq_refl)) as Hw.
  destruct (reconcilePending _ _ _ _ _) as [[result cl'] calls].
  destruct Hw as (Hr & st & Hs & _ & Hp & Hid & _ & _ & Hgen & _).
  split; [exact Hr|]. exists st. repeat split; assumption.
Defined.

(** The deletion of the failed record of the worker example. *)
Lemma reconcileDelete_marks_the_record_before_it_deletes_witness :
  let marked :=
    with_Status Samples.deleted_request
      (set_LastUpdated (Some 1000)
         (set_Phase MachinePhaseDeleting (Status Samples.deleted_request))) in
  let '(result, cl', calls) :=
    reconcileDelete (Worlds.scripted Samples.reporting_script)
      Samples.deleted_request Samples.client
      (Samples.cluster_with Samples.deleted_request) in
  exists rest,
    calls = UpdateStatus marked :: DeleteVirtualMachine "default" "alpha-cp-0" :: rest
    /\ (stored cl' = None \/ phase_of (stored cl') = Some MachinePhaseDeleting).
Proof.
  cbv zeta.
  pose proof (reconcileDelete_marks_the_record_before_it_deletes
                (Worlds.scripted Samples.reporting_script)
                Samples.deleted_request Samples.client
                (Samples.cluster_with Samples.deleted_request) eq_refl) as Hw.
  cbv zeta in Hw.
  destruct (reconcileDelete _ _ _ _) as [[result cl'] calls].
  destruct Hw as [(e & He & _)|(rest & Hcalls & _ & Hstored)]; [discriminate He|].
  exists rest. split; [exact Hcalls|exact Hstored].
Defined.

(** A record that says Deleting while nobody asked for its deletion. *)
Lemma dispatch_resets_a_phase_it_does_not_know_witness :
  let stray :=
    Samples.request [finalizerName] None (Samples.status_in MachinePhaseDeleting "" "" []) in
  let written :=
    with_Status stray
      (set_LastUpdated (Some 1000) (set_Phase MachinePhasePending (Status stray))) in
  dispatch (Worlds.scripted Samples.reporting_script) Samples.constants stray Samples.client
    (Samples.cluster_with stray)
  = ((Result_Requeue, None), {| world := tt; stored := Some written |}, [UpdateStatus written]).
Proof.
  cbv zeta.
  apply (dispatch_resets_a_phase_it_does_not_know
           (Worlds.scripted Samples.reporting_script) Samples.constants
           (Samples.request [finalizerName] None
              (Samples.status_in MachinePhaseDeleting "" "" []))
           Samples.client
           (Samples.cluster_with
              (Samples.request [finalizerName] None
                 (Samples.status_in MachinePhaseDeleting "" "" [])))
           tt eq_refl).
  - split; [reflexivity|discriminate].
  - reflexivity.
Defined.

(** The worker example on an empty platform. *)
Lemma platform_DeleteVM_undoes_CreateVM_witness :
  let '(created, cl1, _) :=
    harvester.CreateVM (Worlds.platform Samples.provider_config Samples.secret)
      Samples.client (Samples.options "" "")
      {| world := Samples.empty_platform; stored := None |} in
  let '(deleted, cl2, _) :=
    harvester.DeleteVM (Worlds.platform Samples.provider_config Samples.secret)
      Samples.client "alpha-cp-0" cl1 in
  created = Ok "uid-alpha-cp-0"
  /\ deleted = None
  /\ Worlds.pvcs (world cl2) = ∅
  /\ Worlds.vms (world cl2) = ∅.
Proof.
  pose proof (platform_DeleteVM_undoes_CreateVM Samples.provider_config Samples.secret
                Samples.client (Samples.options "" "") Samples.empty_platform None
                ltac:(discriminate) (not_elem_of_empty _) (lookup_empty _)) as Hw.
  cbn [harvester.Name Samples.options] in Hw.
  destruct (harvester.CreateVM _ _ _ _) as [[created cl1] t1].
  destruct (harvester.DeleteVM _ _ _ _) as [[deleted cl2] t2].
  destruct Hw as (Hc & _ & _ & Hd & Hp & Hv & _).
  repeat split; assumption.
Defined.

(** The worker example on a platform where another machine has its
    name. *)
Lemma platform_CreateVM_rolls_back_on_a_taken_name_witness :
  let taken :=
    {| Worlds.pvcs := ∅; Worlds.vms := {[ ("default", "alpha-cp-0") := Samples.vm_object ]};
       Worlds.vmis := ∅; Worlds.ticks := 1000 |} in
  exists e pvc vm,
    harvester.CreateVM (Worlds.platform Samples.provider_config Samples.secret)
      Samples.client (Samples.options "" "") {| world := taken; stored := None |}
    = (Err e, {| world := taken; stored := None |},
       [CreatePVC pvc; CreateVirtualMachine "default" vm;
        DeletePVC "default" "alpha-cp-0-rootdisk"])
    /\ IsAlreadyExists e = true.
Proof.
  cbv zeta.
  apply (platform_CreateVM_rolls_back_on_a_taken_name Samples.provider_config Samples.secret
           Samples.client (Samples.options "" "")
           {| Worlds.pvcs := ∅;
              Worlds.vms := {[ ("default", "alpha-cp-0") := Samples.vm_object ]};
              Worlds.vmis := ∅; Worlds.ticks := 1000 |}
           None Samples.vm_object).
  - discriminate.
  - apply not_elem_of_empty.
  - apply lookup_singleton_eq.
Defined.

(** The worker example on an empty platform, deleted at time 2000. *)
Lemma platform_delete_after_create_leaves_nothing_witness :
  let '(r1, cl1, t1) :=
    reconcilePending (Worlds.platform Samples.provider_config Samples.secret)
      Samples.constants Samples.pending_request Samples.client
      {| world := Samples.empty_platform; stored := Some Samples.pending_request |} in
  exists provisioned,
    stored cl1 = Some provisioned
    /\ let doomed := with_DeletionTimestamp provisioned (Some 2000) in
       let '(r2, cl2, t2) :=
         reconcileDelete (Worlds.platform Samples.provider_config Samples.secret)
           doomed Samples.client {| world := world cl1; stored := Some doomed |} in
       r2 = (Result_zero, None)
       /\ stored cl2 = None
       /\ Worlds.pvcs (world cl2) = ∅
       /\ Worlds.vms (world cl2) = ∅.
Proof.
  pose proof (platform_delete_after_create_leaves_nothing Samples.provider_config
                Samples.secret Samples.constants Samples.pending_request Samples.client
                Samples.empty_platform 2000
                ltac:(discriminate) (not_elem_of_empty _) (lookup_empty _) eq_refl) as Hw.
  destruct (reconcilePending _ _ _ _ _) as [[r1 cl1] t1].
  destruct Hw as (provisioned & Hs & _ & _ & _ & Hw).
  exists provisioned. split; [exact Hs|]. cbv zeta in Hw |- *.
  destruct (reconcileDelete _ _ _ _) as [[r2 cl2] t2].
  destruct Hw as (Hr & Hnone & Hp & Hv & _). repeat split; assumption.
Defined.

End ExtraExamples.

(** ** A machine that vanished, and the Failed phase *)

Section Vanished.

Context {W : Type} (H : Handlers W) (K : butlerv1alpha1.ApiConstants).

Import butlerv1alpha1 controller Views Reach Trace Probe.

(** [SetFailure] as the spec has it: phase, reason and message of the
    failure, the Ready condition False, and nothing else of the record. *)
Lemma SetFailure_spec mr reason message (cl : Cluster W) :
  exists conditions w,
    SetFailure H mr reason message cl
    = (with_Status mr
         (set_Conditions conditions
            (set_FailureMessage message
               (set_FailureReason reason (set_Phase MachinePhaseFailed (Status mr))))),
       {| world := w; stored := stored cl |}, [])
    /\ meta.IsStatusConditionFalse conditions ConditionTypeReady = true.
Proof.
  unfold SetFailure.
  match goal with |- context [setCondition H ?m ?c cl] =>
    destruct (setCondition_spec H m c cl) as (cs & w & -> & c' & Hfind & Hstatus & _) end.
  exists cs, w. split; [reflexivity|].
  unfold meta.IsStatusConditionFalse. cbn [metav1.Type_ metav1.Status condition] in *.
  rewrite Hfind, Hstatus. reflexivity.
Qed.

Lemma failed_stays_failed p' :
  phase_step MachinePhaseFailed p' -> p' <> MachinePhaseDeleting -> p' = MachinePhaseFailed.
Proof.
  intros Hstep Hnd. destruct (proj2 (proj2 (phase_step_facts _ _ Hstep)) eq_refl) as [Hp|Hp];
    [exact Hp|contradiction].
Qed.

(** C8, as amended.  In the Running phase, when the status read answers
    NotFound and the status write is accepted, the record is written once
    with phase Failed, failure reason VMDeleted, the message of an
    external deletion and the Ready condition False (this last by
    [SetFailure] as the spec has it); provider identifier and addresses
    stay, a warning event is recorded and no re-run is asked.  A pass
    over a Failed record that is not being deleted calls no platform and
    leaves the record in the Failed phase; when it obtains the provider
    configuration and the client and finds the guard token, its reads are
    all it does: no write, no event, no re-run, and the record is as
    before.  The switch of [Reconcile] does nothing at all for a Failed
    record. *)
Theorem vanished_machine_fails_the_record_and_failed_stays :
  (forall (mr : MachineRequest) (hc : harvester.Client) (cl cl1 : Cluster W)
          (status : harvester.VMStatus) (e : error) (reads : list Call),
      stored cl = Some mr ->
      harvester.GetVMStatus H hc (MachineName (Spec mr)) cl = ((status, Some e), cl1, reads) ->
      IsNotFound e = true ->
      (forall w, snd (store_status_update H w) = None) ->
      let '(result, cl', calls) := reconcileRunning H mr hc cl in
      result = (Result_zero, None)
      /\ exists st,
           stored cl' = Some (with_Status mr st)
           /\ calls = reads ++ [UpdateStatus (with_Status mr st);
                                RecordEvent corev1.EventTypeWarning "VMDeleted"
                                  "VM was deleted externally"]
           /\ Phase st = MachinePhaseFailed
           /\ FailureReason st = "VMDeleted"
           /\ FailureMessage st = "VM was deleted externally"
           /\ meta.IsStatusConditionFalse (Conditions st) ConditionTypeReady = true
           /\ ProviderID st = ProviderID (Status mr)
           /\ IPAddress st = IPAddress (Status mr)
           /\ MACAddress st = MACAddress (Status mr))
  /\ (forall (cl : Cluster W) (mr : MachineRequest),
        stored cl = Some mr ->
        Phase (Status mr) = MachinePhaseFailed ->
        is_deleting mr = false ->
        let '(_, cl', calls) := Reconcile H K cl in
        Forall (fun call => is_platform_call call = false) calls
        /\ phase_of (stored cl') = Some MachinePhaseFailed)
  /\ (forall (cl cl1 cl2 : Cluster W) (mr : MachineRequest) (w0 : W) (pc : ProviderConfig)
             (hc : harvester.Client) (t1 t2 : list Call),
        stored cl = Some mr ->
        Phase (Status mr) = MachinePhaseFailed ->
        is_deleting mr = false ->
        controllerutil.ContainsFinalizer mr finalizerName = true ->
        store_get H (world cl) = (w0, None) ->
        getProviderConfig H mr {| world := w0; stored := Some mr |} = (Ok pc, cl1, t1) ->
        pc_Provider pc = ProviderTypeHarvester K ->
        createHarvesterClient H pc cl1 = (Ok hc, cl2, t2) ->
        Reconcile H K cl = ((Result_zero, None), cl2, GetMachineRequest :: t1 ++ t2)
        /\ stored cl2 = Some mr
        /\ Forall (fun call => is_record_write call = false /\ is_platform_call call = false)
             (GetMachineRequest :: t1 ++ t2))
  /\ (forall (mr : MachineRequest) (hc : harvester.Client) (cl : Cluster W),
        Phase (Status mr) = MachinePhaseFailed ->
        dispatch H K mr hc cl = ((Result_zero, None), cl, [])).
Proof.
  split; [|split; [|split]].
  - intros mr hc cl cl1 status e reads Hst Hget Hnf Hacc.
    pose proof (GetVMStatus_reads H hc (MachineName (Spec mr)) cl) as Hr.
    rewrite Hget in Hr. destruct Hr as [Hkeep _]. rewrite <- Hkeep in Hst.
    unfold reconcileRunning. unfold bind at 1. rewrite Hget, Hnf. unfold bind at 1.
    destruct (SetFailure_spec mr "VMDeleted" "VM was deleted externally" cl1)
      as (cs & w & -> & Hready).
    unfold StatusUpdate, Event, bind, ret. cbn [world stored].
    pose proof (Hacc w) as Hw. destruct (store_status_update H w) as [w' [e'|]];
      [discriminate Hw|]. rewrite Hst. cbn [fst snd world stored app].
    split; [reflexivity|]. eexists. split; [reflexivity|].
    split; [rewrite ?app_nil_r; reflexivity|].
    cbn [Status with_Status Phase FailureReason FailureMessage Conditions ProviderID
         IPAddress MACAddress set_Conditions set_FailureMessage set_FailureReason set_Phase].
    repeat split. exact Hready.
  - intros cl mr Hst Hph Hdel.
    pose proof (Reconcile_calls H K cl mr Hst) as Hc.
    pose proof (Reconcile_outcome H K cl mr Hst) as Ho.
    destruct (Reconcile H K cl) as [[result cl'] calls]. cbn [fst snd] in *. split.
    + eapply Forall_impl; [exact Hc|]. intros call Hcall. cbv beta in Hcall.
      destruct Hcall as [Hb|[[Hd _]|[(_ & _ & Hm)|(_ & _ & [[Hr _]|[[Hp|Hp] _]])]]].
      * destruct call; try discriminate Hb; reflexivity.
      * rewrite Hdel in Hd. discriminate Hd.
      * destruct call; try discriminate Hm; reflexivity.
      * rewrite Hph in Hr. discriminate Hr.
      * rewrite Hph in Hp. discriminate Hp.
      * rewrite Hph in Hp. discriminate Hp.
    + destruct Ho as [|st Hf|st Hd _|st Hd _|_ Hg|st _ _ Hstep Hnd]; cbn [phase_of].
      * rewrite Hph. reflexivity.
      * cbn. rewrite Hf. reflexivity.
      * rewrite Hdel in Hd. discriminate Hd.
      * rewrite Hdel in Hd. discriminate Hd.
      * unfold controllerutil.AddFinalizer. rewrite Hg. cbn. rewrite Hph. reflexivity.
      * cbn. rewrite Hph in Hstep. rewrite (failed_stays_failed _ Hstep Hnd). reflexivity.
  - intros cl cl1 cl2 mr w0 pc hc t1 t2 Hst Hph Hdel Hguard Hget Hpc Hprov Hclient.
    pose proof (getProviderConfig_keeps H mr {| world := w0; stored := Some mr |}) as Hk1.
    rewrite Hpc in Hk1. destruct Hk1 as [Hk1 Hq1].
    pose proof (createHarvesterClient_keeps H pc cl1) as Hk2.
    rewrite Hclient in Hk2. destruct Hk2 as [Hk2 Hq2].
    pose proof (getProviderConfig_bookkeeping H mr {| world := w0; stored := Some mr |}) as Hb1.
    rewrite Hpc in Hb1.
    pose proof (createHarvesterClient_bookkeeping H pc cl1) as Hb2. rewrite Hclient in Hb2.
    cbn [snd stored] in *.
    split; [|split; [rewrite Hk2, Hk1; reflexivity|]].
    + unfold Reconcile, Get. unfold bind at 1. rewrite Hget, Hst.
      unfold bind at 1. rewrite Hpc, Hprov, String.eqb_refl. cbn [negb].
      unfold bind at 1. rewrite Hclient.
      unfold is_deleting in Hdel. rewrite Hdel, Hguard. cbn [negb].
      unfold dispatch. rewrite Hph. cbn. rewrite !app_nil_r. reflexivity.
    + constructor; [split; reflexivity|]. apply Forall_app_2.
      * rewrite Forall_forall in Hq1, Hb1 |- *. intros call Hin.
        destruct (Hq1 call Hin) as [_ Hw]. specialize (Hb1 call Hin). cbv beta in Hb1.
        split; [exact Hw|]. destruct call; try discriminate Hb1; reflexivity.
      * rewrite Forall_forall in Hq2, Hb2 |- *. intros call Hin.
        destruct (Hq2 call Hin) as [_ Hw]. specialize (Hb2 call Hin). cbv beta in Hb2.
        split; [exact Hw|]. destruct call; try discriminate Hb2; reflexivity.
  - intros mr hc cl Hph. unfold dispatch. rewrite Hph. reflexivity.
Qed.

End Vanished.

Section VanishedExamples.

Import butlerv1alpha1 controller Views Reach Trace Probe.

(** A pass over a Failed record whose provider configuration cannot be
    read writes the record again, with another failure reason; and a pass
    over a Failed record that is being deleted, while the machine delete
    is refused, leaves it in the Deleting phase. *)
Lemma failed_record_is_written_again :
  (let '(_, cl', calls) :=
     Reconcile (Worlds.scripted Samples.missing_provider_script) Samples.constants
       (Samples.cluster_with Samples.failed_request) in
   Exists (fun call => is_record_write call = true) calls
   /\ exists mr', stored cl' = Some mr'
                  /\ FailureReason (Status mr') = "ProviderConfigError"
                  /\ FailureReason (Status Samples.failed_request) = "")
  /\ phase_of (stored (snd (fst (Reconcile (Worlds.scripted Samples.unavailable_delete_script)
                                   Samples.constants
                                   (Samples.cluster_with Samples.deleted_request)))))
     = Some MachinePhaseDeleting
  /\ ~ Claims.failed_is_inert.
Proof.
  split; [|split].
  - vm_compute. split.
    + repeat first [apply Exists_cons_hd; reflexivity | apply Exists_cons_tl].
    + eexists. split; [reflexivity|]. split; reflexivity.
  - reflexivity.
  - intros Hclaim.
    specialize (Hclaim unit (Worlds.scripted Samples.missing_provider_script)
                  Samples.constants (Samples.cluster_with Samples.failed_request)
                  Samples.failed_request eq_refl eq_refl).
    vm_compute in Hclaim. destruct Hclaim as [Hstored _]. discriminate Hstored.
Qed.

(** The theorem on the Running record of the worker example, whose Ready
    condition is True, and on its Failed record. *)
Lemma vanished_machine_fails_the_record_and_failed_stays_witness :
  (let '(_, cl', _) :=
     reconcileRunning (Worlds.scripted Samples.vanished_script)
       Samples.running_request Samples.client (Samples.cluster_with Samples.running_request) in
   exists st,
     stored cl' = Some (with_Status Samples.running_request st)
     /\ Phase st = MachinePhaseFailed
     /\ FailureReason st = "VMDeleted"
     /\ meta.IsStatusConditionFalse (Conditions st) ConditionTypeReady = true)
  /\ Reconcile (Worlds.scripted Samples.reporting_script) Samples.constants
       (Samples.cluster_with Samples.failed_request)
     = ((Result_zero, None), Samples.cluster_with Samples.failed_request,
        [GetMachineRequest; GetProviderConfig "butler-system" "harvester-prod";
         GetSecret "butler-system" "harvester-kubeconfig"]).
Proof.
  split.
  - pose proof (proj1 (vanished_machine_fails_the_record_and_failed_stays
                         (Worlds.scripted Samples.vanished_script) Samples.constants)
                  Samples.running_request Samples.client
                  (Samples.cluster_with Samples.running_request)
                  (Samples.cluster_with Samples.running_request)
                  harvester.VMStatus_zero (Worlds.not_found "alpha-cp-0")
                  [GetVirtualMachine "default" "alpha-cp-0"]
                  eq_refl eq_refl eq_refl (fun _ => eq_refl)) as Hw.
    destruct (reconcileRunning _ _ _ _) as [[result cl'] calls].
    destruct Hw as (_ & st & Hs & _ & Hp & Hr & _ & Hready & _).
    exists st. repeat split; assumption.
  - apply (proj1 (proj1 (proj2 (proj2 (vanished_machine_fails_the_record_and_failed_stays
                                         (Worlds.scripted Samples.reporting_script)
                                         Samples.constants)))
                    (Samples.cluster_with Samples.failed_request)
                    (Samples.cluster_with Samples.failed_request)
                    (Samples.cluster_with Samples.failed_request)
                    Samples.failed_request tt Samples.provider_config Samples.client
                    [GetProviderConfig "butler-system" "harvester-prod"]
                    [GetSecret "butler-system" "harvester-kubeconfig"]
                    eq_refl eq_refl eq_refl eq_refl eq_refl eq_refl eq_refl eq_refl)).
Defined.

End VanishedExamples.
